(** * Document-to-JSON extraction pipeline: model and properties

    A shallow embedding of [document_extractor_app.py], [pdf_processor.py]
    and [excel_processor.py].

    Conventions of the model.
    - A Python [str] is a [string] holding its UTF-8 encoding: an ASCII
      character is one byte, any other character two to four bytes.  The
      operations that look at characters are written for that encoding:
      [strip] removes the blank characters of Unicode, the positions in
      the messages of [json.loads] count characters, not bytes.
      [lower] changes ASCII letters only; the source tests lowered text
      against [json], [.pdf], [.xlsx], [.xls], [pdf] and [excel] only,
      and the two characters outside ASCII whose lower case has an ASCII
      letter (U+0130 and U+212A) give [i] and [k], which none of these
      has.
    - A call that may raise is a value of [outcome]: [Return v] or
      [Raise msg], where [msg] is [str(e)] of the exception.  Only
      exceptions caught by [except Exception] are modelled.
    - What lies outside the three files (the language model, the PDF and
      spreadsheet readers, the file system) enters as arguments.
    - Library functions are modelled as CPython 3.11 and 3.12 have them
      on POSIX: [json.loads] with the C scanner, its limit of 4300
      digits on integers and the recursion limit of the interpreter;
      [os.path], [glob] and [pathlib] with [/] as separator and names
      compared with their case. *)

From Stdlib Require Import Ascii String DecimalString ZArith Bool Arith Lia.
From stdpp Require Import base option list gmap strings.

Local Open Scope string_scope.
Local Open Scope N_scope.
Local Open Scope nat_scope.

(** ** Outcomes of calls that may raise *)

Inductive outcome (A : Type) : Type :=
| Return (v : A)
| Raise (msg : string).
Arguments Return {A} v.
Arguments Raise {A} msg.

(** Sequencing: the first exception raised propagates. *)
#[global] Instance outcome_ret : MRet outcome := fun A v => Return v.
#[global] Instance outcome_bind : MBind outcome := fun A B k o =>
  match o with
  | Return v => k v
  | Raise msg => Raise msg
  end.

(** ** Text primitives *)

Module Text.

Definition chr (n : N) : string := String (ascii_of_N n) "".

(** The double quote and the line feed. *)
Definition quote : string := chr 34.
Definition nl : string := chr 10.

Definition code (c : ascii) : N := N_of_ascii c.

Definition char_is (c : ascii) (n : N) : bool := N.eqb (code c) n.

Definition between (lo hi : N) (c : ascii) : bool :=
  N.leb lo (code c) && N.leb (code c) hi.

(** [chr(n)], as UTF-8 bytes. *)
Definition utf8 (n : N) : string :=
  if N.ltb n 128 then chr n
  else if N.ltb n 2048 then chr (192 + n / 64)%N ++ chr (128 + n mod 64)%N
  else if N.ltb n 65536 then
    chr (224 + n / 4096)%N ++ chr (128 + (n / 64) mod 64)%N
    ++ chr (128 + n mod 64)%N
  else
    chr (240 + n / 262144)%N ++ chr (128 + (n / 4096) mod 64)%N
    ++ chr (128 + (n / 64) mod 64)%N ++ chr (128 + n mod 64)%N.

(** The text with the given characters. *)
Fixpoint encode (points : list N) : string :=
  match points with
  | [] => ""
  | n :: rest => utf8 n ++ encode rest
  end.

(** The characters for which [str.isspace] holds, and which [str.strip]
    removes: TAB..CR, FS..US, the space, U+0085, U+00A0, U+1680,
    U+2000..U+200A, U+2028, U+2029, U+202F, U+205F and U+3000. *)
Definition whitespace_points : list N :=
  [9; 10; 11; 12; 13; 28; 29; 30; 31; 32; 133; 160; 5760;
   8192; 8193; 8194; 8195; 8196; 8197; 8198; 8199; 8200; 8201; 8202;
   8232; 8233; 8239; 8287; 12288]%N.

Definition isspace (n : N) : bool := existsb (N.eqb n) whitespace_points.

(** The blank characters as they stand in a text. *)
Definition whitespace : list string := map utf8 whitespace_points.

Definition blank_char (t : string) : bool := existsb (String.eqb t) whitespace.

(** A byte that continues a character begun before it. *)
Definition continuation (c : ascii) : bool := between 128 191 c.


Definition isdigit (c : ascii) : bool := between 48 57 c.

Definition lower_char (c : ascii) : ascii :=
  if between 65 90 c then ascii_of_N (code c + 32)%N else c.

Definition upper_char (c : ascii) : ascii :=
  if between 97 122 c then ascii_of_N (code c - 32)%N else c.

Fixpoint map_chars (f : ascii -> ascii) (s : string) : string :=
  match s with
  | "" => ""
  | String c r => String (f c) (map_chars f r)
  end.

(** [s.lower()] *)
Definition lower (s : string) : string := map_chars lower_char s.


(** [s.capitalize()], for ASCII text, as the document types of the
    source are: first character upper case, the rest lower case. *)
Definition capitalize (s : string) : string :=
  match s with
  | "" => ""
  | String c r => String (upper_char c) (lower r)
  end.

Fixpoint lstrip_with (p : ascii -> bool) (s : string) : string :=
  match s with
  | "" => ""
  | String c r => if p c then lstrip_with p r else s
  end.

Fixpoint rstrip_with (p : ascii -> bool) (s : string) : string :=
  match s with
  | "" => ""
  | String c r =>
      match rstrip_with p r with
      | "" => if p c then "" else String c ""
      | r' => String c r'
      end
  end.

Definition strip_with (p : ascii -> bool) (s : string) : string :=
  rstrip_with p (lstrip_with p s).

(** [s.lstrip()]: a blank character stands as one, two or three bytes. *)
Fixpoint lstrip (s : string) : string :=
  match s with
  | "" => ""
  | String a r1 =>
      if blank_char (String a "") then lstrip r1
      else
        match r1 with
        | "" => s
        | String b r2 =>
            if blank_char (String a (String b "")) then lstrip r2
            else
              match r2 with
              | "" => s
              | String c r3 =>
                  if blank_char (String a (String b (String c ""))) then lstrip r3
                  else s
              end
        end
  end.

(** [s.rstrip()]: the longest end of the text that is made of blank
    characters goes. *)
Fixpoint rstrip (s : string) : string :=
  match s with
  | "" => ""
  | String c r =>
      match lstrip s with
      | "" => ""
      | _ => String c (rstrip r)
      end
  end.

(** [s.strip()] *)
Definition strip (s : string) : string := rstrip (lstrip s).

(** A text that is empty or made of blank characters only. *)
Definition whitespace_only (text : string) : Prop :=
  exists points, Forall (fun n => isspace n = true) points /\ text = encode points.

Fixpoint mem_char (c : ascii) (chars : string) : bool :=
  match chars with
  | "" => false
  | String d r => Ascii.eqb c d || mem_char c r
  end.

(** [s.strip(chars)] *)
Definition strip_chars (chars s : string) : string :=
  strip_with (fun c => mem_char c chars) s.

(** [s.startswith(p)] *)
Definition startswith (s p : string) : bool := String.prefix p s.

(** [s[n:]] *)
Fixpoint drop (n : nat) (s : string) : string :=
  match n, s with
  | O, _ => s
  | S _, "" => ""
  | S m, String _ r => drop m r
  end.

(** [s.endswith(p)] *)
Definition endswith (s p : string) : bool :=
  Nat.leb (String.length p) (String.length s)
  && String.eqb (drop (String.length s - String.length p) s) p.

(** [sep.join(parts)] *)
Fixpoint join (sep : string) (parts : list string) : string :=
  match parts with
  | [] => ""
  | [p] => p
  | p :: rest => p ++ sep ++ join sep rest
  end.

(** [str(n)] for a natural number. *)
Definition dec (n : nat) : string := NilEmpty.string_of_uint (Nat.to_uint n).

(** Truth value of a [str]: non-empty. *)
Definition truthy (s : string) : bool :=
  match s with "" => false | _ => true end.

(** Every character of [s] satisfies [p]. *)
Fixpoint all_chars (p : ascii -> bool) (s : string) : bool :=
  match s with
  | "" => true
  | String c r => p c && all_chars p r
  end.

Definition first_char (s : string) : option ascii :=
  match s with String c _ => Some c | "" => None end.

Fixpoint last_char (s : string) : option ascii :=
  match s with
  | "" => None
  | String c "" => Some c
  | String _ r => last_char r
  end.

(** [s] neither begins nor ends with a character satisfying [p]. *)
Definition trimmed (p : ascii -> bool) (s : string) : Prop :=
  (forall c, first_char s = Some c -> p c = false)
  /\ (forall c, last_char s = Some c -> p c = false).

End Text.

(** ** JSON values and [json.loads] *)

Module Json.
Import Text.

(** What [json.loads] builds: [None], [bool], [int], [float], [str],
    [list] and [dict].  A float is kept as the text that [float()] is
    given; a dict keeps its keys in insertion order, each key once. *)
#[local] Unset Elimination Schemes.
Inductive value : Type :=
| JNull
| JBool (b : bool)
| JInt (z : Z)
| JFloat (lexeme : string)
| JStr (s : string)
| JList (items : list value)
| JDict (pairs : list (string * value)).
#[local] Set Elimination Schemes.

(** [d[k] = v] *)
Fixpoint dict_set (k : string) (v : value) (d : list (string * value))
  : list (string * value) :=
  match d with
  | [] => [(k, v)]
  | (k', v') :: r =>
      if String.eqb k k' then (k, v) :: r else (k', v') :: dict_set k v r
  end.

(** [dict(pairs)] *)
Definition dict_of_pairs (ps : list (string * value)) : list (string * value) :=
  fold_left (fun d kv => dict_set (fst kv) (snd kv) d) ps [].

(** [d.get(k)] *)
Fixpoint dict_get (k : string) (d : list (string * value)) : option value :=
  match d with
  | [] => None
  | (k', v) :: r => if String.eqb k k' then Some v else dict_get k r
  end.

(** [k in result], for a result that is a dict; a result of another
    type has no keys. *)
Definition has_key (k : string) (v : value) : bool :=
  match v with
  | JDict d => match dict_get k d with Some _ => true | None => false end
  | _ => false
  end.

(** *** The decoder

    The scanner walks the text with the remaining input and the index
    of its first byte.  [Failed msg pos] is a [JSONDecodeError] at that
    index; [Broke msg] is another exception, with [msg] its [str]: the
    [RecursionError] of the interpreter or the [ValueError] of [int].
    A [StopIteration(idx)] of [scan_once] is turned by each of its
    callers into "Expecting value" at [idx], and is modelled as that
    failure directly. *)

Inductive scan (A : Type) : Type :=
| Scanned (v : A) (rest : string) (pos : nat)
| Failed (msg : string) (pos : nat)
| Broke (msg : string)
| Exhausted.
Arguments Scanned {A} v rest pos.
Arguments Failed {A} msg pos.
Arguments Broke {A} msg.
Arguments Exhausted {A}.

(** WHITESPACE: space, tab, line feed, carriage return. *)
Definition is_ws (c : ascii) : bool := char_is c 32 || char_is c 9 || char_is c 10 || char_is c 13.

Fixpoint skip_ws (s : string) (i : nat) : string * nat :=
  match s with
  | String c r => if is_ws c then skip_ws r (S i) else (s, i)
  | "" => (s, i)
  end.

Definition hex_digit (c : ascii) : option N :=
  if between 48 57 c then Some (code c - 48)%N
  else if between 97 102 c then Some (code c - 87)%N
  else if between 65 70 c then Some (code c - 55)%N
  else None.

Definition hex4 (a b c d : ascii) : option N :=
  match hex_digit a, hex_digit b, hex_digit c, hex_digit d with
  | Some x, Some y, Some z, Some w => Some (((x * 16 + y) * 16 + z) * 16 + w)%N
  | _, _, _, _ => None
  end.

(** BACKSLASH *)
Definition unescape (c : ascii) : option string :=
  if char_is c 34 then Some (chr 34)
  else if char_is c 92 then Some (chr 92)
  else if char_is c 47 then Some (chr 47)
  else if char_is c 98 then Some (chr 8)
  else if char_is c 102 then Some (chr 12)
  else if char_is c 110 then Some (chr 10)
  else if char_is c 114 then Some (chr 13)
  else if char_is c 116 then Some (chr 9)
  else None.

Definition high_surrogate (n : N) : bool := N.leb 55296 n && N.leb n 56319.
Definition low_surrogate (n : N) : bool := N.leb 56320 n && N.leb n 57343.

(** [scanstring(s, end)]: [s] starts after the opening quote, at index
    [i]; [begin] is the index of that quote. *)
Fixpoint scanstring (begin : nat) (acc : string) (s : string) (i : nat)
  : scan string :=
  match s with
  | "" => Failed "Unterminated string starting at" begin
  | String c r =>
      if char_is c 34 then Scanned acc r (S i)
      else if char_is c 92 then
        match r with
        | "" => Failed "Unterminated string starting at" begin
        | String e r1 =>
            if char_is e 117 then
              match r1 with
              | String h1 (String h2 (String h3 (String h4 ((String x r3) as r2)))) =>
                  match hex4 h1 h2 h3 h4 with
                  | None => Failed "Invalid \uXXXX escape" (i + 1)
                  | Some u =>
                      let single := scanstring begin (acc ++ utf8 u) r2 (i + 6) in
                      if high_surrogate u then
                        match r2 with
                        | String b (String v (String g1 (String g2
                            (String g3 (String g4 ((String _ _) as r4)))))) =>
                            if char_is b 92 && char_is v 117 then
                              match hex4 g1 g2 g3 g4 with
                              | None => Failed "Invalid \uXXXX escape" (i + 7)
                              | Some u2 =>
                                  if low_surrogate u2 then
                                    scanstring begin
                                      (acc ++ utf8 (65536 + (u - 55296) * 1024 + (u2 - 56320))%N)
                                      r4 (i + 12)
                                  else single
                              end
                            else single
                        | _ => single
                        end
                      else single
                  end
              | _ => Failed "Invalid \uXXXX escape" (i + 1)
              end
            else
              match unescape e with
              | Some ch => scanstring begin (acc ++ ch) r1 (i + 2)
              | None => Failed "Invalid \escape" i
              end
        end
      else if N.leb (code c) 31 then Failed "Invalid control character at" i
      else scanstring begin (acc ++ String c "") r (S i)
  end.

(** Longest run of decimal digits at the head of [s]. *)
Fixpoint digits (s : string) : string * string :=
  match s with
  | String c r =>
      if isdigit c then let (d, rest) := digits r in (String c d, rest)
      else ("", s)
  | "" => ("", "")
  end.

(** [int(lexeme)] for an optional sign and decimal digits. *)
Definition int_of_digits (d : string) : Z :=
  (fix go (s : string) (acc : Z) : Z :=
     match s with
     | "" => acc
     | String c r => go r (acc * 10 + Z.of_N (code c - 48)%N)%Z
     end) d 0%Z.

Definition parse_int (lexeme : string) : Z :=
  match lexeme with
  | String c r => if char_is c 45 then (- int_of_digits r)%Z else int_of_digits lexeme
  | "" => 0%Z
  end.

(** The default of [sys.get_int_max_str_digits()]. *)
Definition int_max_str_digits : nat := 4300.

Definition too_many_digits (n : nat) : string :=
  "Exceeds the limit (4300 digits) for integer string conversion: value has "
    ++ dec n ++ " digits; use sys.set_int_max_str_digits() to increase the limit".

(** [int(lexeme)] as [PyLong_FromString] has it: the digits, the sign
    apart, are counted against the limit. *)
Definition py_int (lexeme : string) : outcome Z :=
  let n :=
    match lexeme with
    | String c r => if char_is c 45 then String.length r else String.length lexeme
    | "" => 0
    end in
  if Nat.ltb int_max_str_digits n then Raise (too_many_digits n)
  else Return (parse_int lexeme).

(** NUMBER_RE.  The integer group is an optional minus sign followed
    by a single zero or by a non-zero digit and any digits; the optional
    fraction group is a dot and one or more digits; the optional exponent
    group is e or E, an optional sign and one or more digits. *)
Definition match_integer (s : string) : option (string * string) :=
  let (sign, s1) :=
    match s with
    | String c r => if char_is c 45 then ("-", r) else ("", s)
    | "" => ("", s)
    end in
  match s1 with
  | String c r =>
      if char_is c 48 then Some (sign ++ "0", r)
      else if isdigit c then let (d, rest) := digits s1 in Some (sign ++ d, rest)
      else None
  | "" => None
  end.

Definition match_frac (s : string) : string * string :=
  match s with
  | String c r =>
      if char_is c 46 then
        match digits r with
        | ("", _) => ("", s)
        | (d, rest) => ("." ++ d, rest)
        end
      else ("", s)
  | "" => ("", s)
  end.

Definition match_exp (s : string) : string * string :=
  match s with
  | String c r =>
      if char_is c 101 || char_is c 69 then
        let (sign, r1) :=
          match r with
          | String g r' => if char_is g 45 || char_is g 43 then (String g "", r') else ("", r)
          | "" => ("", r)
          end in
        match digits r1 with
        | ("", _) => ("", s)
        | (d, rest) => (String c sign ++ d, rest)
        end
      else ("", s)
  | "" => ("", s)
  end.

Definition match_number (s : string) (i : nat)
  : option (outcome value * string * nat) :=
  match match_integer s with
  | None => None
  | Some (integer, s1) =>
      let (frac, s2) := match_frac s1 in
      let (exp, s3) := match_exp s2 in
      let res :=
        if truthy frac || truthy exp then Return (JFloat (integer ++ frac ++ exp))
        else z ← py_int integer; Return (JInt z) in
      Some (res, s3, i + String.length integer + String.length frac + String.length exp)
  end.

Definition lift {A B} (f : A -> B) (r : scan A) : scan B :=
  match r with
  | Scanned v rest pos => Scanned (f v) rest pos
  | Failed msg pos => Failed msg pos
  | Broke msg => Broke msg
  | Exhausted => Exhausted
  end.

(** The message of the [RecursionError] of [Py_EnterRecursiveCall]. *)
Definition too_deep (what : string) : string :=
  "maximum recursion depth exceeded while decoding a JSON " ++ what
    ++ " from a unicode string".

(** [scan_once], with [JSONArray] and [JSONObject].  [array_items]
    starts at an item, [object_items] after the opening quote of a key.
    [depth] is the number of recursive calls that the interpreter still
    allows: entering an array or an object takes one, and with none left
    the [RecursionError] is raised.  Each nested call of the model spends
    one unit of [fuel]. *)
Fixpoint scan_once (fuel depth : nat) (s : string) (i : nat) {struct fuel} : scan value :=
  match fuel with
  | O => Exhausted
  | S f =>
      match s with
      | "" => Failed "Expecting value" i
      | String c r =>
          if char_is c 34 then lift JStr (scanstring i "" r (S i))
          else if char_is c 123 then
            match depth with
            | O => Broke (too_deep "object")
            | S d =>
                let (s1, i1) := skip_ws r (S i) in
                match s1 with
                | String e r1 =>
                    if char_is e 125 then Scanned (JDict []) r1 (S i1)
                    else if char_is e 34 then object_items f d [] r1 (S i1)
                    else Failed "Expecting property name enclosed in double quotes" i1
                | "" => Failed "Expecting property name enclosed in double quotes" i1
                end
            end
          else if char_is c 91 then
            match depth with
            | O => Broke (too_deep "array")
            | S d =>
                let (s1, i1) := skip_ws r (S i) in
                match s1 with
                | String e r1 =>
                    if char_is e 93 then Scanned (JList []) r1 (S i1)
                    else array_items f d [] s1 i1
                | "" => array_items f d [] s1 i1
                end
            end
          else if startswith s "null" then Scanned JNull (drop 4 s) (i + 4)
          else if startswith s "true" then Scanned (JBool true) (drop 4 s) (i + 4)
          else if startswith s "false" then Scanned (JBool false) (drop 5 s) (i + 5)
          else
            match match_number s i with
            | Some (Return v, rest, j) => Scanned v rest j
            | Some (Raise e, _, _) => Broke e
            | None =>
                if startswith s "NaN" then Scanned (JFloat "NaN") (drop 3 s) (i + 3)
                else if startswith s "Infinity" then
                  Scanned (JFloat "Infinity") (drop 8 s) (i + 8)
                else if startswith s "-Infinity" then
                  Scanned (JFloat "-Infinity") (drop 9 s) (i + 9)
                else Failed "Expecting value" i
            end
      end
  end
with array_items (fuel depth : nat) (acc : list value) (s : string) (i : nat)
       {struct fuel} : scan value :=
  match fuel with
  | O => Exhausted
  | S f =>
      match scan_once f depth s i with
      | Scanned v r j =>
          let (r1, j1) := skip_ws r j in
          match r1 with
          | String c r2 =>
              if char_is c 93 then Scanned (JList (acc ++ [v])) r2 (S j1)
              else if char_is c 44 then
                let (r3, j3) := skip_ws r2 (S j1) in
                array_items f depth (acc ++ [v]) r3 j3
              else Failed "Expecting ',' delimiter" j1
          | "" => Failed "Expecting ',' delimiter" j1
          end
      | Failed msg pos => Failed msg pos
      | Broke msg => Broke msg
      | Exhausted => Exhausted
      end
  end
with object_items (fuel depth : nat) (acc : list (string * value)) (s : string) (i : nat)
       {struct fuel} : scan value :=
  match fuel with
  | O => Exhausted
  | S f =>
      match scanstring (i - 1) "" s i with
      | Scanned key r j =>
          let (r1, j1) := skip_ws r j in
          match r1 with
          | String c r2 =>
              if char_is c 58 then
                let (r3, j3) := skip_ws r2 (S j1) in
                match scan_once f depth r3 j3 with
                | Scanned v r4 j4 =>
                    let (r5, j5) := skip_ws r4 j4 in
                    match r5 with
                    | String e r6 =>
                        if char_is e 125 then
                          Scanned (JDict (dict_of_pairs (acc ++ [(key, v)]))) r6 (S j5)
                        else if char_is e 44 then
                          let (r7, j7) := skip_ws r6 (S j5) in
                          match r7 with
                          | String q r8 =>
                              if char_is q 34 then
                                object_items f depth (acc ++ [(key, v)]) r8 (S j7)
                              else
                                Failed "Expecting property name enclosed in double quotes" j7
                          | "" =>
                              Failed "Expecting property name enclosed in double quotes" j7
                          end
                        else Failed "Expecting ',' delimiter" j5
                    | "" => Failed "Expecting ',' delimiter" j5
                    end
                | Failed msg pos => Failed msg pos
                | Broke msg => Broke msg
                | Exhausted => Exhausted
                end
              else Failed "Expecting ':' delimiter" j1
          | "" => Failed "Expecting ':' delimiter" j1
          end
      | Failed msg pos => Failed msg pos
      | Broke msg => Broke msg
      | Exhausted => Exhausted
      end
  end.

(** Line and column of the byte index [pos] in [doc], as
    JSONDecodeError counts them: lines and columns from 1, a column for
    each character. *)
Fixpoint line_col (doc : string) (pos line col : nat) : nat * nat :=
  match pos, doc with
  | S p, String c r =>
      if char_is c 10 then line_col r p (S line) 1
      else if continuation c then line_col r p line col
      else line_col r p line (S col)
  | _, _ => (line, col)
  end.

(** The number of characters before the byte index [pos]. *)
Fixpoint char_index (doc : string) (pos : nat) : nat :=
  match pos, doc with
  | S p, String c r => if continuation c then char_index r p else S (char_index r p)
  | _, _ => 0
  end.

(** [str(JSONDecodeError(msg, doc, pos))] *)
Definition errmsg (msg doc : string) (pos : nat) : string :=
  let (line, col) := line_col doc pos 1 1 in
  msg ++ ": line " ++ dec line ++ " column " ++ dec col
      ++ " (char " ++ dec (char_index doc pos) ++ ")".

(** The byte order mark U+FEFF. *)
Definition bom : string := chr 239 ++ chr 187 ++ chr 191.

(** Nesting uses at most two units of fuel per character. *)
Definition fuel_for (s : string) : nat := 2 * String.length s + 2.

(** [json.loads(s)]: the value, or the [str] of the exception raised,
    a JSONDecodeError, a RecursionError or a ValueError.  [depth] is the
    number of nested arrays and objects that the interpreter allows when
    the scanner starts: what is left of the recursion limit (1000 unless
    changed) at that point of the call stack.  The fuel of the model is
    never used up. *)
Definition json_loads (depth : nat) (s : string) : outcome value :=
  if startswith s bom then
    Raise (errmsg "Unexpected UTF-8 BOM (decode using utf-8-sig)" s 0)
  else
    let (s0, i0) := skip_ws s 0 in
    match scan_once (fuel_for s) depth s0 i0 with
    | Scanned v rest j =>
        let (rest', j') := skip_ws rest j in
        match rest' with
        | "" => Return v
        | _ => Raise (errmsg "Extra data" s j')
        end
    | Failed msg pos => Raise (errmsg msg s pos)
    | Broke msg => Raise msg
    | Exhausted => Raise ""
    end.

(** A scan of [s] is settled when the model did not run out of fuel and,
    if the scan succeeded, it left less than [s]. *)
Definition settled (res : scan value) (s : string) : Prop :=
  res <> Exhausted
  /\ forall v r j, res = Scanned v r j -> String.length r < String.length s.

End Json.

(** ** The extraction client ([document_extractor_app.py]) *)

Module Extractor.
Import Text Json.

(** The template is written with [^] where the source has a double
    quote. *)
Definition requote (s : string) : string :=
  map_chars (fun c => if char_is c 94 then ascii_of_N 34 else c) s.

Definition prompt_head : string := requote
"
	You are an AI assistant that extracts essential structured data from business documents.

	Extract the key information from the following ".

Definition prompt_schema : string := requote
" and return ONLY valid JSON.
	
	JSON Structure:
	{
		^document_info^: {
			^document_type^: ^string or null^,
			^document_number^: ^string or null^,
			^date^: ^string or null^,
			^due_date^: ^string or null^,
			^currency^: ^string or null^
		},
		^vendor_info^: {
			^company_name^: ^string or null^,
			^address^: ^string or null^,
			^phone^: ^string or null^,
			^email^: ^string or null^,
			^tax_id^: ^string or null^
		},
		^customer_info^: {
			^company_name^: ^string or null^,
			^address^: ^string or null^,
			^phone^: ^string or null^,
			^email^: ^string or null^
		},
		^line_items^: [
			{
				^description^: ^string or null^,
				^quantity^: ^float or null^,
				^unit_price^: ^float or null^,
				^total_price^: ^float or null^
			}
		],
		^totals^: {
			^subtotal^: ^float or null^,
			^tax_amount^: ^float or null^,
			^total_amount^: ^float or null^
		},
        Also extract if there is other data present in the excel related to the business like shipping address, delivery date etc. Only include this data in the json if it is present in the document.

	}
	
	Don't include itmes in json whose value is null.
	
	".

Definition prompt_data : string := requote
" data to analyze:
	".

Definition prompt_tail : string := requote
"
	".

(** The f-string of [extract_with_gemini]. *)
Definition prompt (text document_type : string) : string :=
  prompt_head ++ document_type ++ prompt_schema
    ++ capitalize document_type ++ prompt_data ++ text ++ prompt_tail.

(** The cleaning of the completion: [.strip()], then the removal of a
    markdown fence and of a leading [json]. *)
Definition clean (response_text : string) : string :=
  let raw_text := strip response_text in
  if startswith raw_text "```" then
    let raw_text := strip_chars "`" raw_text in
    if startswith (lower raw_text) "json" then strip (drop 4 raw_text)
    else raw_text
  else raw_text.

(** The characters that [.strip("`")] removes. *)
Definition is_backtick (c : ascii) : bool := mem_char c "`".

(** The dict returned when the cleaned text does not parse. *)
Definition error_record (e raw_text : string) : value :=
  JDict [("error", JStr ("Failed to parse JSON: " ++ e)); ("raw", JStr raw_text)].

(** The [try] around [json.loads]; [depth] as for [json_loads]. *)
Definition parse (depth : nat) (raw_text : string) : value :=
  match json_loads depth raw_text with
  | Return v => v
  | Raise e => error_record e raw_text
  end.

(** [extract_with_gemini(text, document_type)].  [generate] stands for
    [model.generate_content(prompt)] followed by [response.text]: the
    completion, or the exception that the call or the access raises,
    which nothing here catches.  [depth] is what the interpreter allows
    to [json.loads] where the function is called. *)
Definition extract_with_gemini (depth : nat) (generate : string -> outcome string)
    (text document_type : string) : outcome value :=
  response_text ← generate (prompt text document_type);
  Return (parse depth (clean response_text)).

End Extractor.

(** ** Text normalizers ([pdf_processor.py], [excel_processor.py]) *)

Module Normalizer.
Import Text.

(** *** PDF

    What pdfplumber gives: opening the document returns its pages or
    raises; [page.extract_text()] returns a [str] or [None], or raises. *)
Definition page : Type := outcome (option string).
Definition pdf : Type := outcome (list page).

(** [t or ""] *)
Definition or_empty (t : option string) : string :=
  match t with Some s => s | None => "" end.

(** The loop [for page in pdf.pages: text += page.extract_text() or ""]. *)
Fixpoint pages_text (text : string) (pages : list page) : outcome string :=
  match pages with
  | [] => Return text
  | p :: rest => t ← p; pages_text (text ++ or_empty t) rest
  end.

(** [extract_text_from_pdf(pdf_file)] *)
Definition extract_text_from_pdf (pdf_file : pdf) : outcome string :=
  pages ← pdf_file; pages_text "" pages.

(** [extract_text_from_pdf_path(pdf_path)], [open] being
    [pdfplumber.open]. *)
Definition extract_text_from_pdf_path (open : string -> pdf) (pdf_path : string)
  : outcome string :=
  match pages ← open pdf_path; pages_text "" pages with
  | Return text => Return text
  | Raise e => Raise ("Error reading PDF " ++ pdf_path ++ ": " ++ e)
  end.

(** *** Spreadsheets

    What [pd.read_excel(..., sheet_name=None)] gives: a dict from sheet
    name to DataFrame, in workbook order.  A cell is a missing value
    (NaN, NaT, None, [pd.NA]) or another value; either is kept as its
    [str]; a column is kept as its [str]; the index of a frame read this
    way is 0, 1, 2, ... *)
Inductive cell : Type :=
| Missing (repr : string)
| Val (repr : string).

(** The missing value of a numeric or text column. *)
Definition nan : cell := Missing "nan".

(** [pd.notna(val)] *)
Definition notna (val : cell) : bool :=
  match val with Missing _ => false | Val _ => true end.

(** [str(val)] *)
Definition str (val : cell) : string :=
  match val with Missing repr => repr | Val repr => repr end.

Record data_frame : Type := {
  columns : list string;
  rows : list (list cell)
}.

Definition workbook : Type := list (string * data_frame).

(** [df.empty]: some axis has length 0. *)
Definition empty (df : data_frame) : bool :=
  Nat.eqb (length (rows df)) 0 || Nat.eqb (length (columns df)) 0.

(** [df.iterrows()] *)
Definition iterrows (df : data_frame) : list (nat * list cell) :=
  combine (seq 0 (length (rows df))) (rows df).

(** [str(val) if pd.notna(val) else ""] *)
Definition cell_text (val : cell) : string :=
  if notna val then str val else "".

(** One pass of the inner loop over the rows. *)
Definition add_row (text_content : string) (r : nat * list cell) : string :=
  let row_text := join " | " (map cell_text (snd r)) in
  text_content ++ "ROW " ++ dec (fst r + 1) ++ ": " ++ row_text ++ nl.

(** One pass of the loop over [xl_data.items()]. *)
Definition add_sheet (text_content : string) (sheet : string * data_frame) : string :=
  let (sheet_name, df) := sheet in
  let text_content := text_content ++ nl ++ "=== SHEET: " ++ sheet_name ++ " ===" ++ nl in
  if negb (empty df) then
    let text_content := text_content ++ "COLUMNS: " ++ join " | " (columns df) ++ nl in
    fold_left add_row (iterrows df) text_content
  else text_content ++ "EMPTY SHEET" ++ nl.

Definition workbook_text (xl_data : workbook) : string :=
  fold_left add_sheet xl_data "".

(** [extract_text_from_excel(excel_file)]: the argument is what
    [pd.read_excel] makes of the uploaded file, rewound. *)
Definition extract_text_from_excel (excel_file : outcome workbook) : outcome string :=
  match xl_data ← excel_file; Return (workbook_text xl_data) with
  | Return text_content => Return text_content
  | Raise e => Raise ("Error reading Excel file: " ++ e)
  end.

(** [extract_text_from_excel_path(excel_path)] *)
Definition extract_text_from_excel_path (read_excel : string -> outcome workbook)
    (excel_path : string) : outcome string :=
  match xl_data ← read_excel excel_path; Return (workbook_text xl_data) with
  | Return text_content => Return text_content
  | Raise e => Raise ("Error reading Excel file " ++ excel_path ++ ": " ++ e)
  end.

(** *** The layout in the words of the specification

    Per sheet, in workbook order: a marker with the name of the sheet;
    then, if the sheet has rows, a header line with the column names
    joined by the delimiter and one line per row, numbered from 1, the
    cells joined by the same delimiter and a missing value left empty;
    for a sheet without rows, the empty-sheet marker alone. *)
Definition delimiter : string := " | ".

Definition sheet_marker (sheet_name : string) : string :=
  nl ++ "=== SHEET: " ++ sheet_name ++ " ===" ++ nl.

Definition empty_sheet_marker : string := "EMPTY SHEET" ++ nl.

Definition header_line (cols : list string) : string :=
  "COLUMNS: " ++ join delimiter cols ++ nl.

(** A cell as the specification renders it: a missing value is the
    empty string. *)
Definition rendered (c : cell) : string :=
  match c with Missing _ => "" | Val repr => repr end.

Definition row_line (number : nat) (row : list cell) : string :=
  "ROW " ++ dec number ++ ": " ++ join delimiter (map rendered row) ++ nl.

Fixpoint row_lines (number : nat) (rs : list (list cell)) : string :=
  match rs with
  | [] => ""
  | row :: rest => row_line number row ++ row_lines (S number) rest
  end.

Definition sheet_layout (sheet : string * data_frame) : string :=
  sheet_marker (fst sheet)
  ++ match rows (snd sheet) with
     | [] => empty_sheet_marker
     | _ => header_line (columns (snd sheet)) ++ row_lines 1 (rows (snd sheet))
     end.

Fixpoint workbook_layout (xl_data : workbook) : string :=
  match xl_data with
  | [] => ""
  | sheet :: rest => sheet_layout sheet ++ workbook_layout rest
  end.

(** A frame as [pd.read_excel] builds it: with rows, it has columns
    (the columns come from the first row of the sheet that has data). *)
Definition as_read (sheet : string * data_frame) : Prop :=
  rows (snd sheet) <> [] -> columns (snd sheet) <> [].

End Normalizer.

(** ** Paths ([os.path], [pathlib]), POSIX flavour *)

Module Paths.
Import Text.

Definition is_slash (c : ascii) : bool := char_is c 47.
Definition is_dot (c : ascii) : bool := char_is c 46.

(** Split at the last character satisfying [p]: in [Some (h, t)] the
    text is [h], that character, then [t], and [t] has no such
    character. *)
Fixpoint rpartition (p : ascii -> bool) (s : string) : option (string * string) :=
  match s with
  | "" => None
  | String x r =>
      match rpartition p r with
      | Some (h, t) => Some (String x h, t)
      | None => if p x then Some ("", r) else None
      end
  end.

(** A name without a slash, as the names of directory entries are. *)
Definition no_slash (s : string) : Prop :=
  all_chars (fun c => negb (is_slash c)) s = true.

(** [os.path.join(a, b)] *)
Definition os_path_join (a b : string) : string :=
  if startswith b "/" then b
  else if negb (truthy a) || endswith a "/" then a ++ b
  else a ++ "/" ++ b.

(** [os.path.split(p)] *)
Definition os_path_split (p : string) : string * string :=
  match rpartition is_slash p with
  | None => ("", p)
  | Some (h, tail) =>
      let head := h ++ "/" in
      match rstrip_with is_slash head with
      | "" => (head, tail)
      | stripped => (stripped, tail)
      end
  end.

(** [Path(p).name], for a path whose last component is a file name. *)
Definition name (p : string) : string :=
  match rpartition is_slash p with
  | None => p
  | Some (_, tail) => tail
  end.

(** [Path(p).suffix]: from the last dot of the name, unless that dot
    is the first or the last character of the name. *)
Definition suffix (p : string) : string :=
  match rpartition is_dot (name p) with
  | Some (String _ _, String c t) => "." ++ String c t
  | _ => ""
  end.

(** [Path(p).stem] *)
Definition stem (p : string) : string :=
  match rpartition is_dot (name p) with
  | Some ((String _ _) as h, String _ _) => h
  | _ => name p
  end.

(** An extension, without its dot: not empty, no dot, no slash. *)
Definition plain_ext (ext : string) : Prop :=
  ext <> "" /\ all_chars (fun c => negb (is_dot c)) ext = true /\ no_slash ext.

End Paths.

(** ** Source location ([glob.glob], [os.walk]) *)

Module Locator.
Import Text Paths.

(** A directory tree; the entries of a directory come in the order in
    which the operating system lists them. *)
#[local] Unset Elimination Schemes.
Inductive node : Type :=
| File (name : string)
| Dir (name : string) (entries : list node).
#[local] Set Elimination Schemes.

Definition node_name (n : node) : string :=
  match n with File f => f | Dir d _ => d end.

Definition file_names (entries : list node) : list string :=
  flat_map (fun n => match n with File f => [f] | Dir _ _ => [] end) entries.

Definition dir_names (entries : list node) : list string :=
  flat_map (fun n => match n with File _ => [] | Dir d _ => [d] end) entries.

(** [os.walk(top)], top down: the triple of a directory, then the walks
    of its sub-directories. *)
Fixpoint walk_node (parent : string) (n : node)
  : list (string * list string * list string) :=
  match n with
  | File _ => []
  | Dir d entries =>
      let root := os_path_join parent d in
      (root, dir_names entries, file_names entries)
        :: flat_map (walk_node root) entries
  end.

Definition os_walk (top : string) (entries : list node)
  : list (string * list string * list string) :=
  (top, dir_names entries, file_names entries) :: flat_map (walk_node top) entries.

(** [file.lower().endswith(exts)] *)
Definition has_ext (exts : list string) (file : string) : bool :=
  existsb (endswith (lower file)) exts.

(** The search of the archive functions:
    [for root, dirs, files in os.walk(temp_dir)], [for file in files]. *)
Definition walk_find (exts : list string) (temp_dir : string) (entries : list node)
  : list string :=
  flat_map
    (fun t => map (os_path_join (fst (fst t))) (List.filter (has_ext exts) (snd t)))
    (os_walk temp_dir entries).

(** [glob._ishidden] *)
Definition ishidden (n : string) : bool := startswith n ".".

(** [glob.has_magic]: the text has one of the wildcard characters
    [*], [?] and the opening bracket. *)
Definition is_magic (c : ascii) : bool := char_is c 42 || char_is c 63 || char_is c 91.

Definition has_magic (s : string) : bool :=
  negb (all_chars (fun c => negb (is_magic c)) s).

(** The directory part of the pattern [os.path.join(folder_path, "*" + ext)]. *)
Definition glob_dirname (folder_path ext : string) : string :=
  fst (os_path_split (os_path_join folder_path ("*" ++ ext))).

(** The directories in which [glob] looks for the base name of the
    pattern: the directory part as it is, or, when it has a wildcard
    character, the directories that it matches; [expand] is the search
    of [glob] for these ([_iglob] on the directory part). *)
Definition glob_dirs (expand : string -> list string) (dirname : string) : list string :=
  if has_magic dirname then expand dirname else [dirname].

(** [glob._glob1(dirname, "*" + ext)], each name joined to the
    directory: the entries of the directory are listed, hidden ones are
    dropped, the names matching the pattern are kept (fnmatch, which on
    POSIX compares cases as they are). *)
Definition glob_in (listing : string -> list node) (ext dirname : string) : list string :=
  let names := map node_name (listing dirname) in
  let names := List.filter (fun n => negb (ishidden n)) names in
  map (os_path_join dirname) (List.filter (fun n => endswith n ext) names).

(** [glob.glob(os.path.join(folder_path, "*" + ext))] *)
Definition glob_ext (expand : string -> list string) (listing : string -> list node)
    (folder_path ext : string) : list string :=
  flat_map (glob_in listing ext) (glob_dirs expand (glob_dirname folder_path ext)).

(** [in_tree entries dirs file]: the tree has a file [file] below the
    chain of sub-directories [dirs], outermost first. *)
Inductive in_tree : list node -> list string -> string -> Prop :=
| in_here entries file :
    In (File file) entries -> in_tree entries [] file
| in_below entries d sub dirs file :
    In (Dir d sub) entries -> in_tree sub dirs file ->
    in_tree entries (d :: dirs) file.

(** The path of that file, from the directory [top]. *)
Definition path_under (top : string) (dirs : list string) (file : string) : string :=
  os_path_join (fold_left os_path_join dirs top) file.

End Locator.

(** ** The batch runner ([process_pdf_folder], [process_zip_file],
       [process_excel_folder], [process_excel_zip_file]) *)

Module Batch.
Import Text Json Paths Locator Normalizer.

(** One entry of ['results']. *)
Record file_outcome : Type := {
  file_name : string;
  json_file : string;
  status : string
}.

(** The dict returned by the four functions. *)
Record report : Type := {
  success : bool;
  results : list file_outcome;
  errors : list string;
  total_files : nat;
  files_found : list string
}.

(** What a file of the output directory holds: the dump of a value, or
    the remains of a dump that raised. *)
Inductive content : Type :=
| Dumped (json_data : value)
| Truncated.

(** The result of [with open(json_path, 'w', ...) as f: json.dump(...)]:
    done, or an exception of [open], or an exception once the file is
    open. *)
Inductive write_result : Type :=
| Written
| OpenRaised (msg : string)
| DumpRaised (msg : string).

(** The surroundings of a batch. *)
Record env : Type := {
  (** [Path(dir).mkdir(exist_ok=True)] *)
  mkdir : string -> outcome unit;
  (** the entries of a directory, none if it does not exist *)
  listing : string -> list node;
  (** the directories that a pattern with wildcard characters matches *)
  pattern_dirs : string -> list string;
  (** the name of the directory made by [tempfile.TemporaryDirectory()] *)
  temp_dir : outcome string;
  (** [pdfplumber.open] *)
  pdf_open : string -> pdf;
  (** [pd.read_excel(path, sheet_name=None, engine='openpyxl')] *)
  read_excel : string -> outcome workbook;
  (** writing a value to a path *)
  write_json : string -> value -> write_result
}.

(** What a batch leaves behind, as far as the properties below go: the
    files written through [open(json_path, 'w')], under the path that was
    given to [open] (two paths that name one file are two keys), and the
    calls made to the extraction function, latest last.  The output
    directory that [mkdir] makes and the contents of the temporary
    directory are not part of it. *)
Record world : Type := {
  disk : gmap string content;
  model_calls : list (string * string)
}.

Definition called (text document_type : string) (w : world) : world :=
  {| disk := disk w; model_calls := model_calls w ++ [(text, document_type)] |}.

Definition stored (json_path : string) (c : content) (w : world) : world :=
  {| disk := <[json_path := c]> (disk w); model_calls := model_calls w |}.

(** What differs between the PDF functions and the spreadsheet ones. *)
Record format : Type := {
  kind : string;
  output_dir : string;
  exts : list string;
  read_text : env -> string -> outcome string;
  document_type : string;
  shown_name : string -> string;
  error_name : string -> string;
  no_data : string
}.

Definition pdf_format : format := {|
  kind := "PDF";
  output_dir := "json_output_pdf";
  exts := [".pdf"];
  read_text := fun E pdf_path => extract_text_from_pdf_path (pdf_open E) pdf_path;
  document_type := "PDF document";
  shown_name := fun pdf_path => stem pdf_path ++ ".pdf";
  error_name := fun pdf_path => stem pdf_path ++ ".pdf";
  no_data := "❌ No text found"
|}.

Definition excel_format : format := {|
  kind := "Excel";
  output_dir := "json_output_excel";
  exts := [".xlsx"; ".xls"];
  read_text := fun E excel_path => extract_text_from_excel_path (read_excel E) excel_path;
  document_type := "Excel spreadsheet";
  shown_name := fun excel_path => stem excel_path ++ suffix excel_path;
  error_name := fun excel_path => stem excel_path;
  no_data := "❌ No data found"
|}.

Definition status_success : string := "✅ Success".
Definition status_error (e : string) : string := "❌ Error: " ++ e.

(** [output_dir / json_filename] *)
Definition json_path (fmt : format) (json_filename : string) : string :=
  output_dir fmt ++ "/" ++ json_filename.

(** The loop variables [results] and [errors], and the world. *)
Record state : Type := {
  st_results : list file_outcome;
  st_errors : list string;
  st_world : world
}.

Definition record (o : file_outcome) (err : option string) (w : world) (st : state)
  : state :=
  {| st_results := st_results st ++ [o];
     st_errors := st_errors st ++ match err with Some e => [e] | None => [] end;
     st_world := w |}.

(** [results = []], [errors = []] *)
Definition start (w : world) : state :=
  {| st_results := []; st_errors := []; st_world := w |}.

(** A state continued by what a run gained that started afresh. *)
Definition extend (st gained : state) : state :=
  {| st_results := st_results st ++ st_results gained;
     st_errors := st_errors st ++ st_errors gained;
     st_world := st_world gained |}.

Section Loop.
Variable E : env.
Variable fmt : format.
Variable extract_with_gemini_func : string -> string -> outcome value.

(** The handler of the outer [try] of the loop body. *)
Definition processing_failed (path e : string) (w : world) (st : state) : state :=
  record {| file_name := shown_name fmt path; json_file := "N/A";
            status := status_error e |}
         (Some ("Error processing " ++ error_name fmt path ++ ": " ++ e)) w st.

(** The body of the loop over the located files. *)
Definition process_file (st : state) (path : string) : state :=
  let w := st_world st in
  match read_text fmt E path with
  | Raise e => processing_failed path e w st
  | Return text =>
      if truthy (strip text) then
        let w := called text (document_type fmt) w in
        match extract_with_gemini_func text (document_type fmt) with
        | Raise e => processing_failed path e w st
        | Return json_data =>
            let json_filename := stem path ++ ".json" in
            let saving_failed e w :=
              record {| file_name := shown_name fmt path; json_file := json_filename;
                        status := status_error e |}
                     (Some ("Error saving JSON for " ++ error_name fmt path ++ ": " ++ e))
                     w st in
            match write_json E (json_path fmt json_filename) json_data with
            | Written =>
                record {| file_name := shown_name fmt path; json_file := json_filename;
                          status := status_success |}
                       None (stored (json_path fmt json_filename) (Dumped json_data) w) st
            | OpenRaised e => saving_failed e w
            | DumpRaised e =>
                saving_failed e (stored (json_path fmt json_filename) Truncated w)
            end
        end
      else
        record {| file_name := shown_name fmt path; json_file := "N/A";
                  status := no_data fmt |} None w st
  end.

Definition process_files (files : list string) (w : world) : state :=
  fold_left process_file files (start w).

Definition failure (e : string) : report :=
  {| success := false; results := []; errors := [e];
     total_files := 0; files_found := [] |}.

(** The report after the loop; [found] is what goes to ['files_found']. *)
Definition summary (files found : list string) (st : state) : report :=
  {| success := Nat.eqb (length (st_errors st)) 0;
     results := st_results st;
     errors := st_errors st;
     total_files := length files;
     files_found := found |}.

(** The folder functions: [process_pdf_folder], [process_excel_folder]. *)
Definition locate_folder (folder_path : string) : list string :=
  flat_map (fun ext => glob_ext (pattern_dirs E) (listing E) folder_path ext) (exts fmt).

Definition process_folder (folder_path : string) (w : world) : outcome report * world :=
  match mkdir E (output_dir fmt) with
  | Raise e => (Raise e, w)
  | Return _ =>
      let files := locate_folder folder_path in
      match files with
      | [] => (Return (failure ("No " ++ kind fmt ++ " files found in folder: "
                                  ++ folder_path)), w)
      | _ =>
          let st := process_files files w in
          (Return (summary files files st), st_world st)
      end
  end.

(** The uploaded archive, as the first steps of the archive functions
    see it: [zipfile] rejects it, or saving or extracting it raises
    something else, or it is extracted and the temporary directory
    then has the given entries (the saved [uploaded.zip] among them). *)
Inductive archive : Type :=
| BadZipFile
| Unreadable (msg : string)
| Extracted (entries : list node).

(** The archive functions: [process_zip_file], [process_excel_zip_file]. *)
Definition process_zip (uploaded_zip : archive) (w : world) : outcome report * world :=
  match mkdir E (output_dir fmt) with
  | Raise e => (Raise e, w)
  | Return _ =>
      match temp_dir E with
      | Raise e => (Raise e, w)
      | Return temp_dir =>
          match uploaded_zip with
          | Extracted entries =>
              let files := walk_find (exts fmt) temp_dir entries in
              match files with
              | [] => (Return (failure ("No " ++ kind fmt
                                          ++ " files found in the uploaded zip file.")), w)
              | _ =>
                  let file_names := map name files in
                  let st := process_files files w in
                  (Return (summary files file_names st), st_world st)
              end
          | BadZipFile =>
              (Return (failure "Invalid zip file. Please upload a valid zip archive."), w)
          | Unreadable e =>
              (Return (failure ("Error processing zip file: " ++ e)), w)
          end
      end
  end.

End Loop.

Definition process_pdf_folder (E : env) (folder_path : string)
    (extract_with_gemini_func : string -> string -> outcome value) :=
  process_folder E pdf_format extract_with_gemini_func folder_path.

Definition process_zip_file (E : env) (uploaded_zip : archive)
    (extract_with_gemini_func : string -> string -> outcome value) :=
  process_zip E pdf_format extract_with_gemini_func uploaded_zip.

Definition process_excel_folder (E : env) (folder_path : string)
    (extract_with_gemini_func : string -> string -> outcome value) :=
  process_folder E excel_format extract_with_gemini_func folder_path.

Definition process_excel_zip_file (E : env) (uploaded_zip : archive)
    (extract_with_gemini_func : string -> string -> outcome value) :=
  process_zip E excel_format extract_with_gemini_func uploaded_zip.

(** A batch source, and the batch run on it. *)
Inductive source : Type :=
| Folder (folder_path : string)
| Zip (uploaded_zip : archive).

Definition run_batch (E : env) (fmt : format)
    (extract_with_gemini_func : string -> string -> outcome value)
    (src : source) (w : world) : outcome report * world :=
  match src with
  | Folder folder_path => process_folder E fmt extract_with_gemini_func folder_path w
  | Zip uploaded_zip => process_zip E fmt extract_with_gemini_func uploaded_zip w
  end.

(** The files that a batch locates, when it gets as far as looking. *)
Definition located (E : env) (fmt : format) (src : source) : option (list string) :=
  match src with
  | Folder folder_path => Some (locate_folder E fmt folder_path)
  | Zip (Extracted entries) =>
      match temp_dir E with
      | Return temp_dir => Some (walk_find (exts fmt) temp_dir entries)
      | Raise _ => None
      end
  | Zip _ => None
  end.

(** The three kinds of outcome, as the loop body writes them. *)
Definition succeeded (fmt : format) (path : string) : file_outcome :=
  {| file_name := shown_name fmt path; json_file := stem path ++ ".json";
     status := status_success |}.

Definition without_data (fmt : format) (path : string) : file_outcome :=
  {| file_name := shown_name fmt path; json_file := "N/A"; status := no_data fmt |}.

Definition unprocessed (fmt : format) (path e : string) : file_outcome :=
  {| file_name := shown_name fmt path; json_file := "N/A"; status := status_error e |}.

(** A file goes through every step: it is read, its text is not blank,
    the extraction function returns, and the result is written. *)
Definition goes_through (E : env) (fmt : format)
    (extract_with_gemini_func : string -> string -> outcome value)
    (path : string) (json_data : value) : Prop :=
  exists text,
    read_text fmt E path = Return text
    /\ truthy (strip text) = true
    /\ extract_with_gemini_func text (document_type fmt) = Return json_data
    /\ write_json E (json_path fmt (stem path ++ ".json")) json_data = Written.

(** The preparations of a batch go through: the output directory, and
    for an archive the temporary directory. *)
Definition prepared (E : env) (fmt : format) (src : source) : Prop :=
  mkdir E (output_dir fmt) = Return tt
  /\ match src with
     | Folder _ => True
     | Zip _ => exists t, temp_dir E = Return t
     end.

End Batch.

(** ** Sample inputs *)

Module Demo.
Import Text Json Paths Locator Normalizer Batch.

(** The completion of the fenced example with a line feed after the
    language tag and before the closing fence. *)
Definition fenced : string :=
  "```json" ++ nl ++ "{" ++ quote ++ "a" ++ quote ++ ":1}" ++ nl ++ "```".

(** The same with a backslash and the letter n in place of each line
    feed, and a backslash before each double quote. *)
Definition fenced_escaped : string :=
  "```json\n{\" ++ quote ++ "a\" ++ quote ++ ":1}\n```".

(** The fenced example with a no-break space after the language tag. *)
Definition fenced_nbsp : string :=
  "```json" ++ utf8 160 ++ "{" ++ quote ++ "a" ++ quote ++ ":1}" ++ nl ++ "```".

(** A completion that does not parse. *)
Definition oops : string := "oops".

(** The JSON text of the record that is returned for the completion
    [oops]. *)
Definition posing : string :=
  "{" ++ quote ++ "error" ++ quote ++ ": " ++ quote
    ++ "Failed to parse JSON: Expecting value: line 1 column 1 (char 0)" ++ quote
    ++ ", " ++ quote ++ "raw" ++ quote ++ ": " ++ quote ++ "oops" ++ quote ++ "}".

(** An object with a letter outside ASCII before the place of the
    error. *)
Definition accented : string :=
  "{" ++ quote ++ "name" ++ quote ++ ": " ++ quote ++ "Caf" ++ utf8 233 ++ quote ++ ", }".

Fixpoint copies (n : nat) (s : string) : string :=
  match n with
  | O => ""
  | S m => s ++ copies m s
  end.

(** An integer of 4301 digits, and arrays nested [n] deep. *)
Definition long_number : string := copies 4301 "1".

Definition nested (n : nat) : string := copies n "[" ++ copies n "]".

(** What is left of the recursion limit in the samples. *)
Definition allowed : nat := 990.

(** A model that always completes with [completion]. *)
Definition answering (completion : string) : string -> outcome string :=
  fun _ => Return completion.

(** An extraction function that returns the text it is given. *)
Definition echo : string -> string -> outcome value :=
  fun text _ => Return (JStr text).

Definition sheet : data_frame :=
  {| columns := ["item"; "qty"]; rows := [[Val "bolt"; Val "4"]; [Val "nut"; nan]] |}.

Definition book : workbook :=
  [("Orders", sheet); ("Notes", {| columns := ["memo"]; rows := [] |})].

(** A folder [docs] with three PDF files, the second of them unreadable,
    and a sub-directory; a folder [scans] whose first file has no text
    but a space, a no-break space, an em space and a line feed; a folder
    [ledgers] with workbooks of both kinds; a folder [docs1], which the
    pattern [docs[1]] matches; a folder [mixed] with a directory named
    like a PDF file. *)
Definition office : env := {|
  mkdir := fun _ => Return tt;
  listing := fun d =>
    if String.eqb d "docs" then
      [File "a.pdf"; File "b.pdf"; File "c.pdf"; Dir "old" [Dir "y2020" [File "d.pdf"]]]
    else if String.eqb d "scans" then [File "blank.pdf"; File "a.pdf"]
    else if String.eqb d "sheets" then [File "q1.xlsx"]
    else if String.eqb d "ledgers" then
      [File "q1.xlsx"; File "q1.xls"; File "old.xls"; File "notes.txt"]
    else if String.eqb d "docs1" then [File "other.pdf"]
    else if String.eqb d "mixed" then [File "a.pdf"; Dir "x.pdf" [File "readme.txt"]]
    else [];
  pattern_dirs := fun pattern =>
    if String.eqb pattern "docs[1]" then ["docs1"] else [];
  temp_dir := Return "/tmp/tmpk3v9";
  pdf_open := fun p =>
    if String.eqb p "docs/b.pdf" then Raise "No /Root object"
    else if String.eqb p "scans/blank.pdf" then
      Return [Return None; Return (Some (" " ++ utf8 160 ++ utf8 8195 ++ nl))]
    else Return [Return (Some ("Invoice of " ++ p))];
  read_excel := fun _ => Return book;
  write_json := fun _ _ => Written
|}.

(** An archive with two files of the same name, one of them two
    directories down. *)
Definition bundle : list node :=
  [File "uploaded.zip"; Dir "jan" [File "inv.pdf"];
   Dir "feb" [Dir "late" [File "inv.pdf"]]].

Definition fresh : world := {| disk := ∅; model_calls := [] |}.

End Demo.

(** ** The front end ([handle_processing_result],
       [process_with_progress], the two single-file tabs) *)

Module Ui.
Import Text Json Normalizer Batch.

(** The calls made to Streamlit, in the order in which they are made. *)
Inductive event : Type :=
| st_error (msg : string)
| st_success (msg : string)
| st_info (msg : string)
| st_warning (msg : string)
| st_subheader (msg : string)
| st_table (rows : list file_outcome)
| st_json (records : value)
| st_spinner (msg : string)
| st_progress (complete : bool)
| st_text (msg : string).

(** [sub in s] *)
Fixpoint contains (s sub : string) : bool :=
  startswith s sub
  || match s with
     | "" => false
     | String _ r => contains r sub
     end.

(** The directory named in the last line of a successful display. *)
Definition shown_dir (file_type : string) : string :=
  if contains (lower file_type) "pdf" then "json_output_pdf"
  else if contains (lower file_type) "excel" then "json_output_excel"
  else "json output".

(** [handle_processing_result(result, file_type)]; [abspath] is
    [os.path.abspath]. *)
Definition handle_processing_result (abspath : string -> string)
    (result : report) (file_type : string) : list event * bool :=
  if negb (success result) then (map st_error (errors result), false)
  else
    let count := dec (total_files result) ++ " " ++ file_type in
    ([st_success ("✅ Processed " ++ count ++ " successfully!")]
       ++ (if Nat.ltb 0 (total_files result)
           then [st_info ("Found and processed " ++ count)] else [])
       ++ match results result with
          | [] => []
          | _ => [st_subheader "Processing Results:"; st_table (results result);
                  st_info ("JSON files saved in: " ++ abspath (shown_dir file_type))]
          end
       ++ match errors result with
          | [] => []
          | _ => st_warning "Some files had issues:"
                 :: map (fun error => st_warning ("⚠️ " ++ error)) (errors result)
          end,
     true)%list.

(** [process_with_progress]; [run] is what the call of the processor
    function on its arguments comes to. *)
Definition process_with_progress (abspath : string -> string)
    (run : outcome report) (file_type : string) : list event * bool :=
  let opening :=
    [st_progress false; st_text ("Starting " ++ file_type ++ " processing...")] in
  match run with
  | Return result =>
      let (shown, ok) := handle_processing_result abspath result file_type in
      (opening ++ [st_progress true; st_text "Processing complete!"] ++ shown, ok)%list
  | Raise e =>
      (opening ++ [st_progress true; st_text "";
                   st_error ("Error during processing: " ++ e)], false)%list
  end.

(** What differs between the two single-file tabs. *)
Record tab : Type := {
  reading : string;
  read_error : string;
  label : string;
  extracting : string;
  unreadable : string;
  invitation : string
}.

Definition pdf_tab : tab := {|
  reading := "Reading PDF...";
  read_error := "Error reading PDF: ";
  label := "PDF document";
  extracting := "Extracting with Gemini AI...";
  unreadable := "No readable text found in PDF.";
  invitation := "👆 Please upload a PDF file to extract data."
|}.

Definition excel_tab : tab := {|
  reading := "Reading Excel file...";
  read_error := "Error reading Excel file: ";
  label := "Excel spreadsheet";
  extracting := "Extracting with Gemini AI...";
  unreadable := "No readable data found in Excel file.";
  invitation := "👆 Please upload an Excel file to extract data."
|}.

(** The body of a single-file tab: what is shown, and whether the script
    goes on or is left by an exception of the extraction.
    [uploaded_file] is what the normalizer makes of the upload, if there
    is one. *)
Definition single_file (t : tab) (extract : string -> string -> outcome value)
    (uploaded_file : option (outcome string)) : list event * outcome unit :=
  match uploaded_file with
  | None => ([st_info (invitation t)], Return tt)
  | Some normalized =>
      let (shown, text) :=
        match normalized with
        | Return text => ([st_spinner (reading t)], text)
        | Raise e => ([st_spinner (reading t); st_error (read_error t ++ e)], "")
        end in
      if truthy (strip text) then
        match extract text (label t) with
        | Return records =>
            (shown ++ [st_spinner (extracting t); st_success "✅ Extracted JSON";
                       st_json records], Return tt)%list
        | Raise e => (shown ++ [st_spinner (extracting t)], Raise e)%list
        end
      else (shown ++ [st_error (unreadable t)], Return tt)%list
  end.

(** The single-file PDF tab and the single-file spreadsheet tab. *)
Definition single_pdf (extract : string -> string -> outcome value)
    (uploaded_file : option pdf) : list event * outcome unit :=
  single_file pdf_tab extract (option_map extract_text_from_pdf uploaded_file).

Definition single_excel (extract : string -> string -> outcome value)
    (uploaded_file : option (outcome workbook)) : list event * outcome unit :=
  single_file excel_tab extract (option_map extract_text_from_excel uploaded_file).

End Ui.

(** ** Measures of a batch, for the statements below *)

Module Tally.
Import Text Json Paths Locator Batch.

(** The status of an outcome written by one of the two handlers. *)
Definition is_error_status (s : string) : bool := startswith s "❌ Error: ".

Definition error_outcomes (rs : list file_outcome) : list file_outcome :=
  List.filter (fun o => is_error_status (status o)) rs.

(** The call that the loop body makes for a file, if it makes one. *)
Definition request (E : env) (fmt : format) (path : string) : list (string * string) :=
  match read_text fmt E path with
  | Return text => if truthy (strip text) then [(text, document_type fmt)] else []
  | Raise _ => []
  end.

Definition requests (E : env) (fmt : format) (files : list string)
  : list (string * string) :=
  flat_map (request E fmt) files.

(** The path under which the result of a file is written. *)
Definition target (fmt : format) (path : string) : string :=
  json_path fmt (stem path ++ ".json").

(** What the walk finds under a list of entries whose sub-directories are
    already accounted for. *)
Definition accounted (exts : list string) (n : node) : Prop :=
  match n with
  | File _ => True
  | Dir d sub =>
      forall top p,
        In p (walk_find exts (os_path_join top d) sub) ->
        exists dirs file,
          in_tree sub dirs file /\ has_ext exts file = true
          /\ p = path_under (os_path_join top d) dirs file
  end.

End Tally.

(** ** More sample inputs *)

Module Cases.
Import Text Json Locator Normalizer Batch Demo.

(** An extraction function that always raises. *)
Definition refusing : string -> string -> outcome value :=
  fun _ _ => Raise "429 quota exceeded".

(** The sample surroundings with an output directory that cannot be
    written to. *)
Definition read_only : env := {|
  mkdir := mkdir office;
  listing := listing office;
  pattern_dirs := pattern_dirs office;
  temp_dir := temp_dir office;
  pdf_open := pdf_open office;
  read_excel := read_excel office;
  write_json := fun _ _ => OpenRaised "[Errno 13] Permission denied"
|}.

(** The sample surroundings with a file in the place of the output
    directory. *)
Definition blocked : env := {|
  mkdir := fun _ => Raise "[Errno 17] File exists";
  listing := listing office;
  pattern_dirs := pattern_dirs office;
  temp_dir := temp_dir office;
  pdf_open := pdf_open office;
  read_excel := read_excel office;
  write_json := write_json office
|}.

(** A world with a file that no batch wrote. *)
Definition used : world :=
  {| disk := {[ "notes.txt" := Truncated ]}; model_calls := [("earlier", "PDF document")] |}.

(** An archive with a hidden file, a file with an upper-case extension
    and a directory named like a PDF file. *)
Definition odd_bundle : list node :=
  [File "uploaded.zip"; File ".draft.pdf"; File "SCAN.PDF"; Dir "x.pdf" [File "readme.txt"]].

End Cases.

(** * Properties *)

(** ** Facts about the text primitives *)

Module TextFacts.
Import Text.
#[local] Arguments String.append !_ _ / : simpl nomatch.

Lemma append_nil_r (s : string) : s ++ "" = s.
Proof. induction s as [|c r IH]; simpl; [reflexivity | now rewrite IH]. Qed.

Lemma append_assoc (a b c : string) : (a ++ b) ++ c = a ++ b ++ c.
Proof. induction a as [|x a IH]; simpl; [reflexivity | now rewrite IH]. Qed.

Lemma lstrip_with_split p s :
  exists a, s = a ++ lstrip_with p s /\ all_chars p a = true.
Proof.
  induction s as [|c r [a [Ha Hp]]]; simpl.
  - exists ""; split; reflexivity.
  - destruct (p c) eqn:Hc.
    + exists (String c a); simpl; rewrite Hc, Hp; split; [now rewrite <- Ha | reflexivity].
    + exists ""; split; reflexivity.
Qed.

Lemma lstrip_with_first p s c :
  first_char (lstrip_with p s) = Some c -> p c = false.
Proof.
  induction s as [|x r IH]; simpl; [discriminate|].
  destruct (p x) eqn:Hx; [exact IH|].
  simpl; intros [= <-]; exact Hx.
Qed.

Lemma rstrip_with_split p s :
  exists b, s = rstrip_with p s ++ b /\ all_chars p b = true.
Proof.
  induction s as [|c r [b [Hb Hp]]]; simpl.
  - exists ""; split; reflexivity.
  - destruct (rstrip_with p r) as [|y r'] eqn:Hr.
    + simpl in Hb; subst r.
      destruct (p c) eqn:Hc.
      * exists (String c b); simpl; rewrite Hc, Hp; split; reflexivity.
      * exists b; split; [reflexivity | exact Hp].
    + exists b; split; [simpl in Hb |- *; now rewrite <- Hb | exact Hp].
Qed.

Lemma rstrip_with_last p s c :
  last_char (rstrip_with p s) = Some c -> p c = false.
Proof.
  revert c; induction s as [|x r IH]; simpl; [discriminate|].
  intros c. destruct (rstrip_with p r) as [|y r'] eqn:Hr.
  - destruct (p x) eqn:Hx; simpl; [discriminate|].
    intros [= <-]; exact Hx.
  - intros H. apply IH. exact H.
Qed.

Lemma rstrip_with_first p s c :
  (forall d, first_char s = Some d -> p d = false) ->
  first_char (rstrip_with p s) = Some c -> p c = false.
Proof.
  destruct s as [|x r]; simpl; [discriminate|].
  intros H. specialize (H x eq_refl).
  destruct (rstrip_with p r); [rewrite H|]; simpl; intros [= <-]; exact H.
Qed.

(** [strip_with p] removes a run of [p]-characters at each end and
    leaves a text with none at either end. *)
Lemma strip_with_spec p s :
  exists a b,
    s = a ++ strip_with p s ++ b
    /\ all_chars p a = true /\ all_chars p b = true
    /\ trimmed p (strip_with p s).
Proof.
  unfold strip_with.
  destruct (lstrip_with_split p s) as [a [Ha Hpa]].
  destruct (rstrip_with_split p (lstrip_with p s)) as [b [Hb Hpb]].
  exists a, b. repeat split; try assumption.
  - now rewrite <- Hb.
  - intros c. apply rstrip_with_first. intros d. apply lstrip_with_first.
  - intros c. apply rstrip_with_last.
Qed.

Lemma prefix_split p s :
  String.prefix p s = true -> exists rest, s = p ++ rest.
Proof.
  revert s; induction p as [|c p IH]; intros s.
  - exists s; reflexivity.
  - destruct s as [|d s]; simpl; [discriminate|].
    destruct (Ascii.ascii_dec c d) as [->|]; [|discriminate].
    intros H; destruct (IH _ H) as [rest ->]. exists rest; reflexivity.
Qed.

Lemma prefix_append p rest : String.prefix p (p ++ rest) = true.
Proof.
  induction p as [|c p IH]; simpl; [now destruct rest|].
  destruct (Ascii.ascii_dec c c); [exact IH | congruence].
Qed.

Lemma map_chars_append f a b : map_chars f (a ++ b) = map_chars f a ++ map_chars f b.
Proof. induction a as [|c a IH]; simpl; [reflexivity | now rewrite IH]. Qed.

Lemma map_chars_length f s : String.length (map_chars f s) = String.length s.
Proof. induction s as [|c r IH]; simpl; [reflexivity | now rewrite IH]. Qed.

Lemma drop_append a b : drop (String.length a) (a ++ b) = b.
Proof. induction a as [|c a IH]; simpl; [now destruct b | exact IH]. Qed.

(** A text begins with [tok] up to case exactly when it is a token that
    lower-cases to [tok], followed by a rest. *)
Lemma startswith_lower s tok :
  startswith (lower s) tok = true <->
  exists t rest, s = t ++ rest /\ lower t = tok.
Proof.
  unfold startswith, lower. split.
  - revert s; induction tok as [|c tok IH]; intros s H.
    + exists "", s; split; reflexivity.
    + destruct s as [|d s]; simpl in H; [discriminate|].
      destruct (Ascii.ascii_dec c (lower_char d)) as [->|]; [|discriminate].
      destruct (IH _ H) as [t [rest [-> <-]]].
      exists (String d t), rest; split; reflexivity.
  - intros [t [rest [-> <-]]]. rewrite map_chars_append. apply prefix_append.
Qed.

Lemma blank_char_spec t : blank_char t = true <-> In t whitespace.
Proof.
  unfold blank_char. rewrite existsb_exists. split.
  - intros [x [Hx He]]. apply String.eqb_eq in He. now subst.
  - intros H. exists t. split; [exact H | apply String.eqb_refl].
Qed.

Lemma isspace_spec n : isspace n = true <-> In n whitespace_points.
Proof.
  unfold isspace. rewrite existsb_exists. split.
  - intros [x [Hx He]]. apply N.eqb_eq in He. now subst.
  - intros H. exists n. split; [exact H | apply N.eqb_refl].
Qed.

Lemma whitespace_points_spec t :
  In t whitespace <-> exists n, isspace n = true /\ utf8 n = t.
Proof.
  unfold whitespace. rewrite in_map_iff. split.
  - intros [n [Hn Hin]]. exists n. split; [now apply isspace_spec | exact Hn].
  - intros [n [Hn Ht]]. exists n. split; [exact Ht | now apply isspace_spec].
Qed.

(** A blank character at the head of a text is stripped. *)
Lemma lstrip_blank t s : In t whitespace -> lstrip (t ++ s) = lstrip s.
Proof.
  intros H. vm_compute in H.
  repeat (destruct H as [<- | H]; [vm_compute; reflexivity|]).
  destruct H.
Qed.

Lemma encode_app a b : encode (a ++ b) = encode a ++ encode b.
Proof.
  induction a as [|n a IH]; simpl; [reflexivity|]. now rewrite IH, append_assoc.
Qed.

Lemma lstrip_encode points s :
  Forall (fun n => isspace n = true) points -> lstrip (encode points ++ s) = lstrip s.
Proof.
  induction 1 as [|n points Hn _ IH]; simpl; [reflexivity|].
  rewrite append_assoc, lstrip_blank; [exact IH|].
  apply whitespace_points_spec. eauto.
Qed.

(** What [lstrip] removes is a run of blank characters. *)
Lemma lstrip_split_upto k : forall s,
  String.length s <= k ->
  exists points,
    Forall (fun n => isspace n = true) points /\ s = encode points ++ lstrip s.
Proof.
  assert (Hstep : forall t r,
            blank_char t = true ->
            (exists points, Forall (fun n => isspace n = true) points
                            /\ r = encode points ++ lstrip r) ->
            exists points, Forall (fun n => isspace n = true) points
                           /\ t ++ r = encode points ++ lstrip r).
  { intros t r Ht [points [Hp Hr]].
    apply blank_char_spec, whitespace_points_spec in Ht. destruct Ht as [n [Hn <-]].
    exists (n :: points). split; [now constructor|].
    simpl. rewrite append_assoc. now rewrite <- Hr. }
  induction k as [|k IH]; intros s Hk.
  - destruct s; [|simpl in Hk; lia]. exists []. split; [constructor | reflexivity].
  - destruct s as [|a r1]; [exists []; split; [constructor | reflexivity]|].
    simpl in Hk. cbn [lstrip].
    destruct (blank_char (String a "")) eqn:H1.
    { apply (Hstep (String a "") r1 H1). apply IH. lia. }
    destruct r1 as [|b r2]; [exists []; split; [constructor | reflexivity]|].
    simpl in Hk.
    destruct (blank_char (String a (String b ""))) eqn:H2.
    { apply (Hstep (String a (String b "")) r2 H2). apply IH. lia. }
    destruct r2 as [|c r3]; [exists []; split; [constructor | reflexivity]|].
    simpl in Hk.
    destruct (blank_char (String a (String b (String c "")))) eqn:H3.
    { apply (Hstep (String a (String b (String c ""))) r3 H3). apply IH. lia. }
    exists []; split; [constructor | reflexivity].
Qed.

Lemma lstrip_split s :
  exists points,
    Forall (fun n => isspace n = true) points /\ s = encode points ++ lstrip s.
Proof. apply (lstrip_split_upto (String.length s)). lia. Qed.

Lemma rstrip_empty s : rstrip s = "" -> lstrip s = "".
Proof.
  destruct s as [|c r]; [reflexivity|]. cbn [rstrip].
  destruct (lstrip (String c r)); [reflexivity | discriminate].
Qed.

(** [text.strip()] is empty exactly when the text is empty or made of
    blank characters only. *)
Lemma strip_blank text : whitespace_only text <-> truthy (strip text) = false.
Proof.
  unfold strip. split.
  - intros [points [Hp ->]].
    rewrite <- (append_nil_r (encode points)), lstrip_encode by exact Hp. reflexivity.
  - intros H.
    assert (Hr : rstrip (lstrip text) = "") by (now destruct (rstrip (lstrip text))).
    apply rstrip_empty in Hr.
    destruct (lstrip_split text) as [p1 [Hp1 H1]].
    destruct (lstrip_split (lstrip text)) as [p2 [Hp2 H2]].
    rewrite Hr, append_nil_r in H2. rewrite H2, <- encode_app in H1.
    exists (p1 ++ p2)%list. split; [|exact H1].
    apply Forall_app. split; assumption.
Qed.

(** A text whose first character is not blank keeps it. *)
Lemma strip_keeps c r :
  lstrip (String c r) = String c r -> truthy (strip (String c r)) = true.
Proof.
  intros H. unfold strip. rewrite H. cbn [rstrip]. rewrite H. reflexivity.
Qed.

End TextFacts.

(** ** The decoder *)

Module JsonFacts.
Import Text Json TextFacts.
#[local] Arguments String.append !_ _ / : simpl nomatch.

Lemma skip_ws_length s : forall i, String.length (fst (skip_ws s i)) <= String.length s.
Proof.
induction s as [|c s IH]; intros i; simpl; [lia|].
destruct (is_ws c); simpl; [specialize (IH (S i)); lia | lia].
Qed.

(** [scanstring] uses no fuel and consumes the closing quote. *)
Lemma scanstring_shrinks n : forall s, String.length s <= n ->
  forall b acc i,
    scanstring b acc s i <> Exhausted
    /\ forall v r j, scanstring b acc s i = Scanned v r j -> String.length r < String.length s.
Proof.
induction n as [|n IH]; intros s Hn b acc i.
- destruct s; [|simpl in Hn; lia]. simpl. split; [discriminate|]. intros; discriminate.
- destruct s as [|c s]; [simpl; split; [discriminate | intros; discriminate]|].
  simpl in Hn.
  assert (Hrec : forall s' b' acc' i', String.length s' <= String.length s ->
            scanstring b' acc' s' i' <> Exhausted
            /\ forall v r j, scanstring b' acc' s' i' = Scanned v r j ->
                             String.length r < S (String.length s')).
  { intros s' b' acc' i' Hs'. destruct (IH s' ltac:(lia) b' acc' i') as [H1 H2].
    split; [exact H1|]. intros v r j H. specialize (H2 v r j H). lia. }
  cbn [scanstring].
  repeat match goal with
         | |- context [if ?x then _ else _] => destruct x
         | |- context [match ?x with _ => _ end] =>
             match type of x with
             | string => let c := fresh "c" in let r := fresh "r" in destruct x as [|c r]
             | option _ => destruct x
             end
         end;
    try (split; [discriminate | intros v r' j H; try discriminate H;
                                injection H as <- <- <-; simpl; lia]);
    match goal with
    | |- scanstring ?b' ?acc' ?s' ?i' <> _ /\ _ =>
        destruct (Hrec s' b' acc' i' ltac:(simpl in *; lia)) as [H1 H2];
        split; [exact H1 | intros v r' j H; specialize (H2 v r' j H); simpl in *; lia]
    end.
Qed.

Lemma digits_length s : String.length (snd (digits s)) <= String.length s.
Proof.
induction s as [|c s IH]; simpl; [lia|].
destruct (isdigit c); simpl; [|lia].
destruct (digits s); simpl in *; lia.
Qed.

Lemma match_integer_shrinks s integer rest :
  match_integer s = Some (integer, rest) -> String.length rest < String.length s.
Proof.
unfold match_integer.
destruct s as [|c s]; [discriminate|].
destruct (char_is c 45).
- destruct s as [|d s]; [discriminate|].
  destruct (char_is d 48); [intros [= _ <-]; simpl; lia|].
  destruct (isdigit d) eqn:Hd; [|discriminate].
  pose proof (digits_length s) as Hlen.
  cbn [digits]. rewrite Hd. destruct (digits s) as [ds rs]. simpl in Hlen.
  intros [= _ <-]. simpl; lia.
- destruct (char_is c 48); [intros [= _ <-]; simpl; lia|].
  destruct (isdigit c) eqn:Hd; [|discriminate].
  pose proof (digits_length s) as Hlen.
  cbn [digits]. rewrite Hd. destruct (digits s) as [ds rs]. simpl in Hlen.
  intros [= _ <-]. simpl; lia.
Qed.

Lemma match_frac_length s : String.length (snd (match_frac s)) <= String.length s.
Proof.
unfold match_frac. destruct s as [|c s]; [simpl; lia|].
destruct (char_is c 46); [|simpl; lia].
pose proof (digits_length s) as Hlen.
destruct (digits s) as [[|d ds] rs]; simpl in *; lia.
Qed.

Lemma match_exp_length s : String.length (snd (match_exp s)) <= String.length s.
Proof.
unfold match_exp. destruct s as [|c s]; [simpl; lia|].
destruct (char_is c 101 || char_is c 69); [|simpl; lia].
destruct s as [|g s].
- simpl. lia.
- destruct (char_is g 45 || char_is g 43).
  + pose proof (digits_length s) as Hlen.
    destruct (digits s) as [[|d ds] rs]; simpl in *; lia.
  + pose proof (digits_length (String g s)) as Hlen.
    destruct (digits (String g s)) as [[|d ds] rs]; simpl in *; lia.
Qed.

Lemma match_number_shrinks s i v rest j :
  match_number s i = Some (v, rest, j) -> String.length rest < String.length s.
Proof.
unfold match_number.
destruct (match_integer s) as [[integer s1]|] eqn:Hint; [|discriminate].
apply match_integer_shrinks in Hint.
pose proof (match_frac_length s1) as Hf. destruct (match_frac s1) as [frac s2].
pose proof (match_exp_length s2) as He. destruct (match_exp s2) as [exp s3].
simpl in *. intros [= _ <- _]. lia.
Qed.

Lemma literal_shrinks s lit :
  startswith s lit = true ->
  String.length (drop (String.length lit) s) + String.length lit = String.length s.
Proof.
intros H. destruct (prefix_split _ _ H) as [rest ->].
rewrite drop_append.
clear H. induction lit as [|c lit IH]; simpl; [lia|]. simpl in IH. lia.
Qed.

Lemma settled_failed msg pos s : settled (Failed msg pos) s.
Proof. split; [discriminate | intros; discriminate]. Qed.

Lemma settled_scanned v r j s :
  String.length r < String.length s -> settled (Scanned v r j) s.
Proof. intros H. split; [discriminate | now intros ? ? ? [= _ <- _]]. Qed.

Lemma settled_weaken res s s' :
  settled res s' -> String.length s' <= String.length s -> settled res s.
Proof. intros [H1 H2] Hle. split; [exact H1|]. intros v r j H. specialize (H2 v r j H). lia. Qed.

Lemma settled_broke msg s : settled (Broke msg) s.
Proof. split; [discriminate | intros; discriminate]. Qed.

Lemma settled_string b acc s i s0 :
  String.length s < String.length s0 -> settled (lift JStr (scanstring b acc s i)) s0.
Proof.
intros Hlt. destruct (scanstring_shrinks (String.length s) s (le_n _) b acc i) as [H1 H2].
destruct (scanstring b acc s i) as [v r j| | |] eqn:Hs; simpl.
- apply settled_scanned. specialize (H2 v r j eq_refl). lia.
- apply settled_failed.
- apply settled_broke.
- now destruct H1.
Qed.

#[local] Ltac skip_step :=
  match goal with
  | |- context [skip_ws ?s ?i] =>
      let H := fresh "Hws" in
      pose proof (skip_ws_length s i) as H;
      destruct (skip_ws s i) as [? ?]; simpl in H
  end.

#[local] Ltac branch_step :=
  match goal with
  | |- context [if ?x then _ else _] => destruct x
  | |- settled (match ?x with "" => _ | String _ _ => _ end) _ =>
      let c := fresh "c" in let r := fresh "r" in destruct x as [|c r]; simpl in *
  end.

#[local] Ltac leaf_step :=
  first [ apply settled_failed
        | apply settled_scanned; simpl in *; lia ].

Lemma fuel_suffices f :
  (forall d s i, 2 * String.length s + 1 <= f -> settled (scan_once f d s i) s)
  /\ (forall d acc s i, 2 * String.length s + 2 <= f -> settled (array_items f d acc s i) s)
  /\ (forall d acc s i, 2 * String.length s + 1 <= f -> settled (object_items f d acc s i) s).
Proof.
induction f as [|f [IHscan [IHarr IHobj]]].
- repeat split; intros; lia.
- split; [|split].
  + intros d s i Hf. cbn [scan_once].
    destruct s as [|c r]; [apply settled_failed|]. simpl in Hf.
    destruct (char_is c 34); [apply settled_string; simpl; lia|].
    destruct (char_is c 123).
    { destruct d as [|d]; [apply settled_broke|].
      skip_step. repeat branch_step; try leaf_step.
      eapply settled_weaken; [apply IHobj|]; simpl in *; lia. }
    destruct (char_is c 91).
    { destruct d as [|d]; [apply settled_broke|].
      skip_step. repeat branch_step; try leaf_step;
        (eapply settled_weaken; [apply IHarr|]; simpl in *; lia). }
    destruct (startswith (String c r) "null") eqn:H1.
    { apply literal_shrinks in H1. apply settled_scanned. simpl in *. lia. }
    destruct (startswith (String c r) "true") eqn:H2.
    { apply literal_shrinks in H2. apply settled_scanned. simpl in *. lia. }
    destruct (startswith (String c r) "false") eqn:H3.
    { apply literal_shrinks in H3. apply settled_scanned. simpl in *. lia. }
    destruct (match_number (String c r) i) as [[[[v|e] rest] j]|] eqn:Hnum.
    { apply match_number_shrinks in Hnum. now apply settled_scanned. }
    { apply settled_broke. }
    destruct (startswith (String c r) "NaN") eqn:H4.
    { apply literal_shrinks in H4. apply settled_scanned. simpl in *. lia. }
    destruct (startswith (String c r) "Infinity") eqn:H5.
    { apply literal_shrinks in H5. apply settled_scanned. simpl in *. lia. }
    destruct (startswith (String c r) "-Infinity") eqn:H6.
    { apply literal_shrinks in H6. apply settled_scanned. simpl in *. lia. }
    apply settled_failed.
  + intros d acc s i Hf. cbn [array_items].
    destruct (IHscan d s i ltac:(lia)) as [Hne Hlen].
    destruct (scan_once f d s i) as [v r j| | |];
      [|apply settled_failed|apply settled_broke|now destruct Hne].
    specialize (Hlen v r j eq_refl).
    skip_step. repeat branch_step; try leaf_step.
    skip_step. eapply settled_weaken; [apply IHarr|]; simpl in *; lia.
  + intros d acc s i Hf. cbn [object_items].
    destruct (scanstring_shrinks (String.length s) s (le_n _) (i - 1) "" i) as [Hne Hlen].
    destruct (scanstring (i - 1) "" s i) as [key r j| | |];
      [|apply settled_failed|apply settled_broke|now destruct Hne].
    specialize (Hlen key r j eq_refl).
    skip_step. repeat branch_step; try leaf_step.
    skip_step.
    match goal with
    | |- context [scan_once f d ?s' ?i'] =>
        destruct (IHscan d s' i' ltac:(simpl in *; lia)) as [Hne' Hlen'];
        destruct (scan_once f d s' i') as [v r4 j4| | |];
        [|apply settled_failed|apply settled_broke|now destruct Hne']
    end.
    specialize (Hlen' v r4 j4 eq_refl).
    skip_step. repeat branch_step; try leaf_step.
    skip_step. repeat branch_step; try leaf_step.
    eapply settled_weaken; [apply IHobj|]; simpl in *; lia.
Qed.

(** [json_loads] has fuel enough: the model of the decoder never stops
    for want of it. *)
Lemma json_loads_fuel depth s i :
  scan_once (fuel_for s) depth (fst (skip_ws s i)) (snd (skip_ws s i)) <> Exhausted.
Proof.
pose proof (skip_ws_length s i) as Hlen.
destruct (fuel_suffices (fuel_for s)) as [H _].
apply H. unfold fuel_for. lia.
Qed.

(** [scanstring] raises nothing but decoding errors. *)
Lemma scanstring_plain n : forall s, String.length s <= n ->
  forall b acc i e, scanstring b acc s i <> Broke e.
Proof.
induction n as [|n IH]; intros s Hn b acc i e.
- destruct s; [|simpl in Hn; lia]. discriminate.
- destruct s as [|c s]; [discriminate|]. simpl in Hn.
  cbn [scanstring].
  repeat match goal with
         | |- context [if ?x then _ else _] => destruct x
         | |- context [match ?x with _ => _ end] =>
             match type of x with
             | string => let c := fresh "c" in let r := fresh "r" in destruct x as [|c r]
             | option _ => destruct x
             end
         end;
    try discriminate;
    apply IH; simpl in *; lia.
Qed.

(** The exceptions of the scanner that are not decoding errors. *)
Lemma match_number_raises s i e rest j :
  match_number s i = Some (Raise e, rest, j) ->
  exists n, int_max_str_digits < n /\ e = too_many_digits n.
Proof.
unfold match_number. destruct (match_integer s) as [[integer s1]|]; [|discriminate].
destruct (match_frac s1) as [frac s2]. destruct (match_exp s2) as [exp s3].
destruct (truthy frac || truthy exp); [discriminate|].
unfold py_int.
set (n := match integer with
          | "" => 0
          | String c r => if char_is c 45 then String.length r else String.length integer
          end).
destruct (Nat.ltb int_max_str_digits n) eqn:Hn; [|discriminate].
intros [= <- _ _]. exists n. split; [now apply Nat.ltb_lt | reflexivity].
Qed.

Lemma broke_cases f :
  let known e :=
    e = too_deep "object" \/ e = too_deep "array"
    \/ exists n, int_max_str_digits < n /\ e = too_many_digits n in
  (forall d s i e, scan_once f d s i = Broke e -> known e)
  /\ (forall d acc s i e, array_items f d acc s i = Broke e -> known e)
  /\ (forall d acc s i e, object_items f d acc s i = Broke e -> known e).
Proof.
intros known.
induction f as [|f [IHscan [IHarr IHobj]]]; [repeat split; intros; discriminate|].
split; [|split].
- intros d s i e. cbn [scan_once].
  destruct s as [|c r]; [discriminate|].
  destruct (char_is c 34).
  { destruct (scanstring i "" r (S i)) as [v r' j| | |] eqn:Hs; try discriminate.
    now apply scanstring_plain with (n := String.length r) in Hs. }
  destruct (char_is c 123).
  { destruct d as [|d]; [intros [= <-]; now left|].
    destruct (skip_ws r (S i)) as [s1 i1].
    destruct s1 as [|x r1]; [discriminate|].
    destruct (char_is x 125); [discriminate|].
    destruct (char_is x 34); [apply IHobj | discriminate]. }
  destruct (char_is c 91).
  { destruct d as [|d]; [intros [= <-]; right; now left|].
    destruct (skip_ws r (S i)) as [s1 i1].
    destruct s1 as [|x r1]; [apply IHarr|].
    destruct (char_is x 93); [discriminate | apply IHarr]. }
  destruct (startswith (String c r) "null"); [discriminate|].
  destruct (startswith (String c r) "true"); [discriminate|].
  destruct (startswith (String c r) "false"); [discriminate|].
  destruct (match_number (String c r) i) as [[[[v|e'] rest] j]|] eqn:Hnum.
  + discriminate.
  + intros [= <-]. right; right. now apply match_number_raises in Hnum.
  + repeat match goal with
           | |- context [if ?x then _ else _] => destruct x
           end; discriminate.
- intros d acc s i e. cbn [array_items].
  destruct (scan_once f d s i) as [v r j|msg pos|msg|] eqn:Hs; try discriminate.
  + destruct (skip_ws r j) as [r1 j1].
    destruct r1 as [|c r2]; [discriminate|].
    destruct (char_is c 93); [discriminate|].
    destruct (char_is c 44); [|discriminate].
    destruct (skip_ws r2 (S j1)). apply IHarr.
  + intros [= <-]. now apply IHscan in Hs.
- intros d acc s i e. cbn [object_items].
  destruct (scanstring (i - 1) "" s i) as [key r j|msg pos|msg|] eqn:Hk; try discriminate.
  + destruct (skip_ws r j) as [r1 j1].
    destruct r1 as [|c r2]; [discriminate|].
    destruct (char_is c 58); [|discriminate].
    destruct (skip_ws r2 (S j1)) as [r3 j3].
    destruct (scan_once f d r3 j3) as [v r4 j4|msg pos|msg|] eqn:Hs; try discriminate.
    * destruct (skip_ws r4 j4) as [r5 j5].
      destruct r5 as [|x r6]; [discriminate|].
      destruct (char_is x 125); [discriminate|].
      destruct (char_is x 44); [|discriminate].
      destruct (skip_ws r6 (S j5)) as [r7 j7].
      destruct r7 as [|q r8]; [discriminate|].
      destruct (char_is q 34); [apply IHobj | discriminate].
    * intros [= <-]. now apply IHscan in Hs.
  + now apply scanstring_plain with (n := String.length s) in Hk.
Qed.

(** Every failure of [json_loads] is a decoding error at a position of
    the text, the recursion error of an array or an object, or the error
    of an integer with more digits than the limit. *)
Lemma json_loads_raises depth s e :
  json_loads depth s = Raise e ->
  (exists msg pos, e = errmsg msg s pos)
  \/ e = too_deep "object" \/ e = too_deep "array"
  \/ exists n, int_max_str_digits < n /\ e = too_many_digits n.
Proof.
unfold json_loads. destruct (startswith s bom); [intros [= <-]; eauto|].
pose proof (json_loads_fuel depth s 0) as Hfuel.
destruct (skip_ws s 0) as [s0 i0]. simpl in *.
destruct (scan_once (fuel_for s) depth s0 i0) as [v rest j|msg pos|msg|] eqn:Hs.
- destruct (skip_ws rest j) as [rest' j'].
  destruct rest'; [discriminate | intros [= <-]; eauto].
- intros [= <-]; eauto.
- intros [= <-]. right. now apply (proj1 (broke_cases (fuel_for s))) in Hs.
- now destruct Hfuel.
Qed.

End JsonFacts.

(** ** The extraction client *)

Module ExtractorFacts.
Import Text Json Extractor TextFacts JsonFacts Demo.

Lemma extract_returns depth generate text document_type completion :
  generate (prompt text document_type) = Return completion ->
  extract_with_gemini depth generate text document_type
  = Return (parse depth (clean completion)).
Proof. unfold extract_with_gemini. intros ->. reflexivity. Qed.

Lemma extract_raises depth generate text document_type e :
  generate (prompt text document_type) = Raise e ->
  extract_with_gemini depth generate text document_type = Raise e.
Proof. unfold extract_with_gemini. intros ->. reflexivity. Qed.

(** The two ways in which [parse] ends. *)
Lemma parse_cases depth raw_text :
  (json_loads depth raw_text = Return (parse depth raw_text))
  \/ (exists e, json_loads depth raw_text = Raise e
                /\ parse depth raw_text = error_record e raw_text).
Proof.
  unfold parse. destruct (json_loads depth raw_text) as [v|e]; [left | right; exists e]; auto.
Qed.

Lemma error_record_has_key e raw_text : has_key "error" (error_record e raw_text) = true.
Proof. reflexivity. Qed.

(** C1, as amended.  Whenever the model gives a completion,
    [extract_with_gemini] returns a value: the value that [json.loads]
    parsed from the cleaned completion, or, the parse having failed, the
    record with the keys [error] and [raw]; nothing but an exception of
    the model call makes the function raise.  A result without the key
    [error] is always a parsed value.  A result with that key need not
    come from a failure: a completion that is the JSON text of such a
    record parses, and the function returns for it the very value that it
    returns for a completion that does not parse. *)
Theorem extract_shape :
  (forall depth generate text document_type,
      match extract_with_gemini depth generate text document_type with
      | Raise e => generate (prompt text document_type) = Raise e
      | Return result =>
          exists completion,
            generate (prompt text document_type) = Return completion
            /\ (forall v, json_loads depth (clean completion) = Return v -> result = v)
            /\ (forall e,
                   json_loads depth (clean completion) = Raise e ->
                   result = JDict [("error", JStr ("Failed to parse JSON: " ++ e));
                                   ("raw", JStr (clean completion))])
            /\ (has_key "error" result = false ->
                json_loads depth (clean completion) = Return result)
      end)
  /\ (forall d text document_type,
         let depth := S d in
         (exists e, json_loads depth (clean oops) = Raise e)
         /\ (exists v, json_loads depth (clean posing) = Return v)
         /\ extract_with_gemini depth (answering posing) text document_type
            = extract_with_gemini depth (answering oops) text document_type).
Proof.
  split.
  - intros depth generate text document_type.
    destruct (generate (prompt text document_type)) as [completion|e] eqn:Hg.
    + rewrite (extract_returns _ _ _ _ _ Hg). exists completion.
      split; [reflexivity|].
      destruct (parse_cases depth (clean completion)) as [Hp | [e [He Hp]]].
      * split; [now intros v; rewrite Hp; intros [= <-]|].
        split; [intros e; rewrite Hp; discriminate | intros _; exact Hp].
      * rewrite Hp. split; [intros v; rewrite He; discriminate|].
        split; [now intros e'; rewrite He; intros [= <-]|].
        rewrite error_record_has_key. discriminate.
    + rewrite (extract_raises _ _ _ _ _ Hg). reflexivity.
  - intros d text document_type depth. unfold depth. split; [|split].
    + eexists. vm_compute. reflexivity.
    + eexists. vm_compute. reflexivity.
    + vm_compute. reflexivity.
Qed.

(** C1, as stated, fails: for the completion [posing] the result is the
    value parsed from the completion and it is an error record, with the
    key [error]; it is both. *)
Lemma extract_shape_counterexample :
  exists result,
    extract_with_gemini allowed (answering posing) "Invoice 7" "PDF document" = Return result
    /\ json_loads allowed (clean posing) = Return result
    /\ result = error_record "Expecting value: line 1 column 1 (char 0)" "oops"
    /\ has_key "error" result = true.
Proof.
  eexists. split; [vm_compute; reflexivity|]. repeat split.
Qed.

(** C4, as amended.  When the stripped completion begins with three
    backticks, it is a run of backticks, a body with no backtick at
    either end, and a run of backticks; if the body is a token that
    lower-cases to [json] followed by a rest, what is parsed is the rest
    stripped of blanks, otherwise it is the body.  A stripped completion
    that does not begin with three backticks is parsed as it is.  For the
    completion made of the fence, [json], a line feed, the object with
    key [a] and value 1, a line feed and the fence, the result is that
    object. *)
Theorem fence_stripping :
  (forall depth generate text document_type completion,
      generate (prompt text document_type) = Return completion ->
      startswith (strip completion) "```" = true ->
      exists opening body closing,
        strip completion = opening ++ body ++ closing
        /\ all_chars is_backtick opening = true
        /\ all_chars is_backtick closing = true
        /\ trimmed is_backtick body
        /\ (forall tok rest,
               body = tok ++ rest -> lower tok = "json" ->
               extract_with_gemini depth generate text document_type
               = Return (parse depth (strip rest)))
        /\ (startswith (lower body) "json" = false ->
            extract_with_gemini depth generate text document_type
            = Return (parse depth body)))
  /\ (forall depth generate text document_type completion,
         generate (prompt text document_type) = Return completion ->
         startswith (strip completion) "```" = false ->
         extract_with_gemini depth generate text document_type
         = Return (parse depth (strip completion)))
  /\ (forall d generate text document_type,
         generate (prompt text document_type) = Return fenced ->
         extract_with_gemini (S d) generate text document_type
         = Return (JDict [("a", JInt 1)])).
Proof.
  split; [|split].
  2: { intros depth generate text document_type completion Hg Hplain.
       rewrite (extract_returns _ _ _ _ _ Hg). unfold clean. now rewrite Hplain. }
  - intros depth generate text document_type completion Hg Hfence.
    rewrite (extract_returns _ _ _ _ _ Hg). unfold clean. rewrite Hfence.
    destruct (strip_with_spec is_backtick (strip completion))
      as [opening [closing [Hsplit [Hop [Hcl Htrim]]]]].
    exists opening, (strip_chars "`" (strip completion)), closing.
    repeat split; try assumption; try apply Htrim.
    + intros tok rest Hbody Htok.
      assert (Hstart : startswith (lower (strip_chars "`" (strip completion))) "json" = true).
      { apply startswith_lower. exists tok, rest. split; assumption. }
      rewrite Hstart, Hbody.
      assert (Hlen : String.length tok = 4).
      { unfold lower in Htok. rewrite <- (map_chars_length lower_char tok), Htok.
        reflexivity. }
      rewrite <- Hlen, drop_append. reflexivity.
    + intros Hno. rewrite Hno. reflexivity.
  - intros d generate text document_type Hg.
    rewrite (extract_returns _ _ _ _ _ Hg). vm_compute. reflexivity.
Qed.

Lemma fence_stripping_witness :
  extract_with_gemini allowed (answering fenced) "Invoice 7" "PDF document"
  = Return (JDict [("a", JInt 1)]).
Proof.
  apply (proj2 (proj2 fence_stripping) 989 (answering fenced) "Invoice 7" "PDF document").
  reflexivity.
Defined.

(** The blanks that go with the tag are those of [str.strip]: a no-break
    space after [json] is removed like a line feed. *)
Example fenced_nbsp_parses :
  extract_with_gemini allowed (answering fenced_nbsp) "Invoice 7" "PDF document"
  = Return (JDict [("a", JInt 1)]).
Proof. vm_compute. reflexivity. Qed.

(** C4, as stated, fails: with a backslash and the letter n where the
    line feeds would be, and a backslash before each quote, what is left
    after the fence and the tag begins with a backslash, and the result
    is the error record. *)
Lemma fence_escaped_counterexample :
  extract_with_gemini allowed (answering fenced_escaped) "Invoice 7" "PDF document"
  = Return (error_record "Expecting value: line 1 column 1 (char 0)"
                         ("\n{\" ++ quote ++ "a\" ++ quote ++ ":1}\n"))
  /\ extract_with_gemini allowed (answering fenced_escaped) "Invoice 7" "PDF document"
     <> Return (JDict [("a", JInt 1)]).
Proof.
  split; [vm_compute; reflexivity|].
  vm_compute. discriminate.
Qed.

(** C5. When parsing the cleaned completion raises, the result is the
    record whose [error] is "Failed to parse JSON: " followed by the
    message of the exception and whose [raw] is the cleaned text.  The
    message is that of a JSONDecodeError, with the line, the column and
    the index of a character of the cleaned text, or that of the
    recursion limit, or that of the limit on the digits of an integer.
    For the completion [not json], with or without blanks around it,
    [raw] is [not json]. *)
Theorem malformed_output_record :
  (forall depth generate text document_type completion e,
      generate (prompt text document_type) = Return completion ->
      json_loads depth (clean completion) = Raise e ->
      extract_with_gemini depth generate text document_type
      = Return (JDict [("error", JStr ("Failed to parse JSON: " ++ e));
                       ("raw", JStr (clean completion))])
      /\ ((exists msg pos, e = errmsg msg (clean completion) pos)
          \/ e = too_deep "object" \/ e = too_deep "array"
          \/ exists n, int_max_str_digits < n /\ e = too_many_digits n))
  /\ (forall depth generate text document_type completion,
         generate (prompt text document_type) = Return completion ->
         strip completion = "not json" ->
         extract_with_gemini depth generate text document_type
         = Return (JDict [("error", JStr ("Failed to parse JSON: "
                                            ++ "Expecting value: line 1 column 1 (char 0)"));
                          ("raw", JStr "not json")]))
  /\ strip "not json" = "not json".
Proof.
  split.
  - intros depth generate text document_type completion e Hg He.
    rewrite (extract_returns _ _ _ _ _ Hg). unfold parse. rewrite He.
    split; [reflexivity|]. now apply json_loads_raises in He.
  - split; [|reflexivity].
    intros depth generate text document_type completion Hg Hstrip.
    rewrite (extract_returns _ _ _ _ _ Hg). unfold clean. rewrite Hstrip.
    vm_compute. reflexivity.
Qed.

Lemma malformed_output_witness :
  extract_with_gemini allowed (answering accented) "Invoice 7" "PDF document"
  = Return (JDict [("error",
                    JStr ("Failed to parse JSON: "
                            ++ "Expecting property name enclosed in double quotes: "
                            ++ "line 1 column 18 (char 17)"));
                   ("raw", JStr (clean accented))]).
Proof.
  apply (proj1 malformed_output_record allowed (answering accented) "Invoice 7"
               "PDF document" accented
               ("Expecting property name enclosed in double quotes: "
                  ++ "line 1 column 18 (char 17)")).
  - reflexivity.
  - vm_compute. reflexivity.
Defined.

(** The messages of the two limits of the interpreter. *)
Example limits_reached :
  parse allowed long_number
  = error_record
      ("Exceeds the limit (4300 digits) for integer string conversion: "
         ++ "value has 4301 digits; use sys.set_int_max_str_digits() to increase the limit")
      long_number
  /\ parse allowed (nested 991)
     = error_record
         "maximum recursion depth exceeded while decoding a JSON array from a unicode string"
         (nested 991)
  /\ json_loads allowed (nested 990) = Return (fold_right (fun _ v => JList [v]) (JList []) (seq 0 989)).
Proof. repeat split; vm_compute; reflexivity. Qed.

End ExtractorFacts.

(** ** Paths *)

Module PathFacts.
Import Text Paths TextFacts.
#[local] Arguments String.append !_ _ / : simpl nomatch.

Lemma all_chars_append p a b :
  all_chars p (a ++ b) = all_chars p a && all_chars p b.
Proof. induction a as [|c a IH]; simpl; [reflexivity | now rewrite IH, andb_assoc]. Qed.

Lemma rpartition_none p s :
  all_chars (fun c => negb (p c)) s = true -> rpartition p s = None.
Proof.
  induction s as [|c s IH]; simpl; [reflexivity|].
  intros [Hc Hs]%andb_prop. rewrite (IH Hs).
  now destruct (p c).
Qed.

(** Splitting at the last separator. *)
Lemma rpartition_last p a c b :
  p c = true ->
  all_chars (fun x => negb (p x)) b = true ->
  rpartition p (a ++ String c b) = Some (a, b).
Proof.
  intros Hc Hb. induction a as [|x a IH]; simpl.
  - now rewrite (rpartition_none p b Hb), Hc.
  - now rewrite IH.
Qed.

Lemma drop_split n s : exists a, s = a ++ drop n s.
Proof.
  revert s; induction n as [|n IH]; intros s.
  - exists ""; reflexivity.
  - destruct s as [|c s]; simpl; [exists ""; reflexivity|].
    destruct (IH s) as [a Ha]. exists (String c a). simpl. now rewrite <- Ha.
Qed.

Lemma endswith_split s p : endswith s p = true -> exists a, s = a ++ p.
Proof.
  unfold endswith. intros [_ H]%andb_prop. apply String.eqb_eq in H.
  destruct (drop_split (String.length s - String.length p) s) as [a Ha].
  exists a. now rewrite <- H.
Qed.

Lemma prefix_cons a p c s :
  String.prefix (String a p) (String c s)
  = if ascii_dec a c then String.prefix p s else false.
Proof. reflexivity. Qed.

Lemma no_slash_not_absolute b : no_slash b -> startswith b "/" = false.
Proof.
  destruct b as [|c b]; [reflexivity|]. unfold no_slash, startswith.
  cbn [all_chars]. intros [Hc _]%andb_prop.
  rewrite prefix_cons.
  destruct (ascii_dec "/" c) as [<-|]; [discriminate Hc | reflexivity].
Qed.

(** Joining a slash-free name to a directory puts it after a slash, or
    leaves it alone when the directory is empty. *)
Lemma os_path_join_cases a b :
  no_slash b ->
  (a = "" /\ os_path_join a b = b)
  \/ exists a', os_path_join a b = a' ++ "/" ++ b
                /\ (a = a' \/ a = a' ++ "/").
Proof.
  intros Hb. unfold os_path_join. rewrite (no_slash_not_absolute b Hb).
  destruct a as [|c a]; [left; split; reflexivity|]. simpl negb. simpl orb.
  destruct (endswith (String c a) "/") eqn:He.
  - right. destruct (endswith_split _ _ He) as [a' Ha'].
    exists a'. rewrite Ha', append_assoc. split; [reflexivity | now right].
  - right. exists (String c a). split; [reflexivity | now left].
Qed.

(** The name of a joined path is the name that was joined. *)
Lemma name_join a b : no_slash b -> name (os_path_join a b) = b.
Proof.
  intros Hb. unfold name.
  destruct (os_path_join_cases a b Hb) as [[_ ->] | [a' [-> _]]].
  - now rewrite (rpartition_none is_slash b Hb).
  - change (a' ++ "/" ++ b) with (a' ++ String "/" b).
    now rewrite (rpartition_last is_slash a' "/" b eq_refl Hb).
Qed.

Lemma name_plain b : no_slash b -> name b = b.
Proof. intros Hb. unfold name. now rewrite (rpartition_none is_slash b Hb). Qed.

Lemma stem_join a b : no_slash b -> stem (os_path_join a b) = stem b.
Proof.
  intros Hb. unfold stem. now rewrite (name_join a b Hb), (name_plain b Hb).
Qed.

Lemma stem_of_name p q : name p = name q -> stem p = stem q.
Proof. unfold stem. now intros ->. Qed.

(** The stem of a path is its base name without the extension. *)
Lemma stem_base root base ext :
  no_slash base -> base <> "" -> plain_ext ext ->
  stem (os_path_join root (base ++ "." ++ ext)) = base.
Proof.
  intros Hbase Hne [Hext [Hdots Hslash]].
  assert (Hfile : no_slash (base ++ "." ++ ext)).
  { unfold no_slash in *. rewrite all_chars_append, Hbase. exact Hslash. }
  rewrite (stem_join root _ Hfile). unfold stem. rewrite (name_plain _ Hfile).
  change (base ++ "." ++ ext) with (base ++ String "." ext).
  rewrite (rpartition_last is_dot base "." ext eq_refl Hdots).
  destruct base; [congruence|]. destruct ext; [congruence | reflexivity].
Qed.

End PathFacts.

(** ** Source location *)

Module LocatorFacts.
Import Text Paths Locator TextFacts PathFacts.
#[local] Arguments String.append !_ _ / : simpl nomatch.

Lemma walk_find_unfold exts top entries :
  walk_find exts top entries
  = (map (os_path_join top) (List.filter (has_ext exts) (file_names entries))
     ++ flat_map
          (fun t => map (os_path_join (fst (fst t))) (List.filter (has_ext exts) (snd t)))
          (flat_map (walk_node top) entries))%list.
Proof. reflexivity. Qed.

Lemma walk_node_dir exts top d sub :
  flat_map
    (fun t => map (os_path_join (fst (fst t))) (List.filter (has_ext exts) (snd t)))
    (walk_node top (Dir d sub))
  = walk_find exts (os_path_join top d) sub.
Proof. reflexivity. Qed.




(** What the search of one directory returns: the entries of the
    directory itself that are not hidden and whose name ends with the
    extension. *)
Lemma glob_in_spec listing ext d p :
  In p (glob_in listing ext d) <->
  exists n,
    In n (listing d)
    /\ p = os_path_join d (node_name n)
    /\ endswith (node_name n) ext = true
    /\ ishidden (node_name n) = false.
Proof.
  unfold glob_in. rewrite in_map_iff. split.
  - intros [x [<- Hx]]. apply filter_In in Hx. destruct Hx as [Hx Hext].
    apply filter_In in Hx. destruct Hx as [Hx Hhid].
    apply in_map_iff in Hx. destruct Hx as [n [<- Hn]].
    exists n. repeat split; try assumption. now apply negb_true_iff.
  - intros [n [Hn [-> [Hext Hhid]]]]. exists (node_name n). split; [reflexivity|].
    apply filter_In. split; [|exact Hext].
    apply filter_In. split; [|now rewrite Hhid].
    now apply in_map.
Qed.

Lemma glob_ext_spec expand listing folder_path ext p :
  In p (glob_ext expand listing folder_path ext) <->
  exists d n,
    In d (glob_dirs expand (glob_dirname folder_path ext))
    /\ In n (listing d)
    /\ p = os_path_join d (node_name n)
    /\ endswith (node_name n) ext = true
    /\ ishidden (node_name n) = false.
Proof.
  unfold glob_ext. rewrite in_flat_map. split.
  - intros [d [Hd Hp]]. apply glob_in_spec in Hp. destruct Hp as [n Hn]. eauto.
  - intros [d [n [Hd Hn]]]. exists d. split; [exact Hd|]. apply glob_in_spec. eauto.
Qed.

Lemma has_magic_false s :
  has_magic s = false <-> all_chars (fun c => negb (is_magic c)) s = true.
Proof. unfold has_magic. apply negb_false_iff. Qed.

(** The directory part of the pattern is made of characters of the
    folder path and slashes. *)
Lemma glob_dirname_plain folder_path ext :
  no_slash ext -> has_magic folder_path = false ->
  has_magic (glob_dirname folder_path ext) = false.
Proof.
  intros Hext Hplain. apply has_magic_false in Hplain. apply has_magic_false.
  assert (Hpat : no_slash ("*" ++ ext)) by exact Hext.
  unfold glob_dirname, os_path_split.
  destruct (os_path_join_cases folder_path ("*" ++ ext) Hpat) as [[_ ->] | [a [-> Ha]]].
  - now rewrite (rpartition_none is_slash _ Hpat).
  - change (a ++ "/" ++ "*" ++ ext) with (a ++ String "/" ("*" ++ ext)).
    rewrite (rpartition_last is_slash a "/" _ eq_refl Hpat).
    assert (Hhead : all_chars (fun c => negb (is_magic c)) (a ++ "/") = true).
    { rewrite all_chars_append.
      destruct Ha as [<- | ->]; [now rewrite Hplain|].
      rewrite all_chars_append in Hplain. apply andb_prop in Hplain.
      now rewrite (proj1 Hplain). }
    destruct (rstrip_with_split is_slash (a ++ "/")) as [t [Ht _]].
    destruct (rstrip_with is_slash (a ++ "/")) as [|x r] eqn:Hr; cbn [fst]; [exact Hhead|].
    rewrite Ht, all_chars_append in Hhead. apply andb_prop in Hhead. exact (proj1 Hhead).
Qed.

(** A folder path without wildcard characters names one directory. *)
Lemma glob_dirs_plain expand folder_path ext :
  no_slash ext -> has_magic folder_path = false ->
  glob_dirs expand (glob_dirname folder_path ext) = [glob_dirname folder_path ext].
Proof.
  intros Hext Hplain. unfold glob_dirs.
  now rewrite (glob_dirname_plain folder_path ext Hext Hplain).
Qed.



Lemma append_empty (a b : string) : a ++ b = "" -> a = "".
Proof. destruct a; [reflexivity | discriminate]. Qed.









(** The two searches on the same tree. *)
Example searches_of_docs :
  glob_ext (Batch.pattern_dirs Demo.office) (Batch.listing Demo.office) "docs" ".pdf"
  = ["docs/a.pdf"; "docs/b.pdf"; "docs/c.pdf"]
  /\ walk_find [".pdf"] "/tmp/tmpk3v9" (Batch.listing Demo.office "docs")
     = ["/tmp/tmpk3v9/a.pdf"; "/tmp/tmpk3v9/b.pdf"; "/tmp/tmpk3v9/c.pdf";
        "/tmp/tmpk3v9/old/y2020/d.pdf"].
Proof. split; vm_compute; reflexivity. Qed.

End LocatorFacts.

(** ** The batch runner *)

Module BatchFacts.
Import Text Json Paths Locator Normalizer Batch TextFacts PathFacts LocatorFacts Demo.
#[local] Arguments String.append !_ _ / : simpl nomatch.

Section Loop.
Variable E : env.
Variable fmt : format.
Variable f : string -> string -> outcome value.

#[local] Abbreviation step := (process_file E fmt f).
#[local] Abbreviation run := (process_files E fmt f).

Lemma record_extend o err w st :
  record o err w st = extend st (record o err w (start (st_world st))).
Proof. reflexivity. Qed.

(** The loop body reads nothing of the state but the world, and only
    appends to the two lists. *)
Lemma step_frame st p : step st p = extend st (step (start (st_world st)) p).
Proof.
  unfold process_file, processing_failed. simpl.
  destruct (read_text fmt E p) as [text|e]; [|apply record_extend].
  destruct (truthy (strip text)); [|apply record_extend].
  destruct (f text (document_type fmt)) as [json_data|e]; [|apply record_extend].
  destruct (write_json E _ json_data); apply record_extend.
Qed.

Lemma step_world st p : st_world (step st p) = st_world (step (start (st_world st)) p).
Proof. now rewrite step_frame. Qed.

Lemma extend_assoc a b c : extend (extend a b) c = extend a (extend b c).
Proof. unfold extend; simpl. now rewrite !app_assoc. Qed.

Lemma extend_start st : extend st (start (st_world st)) = st.
Proof. destruct st; unfold extend; simpl. now rewrite !app_nil_r. Qed.

Lemma fold_frame files st :
  fold_left step files st = extend st (run files (st_world st)).
Proof.
  change (fold_left step files st
          = extend st (fold_left step files (start (st_world st)))).
  revert st. induction files as [|p files IH]; intros st; cbn [fold_left].
  - symmetry. apply extend_start.
  - rewrite (IH (step st p)), (IH (step (start (st_world st)) p)).
    rewrite <- extend_assoc, <- step_frame.
    now rewrite (step_world st p).
Qed.

Lemma run_app l1 l2 w :
  run (l1 ++ l2) w = extend (run l1 w) (run l2 (st_world (run l1 w))).
Proof. unfold process_files at 1. rewrite fold_left_app. apply fold_frame. Qed.

Lemma run_cons p l w :
  run (p :: l) w = extend (step (start w) p) (run l (st_world (step (start w) p))).
Proof. unfold process_files at 1. simpl. apply fold_frame. Qed.

(** One outcome per file, and at most one error. *)
Lemma step_counts w p :
  length (st_results (step (start w) p)) = 1
  /\ length (st_errors (step (start w) p)) <= 1.
Proof.
  unfold process_file, processing_failed. simpl.
  destruct (read_text fmt E p) as [text|e]; [|simpl; lia].
  destruct (truthy (strip text)); [|simpl; lia].
  destruct (f text (document_type fmt)) as [json_data|e]; [|simpl; lia].
  destruct (write_json E _ json_data); simpl; lia.
Qed.

Lemma run_counts files w :
  length (st_results (run files w)) = length files
  /\ length (st_errors (run files w)) <= length files.
Proof.
  revert w; induction files as [|p files IH]; intros w.
  - simpl; lia.
  - rewrite run_cons. simpl. rewrite !length_app.
    destruct (step_counts w p) as [H1 H2].
    destruct (IH (st_world (step (start w) p))) as [H3 H4]. lia.
Qed.

(** The steps of a file that goes through. *)
Lemma step_goes_through w p json_data :
  goes_through E fmt f p json_data ->
  exists text,
    step (start w) p =
    {| st_results := [succeeded fmt p]; st_errors := [];
       st_world := stored (json_path fmt (stem p ++ ".json")) (Dumped json_data)
                          (called text (document_type fmt) w) |}.
Proof.
  intros [text [Hr [Ht [Hf Hw]]]]. exists text.
  unfold process_file. simpl. rewrite Hr, Ht, Hf, Hw. reflexivity.
Qed.

Lemma step_read_fails w p e :
  read_text fmt E p = Raise e ->
  step (start w) p =
  {| st_results := [unprocessed fmt p e];
     st_errors := ["Error processing " ++ error_name fmt p ++ ": " ++ e];
     st_world := w |}.
Proof. intros Hr. unfold process_file. simpl. rewrite Hr. reflexivity. Qed.

Lemma step_blank w p text :
  read_text fmt E p = Return text ->
  truthy (strip text) = false ->
  step (start w) p =
  {| st_results := [without_data fmt p]; st_errors := []; st_world := w |}.
Proof. intros Hr Ht. unfold process_file. simpl. rewrite Hr, Ht. reflexivity. Qed.

End Loop.

(** The report of a batch that is prepared and finds files. *)
Lemma run_batch_found E fmt f src w files :
  prepared E fmt src ->
  located E fmt src = Some files ->
  files <> [] ->
  let st := process_files E fmt f files w in
  run_batch E fmt f src w
  = (Return (summary files
               match src with Folder _ => files | Zip _ => map name files end st),
     st_world st).
Proof.
  intros [Hm Ht] Hl Hne. destruct src as [folder_path|uploaded_zip]; simpl in *.
  - unfold process_folder. rewrite Hm. injection Hl as Hl. rewrite Hl.
    destruct files; [congruence | reflexivity].
  - unfold process_zip. rewrite Hm. destruct Ht as [t Ht]. rewrite Ht in *.
    destruct uploaded_zip as [| |entries]; try discriminate.
    injection Hl as Hl. rewrite Hl.
    destruct files; [congruence | reflexivity].
Qed.

(** The report of a batch that is prepared and finds nothing, or cannot
    look. *)
Lemma run_batch_nothing E fmt f src w :
  prepared E fmt src ->
  located E fmt src = Some [] \/ located E fmt src = None ->
  exists e, run_batch E fmt f src w = (Return (failure e), w).
Proof.
  intros [Hm Ht] Hl. destruct src as [folder_path|uploaded_zip]; simpl in *.
  - unfold process_folder. rewrite Hm.
    destruct Hl as [Hl|Hl]; [|discriminate]. injection Hl as Hl. rewrite Hl. eauto.
  - unfold process_zip. rewrite Hm. destruct Ht as [t Ht]. rewrite Ht in *.
    destruct uploaded_zip as [| |entries]; eauto.
    destruct Hl as [Hl|Hl]; [|discriminate]. injection Hl as Hl. rewrite Hl. eauto.
Qed.

Lemma located_cases E fmt src :
  located E fmt src = None \/ located E fmt src = Some []
  \/ exists files, located E fmt src = Some files /\ files <> [].
Proof.
  destruct (located E fmt src) as [[|p files]|]; auto.
  right; right. eexists; split; [reflexivity | discriminate].
Qed.

(** The four functions of the source are the batch run at their format
    and their kind of source. *)
Lemma entry_points E f w :
  (forall folder_path,
      process_pdf_folder E folder_path f w = run_batch E pdf_format f (Folder folder_path) w)
  /\ (forall uploaded_zip,
         process_zip_file E uploaded_zip f w = run_batch E pdf_format f (Zip uploaded_zip) w)
  /\ (forall folder_path,
         process_excel_folder E folder_path f w
         = run_batch E excel_format f (Folder folder_path) w)
  /\ (forall uploaded_zip,
         process_excel_zip_file E uploaded_zip f w
         = run_batch E excel_format f (Zip uploaded_zip) w).
Proof. repeat split. Qed.

(** The report on the sample folder. *)
Example docs_report :
  fst (process_pdf_folder office "docs" echo fresh)
  = Return {| success := false;
              results := [ {| file_name := "a.pdf"; json_file := "a.json";
                              status := "✅ Success" |};
                           {| file_name := "b.pdf"; json_file := "N/A";
                              status := "❌ Error: Error reading PDF docs/b.pdf: No /Root object" |};
                           {| file_name := "c.pdf"; json_file := "c.json";
                              status := "✅ Success" |} ];
              errors := ["Error processing b.pdf: Error reading PDF docs/b.pdf: No /Root object"];
              total_files := 3;
              files_found := ["docs/a.pdf"; "docs/b.pdf"; "docs/c.pdf"] |}.
Proof. vm_compute. reflexivity. Qed.

(** C3. A prepared batch, on a folder or on an archive, returns a
    report whose [success] is true exactly when [errors] is empty; when
    no matching file is found, [success] is false, there is one error
    and [total_files] is 0. *)
Theorem report_success_flag E fmt f src w :
  prepared E fmt src ->
  exists r,
    fst (run_batch E fmt f src w) = Return r
    /\ (success r = true <-> errors r = [])
    /\ (located E fmt src = Some [] ->
        success r = false /\ length (errors r) = 1 /\ total_files r = 0).
Proof.
  intros Hp.
  destruct (located_cases E fmt src) as [Hl | [Hl | [files [Hl Hne]]]].
  - destruct (run_batch_nothing E fmt f src w Hp (or_intror Hl)) as [e ->].
    eexists; split; [reflexivity|]. simpl. split; [split; discriminate|].
    rewrite Hl; discriminate.
  - destruct (run_batch_nothing E fmt f src w Hp (or_introl Hl)) as [e ->].
    eexists; split; [reflexivity|]. simpl. split; [split; discriminate|]. auto.
  - rewrite (run_batch_found E fmt f src w files Hp Hl Hne).
    eexists; split; [reflexivity|]. simpl. split.
    + destruct (st_errors _); simpl; split; congruence.
    + rewrite Hl. intros [= ->]. congruence.
Qed.

Lemma report_success_flag_witness :
  exists r,
    fst (run_batch office pdf_format echo (Folder "attic") fresh) = Return r
    /\ (success r = true <-> errors r = [])
    /\ (located office pdf_format (Folder "attic") = Some [] ->
        success r = false /\ length (errors r) = 1 /\ total_files r = 0).
Proof.
  apply (report_success_flag office pdf_format echo (Folder "attic") fresh).
  split; [reflexivity | exact I].
Defined.

(** C9, as amended.  A prepared batch that locates at least one file
    reports one [files_found] entry per located file, in the order of
    discovery, and [total_files] is their number.  For a folder the
    entries are the located paths, each the name of an entry joined to a
    directory that the search pattern names; for an archive they are the
    base names of the located paths. *)
Theorem files_found_per_source E fmt f src w files :
  prepared E fmt src ->
  located E fmt src = Some files ->
  files <> [] ->
  exists r,
    fst (run_batch E fmt f src w) = Return r
    /\ total_files r = length files
    /\ length (files_found r) = total_files r
    /\ match src with
       | Folder folder_path =>
           files_found r = files
           /\ Forall (fun p =>
                        exists ext d n,
                          In ext (exts fmt)
                          /\ In d (glob_dirs (pattern_dirs E) (glob_dirname folder_path ext))
                          /\ In n (listing E d)
                          /\ p = os_path_join d (node_name n))
                     (files_found r)
       | Zip _ => files_found r = map name files
       end.
Proof.
  intros Hp Hl Hne. rewrite (run_batch_found E fmt f src w files Hp Hl Hne).
  eexists; split; [reflexivity|]. simpl. split; [reflexivity|].
  destruct src as [folder_path|uploaded_zip].
  - split; [reflexivity|]. split; [reflexivity|].
    simpl in Hl. injection Hl as <-. apply List.Forall_forall. intros p Hin.
    unfold locate_folder in Hin. apply in_flat_map in Hin. destruct Hin as [ext [Hext Hin]].
    apply glob_ext_spec in Hin. destruct Hin as [d [n [Hd [Hn [-> _]]]]].
    exists ext, d, n. auto.
  - split; [apply length_map | reflexivity].
Qed.

Lemma files_found_per_source_witness :
  exists r,
    fst (run_batch office pdf_format echo (Zip (Extracted bundle)) fresh) = Return r
    /\ total_files r = 2
    /\ length (files_found r) = total_files r
    /\ files_found r = map name ["/tmp/tmpk3v9/jan/inv.pdf"; "/tmp/tmpk3v9/feb/late/inv.pdf"].
Proof.
  apply (files_found_per_source office pdf_format echo (Zip (Extracted bundle)) fresh
           ["/tmp/tmpk3v9/jan/inv.pdf"; "/tmp/tmpk3v9/feb/late/inv.pdf"]).
  - split; [reflexivity | exists "/tmp/tmpk3v9"; reflexivity].
  - vm_compute. reflexivity.
  - discriminate.
Defined.

(** A folder path with a doubled slash: the entries are joined to the
    directory of the pattern, not to the folder path as given. *)
Example files_found_doubled_slash :
  glob_dirname "docs//" ".pdf" = "docs"
  /\ os_path_join "docs//" "a.pdf" = "docs//a.pdf"
  /\ os_path_join (glob_dirname "docs//" ".pdf") "a.pdf" = "docs/a.pdf".
Proof. repeat split. Qed.

(** C9, as stated, fails: the folder [docs] is reported by the paths of
    its files, which are not their names, and the archive by the names
    of its files, which are not their paths. *)
Lemma files_found_counterexample :
  (exists r,
      fst (run_batch office pdf_format echo (Folder "docs") fresh) = Return r
      /\ located office pdf_format (Folder "docs")
         = Some ["docs/a.pdf"; "docs/b.pdf"; "docs/c.pdf"]
      /\ files_found r = ["docs/a.pdf"; "docs/b.pdf"; "docs/c.pdf"]
      /\ files_found r <> map name ["docs/a.pdf"; "docs/b.pdf"; "docs/c.pdf"])
  /\ (exists r,
         fst (run_batch office pdf_format echo (Zip (Extracted bundle)) fresh) = Return r
         /\ located office pdf_format (Zip (Extracted bundle))
            = Some ["/tmp/tmpk3v9/jan/inv.pdf"; "/tmp/tmpk3v9/feb/late/inv.pdf"]
         /\ files_found r = ["inv.pdf"; "inv.pdf"]
         /\ files_found r <> ["/tmp/tmpk3v9/jan/inv.pdf"; "/tmp/tmpk3v9/feb/late/inv.pdf"]).
Proof.
  split; eexists; (split; [vm_compute; reflexivity|]); simpl;
    repeat split; try (vm_compute; reflexivity); vm_compute; discriminate.
Qed.

(** A run returns a report whatever the reader, the extraction function
    and the writer do. *)
Lemma run_batch_total E fmt f src w :
  prepared E fmt src ->
  exists r,
    fst (run_batch E fmt f src w) = Return r
    /\ length (results r) = total_files r
    /\ length (errors r) <= Nat.max 1 (total_files r).
Proof.
  intros Hp.
  destruct (located_cases E fmt src) as [Hl | [Hl | [files [Hl Hne]]]].
  - destruct (run_batch_nothing E fmt f src w Hp (or_intror Hl)) as [e ->].
    eexists; split; [reflexivity|]. simpl. lia.
  - destruct (run_batch_nothing E fmt f src w Hp (or_introl Hl)) as [e ->].
    eexists; split; [reflexivity|]. simpl. lia.
  - rewrite (run_batch_found E fmt f src w files Hp Hl Hne).
    eexists; split; [reflexivity|]. simpl.
    destruct (run_counts E fmt f files w). lia.
Qed.

(** C2. A prepared batch that locates three files, of which the first
    and the third go through every step, returns a report with
    [total_files] 3 and three outcomes; the outcomes of the first and of
    the third file are their success outcomes whatever happens to the
    second; and when reading the second raises, there is exactly one
    error, that of the second file.  No exception of a reader, of the
    extraction function or of the writer leaves a batch: every prepared
    batch returns a report, with one outcome per located file. *)
Theorem batch_isolation :
  (forall E fmt f src w p1 p2 p3 v1 v3,
      prepared E fmt src ->
      located E fmt src = Some [p1; p2; p3] ->
      goes_through E fmt f p1 v1 ->
      goes_through E fmt f p3 v3 ->
      exists r,
        fst (run_batch E fmt f src w) = Return r
        /\ total_files r = 3
        /\ length (results r) = 3
        /\ results r !! 0 = Some (succeeded fmt p1)
        /\ results r !! 2 = Some (succeeded fmt p3)
        /\ (forall e,
               read_text fmt E p2 = Raise e ->
               results r = [succeeded fmt p1; unprocessed fmt p2 e; succeeded fmt p3]
               /\ errors r = ["Error processing " ++ error_name fmt p2 ++ ": " ++ e]
               /\ length (errors r) = 1
               /\ success r = false))
  /\ (forall E fmt f src w,
         prepared E fmt src ->
         exists r,
           fst (run_batch E fmt f src w) = Return r
           /\ length (results r) = total_files r).
Proof.
  split.
  - intros E fmt f src w p1 p2 p3 v1 v3 Hp Hl H1 H3.
    rewrite (run_batch_found E fmt f src w _ Hp Hl ltac:(discriminate)).
    eexists; split; [reflexivity|]. simpl.
    rewrite !run_cons.
    destruct (step_goes_through E fmt f w p1 v1 H1) as [t1 ->]. simpl.
    set (w1 := stored _ _ _).
    destruct (step_counts E fmt f w1 p2) as [Hone _].
    destruct (st_results (process_file E fmt f (start w1) p2)) as [|o [|? ?]] eqn:Ho;
      try discriminate.
    destruct (step_goes_through E fmt f
                (st_world (process_file E fmt f (start w1) p2)) p3 v3 H3) as [t3 H3'].
    repeat split; try (rewrite H3'; reflexivity).
    + rewrite H3'. simpl.
      rewrite (step_read_fails E fmt f w1 p2 e H) in Ho. simpl in Ho.
      injection Ho as <-. reflexivity.
    + rewrite H3'. simpl. rewrite (step_read_fails E fmt f w1 p2 e H). reflexivity.
    + rewrite H3'. simpl. rewrite (step_read_fails E fmt f w1 p2 e H). reflexivity.
    + rewrite H3'. simpl. rewrite (step_read_fails E fmt f w1 p2 e H). reflexivity.
  - intros E fmt f src w Hp.
    destruct (run_batch_total E fmt f src w Hp) as [r [Hr [Hlen _]]]. eauto.
Qed.

Lemma batch_isolation_witness :
  exists r,
    fst (run_batch office pdf_format echo (Folder "docs") fresh) = Return r
    /\ total_files r = 3
    /\ length (results r) = 3
    /\ results r !! 0 = Some (succeeded pdf_format "docs/a.pdf")
    /\ results r !! 2 = Some (succeeded pdf_format "docs/c.pdf")
    /\ (forall e,
           read_text pdf_format office "docs/b.pdf" = Raise e ->
           results r = [succeeded pdf_format "docs/a.pdf";
                        unprocessed pdf_format "docs/b.pdf" e;
                        succeeded pdf_format "docs/c.pdf"]
           /\ errors r = ["Error processing " ++ error_name pdf_format "docs/b.pdf"
                                               ++ ": " ++ e]
           /\ length (errors r) = 1
           /\ success r = false).
Proof.
  apply (proj1 batch_isolation office pdf_format echo (Folder "docs") fresh
               "docs/a.pdf" "docs/b.pdf" "docs/c.pdf"
               (JStr "Invoice of docs/a.pdf") (JStr "Invoice of docs/c.pdf")).
  - split; [reflexivity | exact I].
  - vm_compute. reflexivity.
  - exists "Invoice of docs/a.pdf". repeat split; vm_compute; reflexivity.
  - exists "Invoice of docs/c.pdf". repeat split; vm_compute; reflexivity.
Defined.

(** C6. A located file whose text is empty or made of blank characters
    only (those of [str.isspace], within ASCII or not) gets the outcome
    with the no-data status and the output name N/A; it adds no error,
    makes no call to the extraction function and writes nothing; and the
    loop goes on with the files after it: the batch ends with the errors
    and in the world of the batch without that file. *)
Theorem blank_text_no_data E fmt f l1 p l2 w text :
  read_text fmt E p = Return text ->
  whitespace_only text ->
  let before := process_files E fmt f l1 w in
  let rest := process_files E fmt f l2 (st_world before) in
  let whole := process_files E fmt f (l1 ++ p :: l2)%list w in
  process_file E fmt f before p
  = {| st_results := (st_results before ++ [without_data fmt p])%list;
       st_errors := st_errors before;
       st_world := st_world before |}
  /\ json_file (without_data fmt p) = "N/A"
  /\ status (without_data fmt p) = no_data fmt
  /\ model_calls (st_world (process_file E fmt f before p))
     = model_calls (st_world before)
  /\ st_results whole = (st_results before ++ without_data fmt p :: st_results rest)%list
  /\ st_errors whole = (st_errors before ++ st_errors rest)%list
  /\ st_world whole = st_world rest
  /\ st_errors whole = st_errors (process_files E fmt f (l1 ++ l2)%list w)
  /\ st_world whole = st_world (process_files E fmt f (l1 ++ l2)%list w)
  /\ (forall src,
         prepared E fmt src ->
         located E fmt src = Some (l1 ++ p :: l2)%list ->
         exists r,
           run_batch E fmt f src w = (Return r, st_world rest)
           /\ results r = (st_results before ++ without_data fmt p :: st_results rest)%list
           /\ errors r = (st_errors before ++ st_errors rest)%list).
Proof.
  intros Hr Hb before rest whole.
  pose proof (proj1 (strip_blank text) Hb) as Ht.
  assert (Hstep : forall st, process_file E fmt f st p
                             = extend st {| st_results := [without_data fmt p];
                                            st_errors := []; st_world := st_world st |}).
  { intros st. rewrite step_frame, (step_blank E fmt f _ p text Hr Ht). reflexivity. }
  assert (Hwhole : whole = extend before
                     (extend {| st_results := [without_data fmt p]; st_errors := [];
                                st_world := st_world before |} rest)).
  { unfold whole. rewrite run_app, run_cons.
    rewrite (step_blank E fmt f _ p text Hr Ht). reflexivity. }
  assert (Hskip : process_files E fmt f (l1 ++ l2) w = extend before rest).
  { apply run_app. }
  assert (Hrun : forall src, prepared E fmt src ->
                  located E fmt src = Some (l1 ++ p :: l2)%list ->
                  run_batch E fmt f src w
                  = (Return (summary (l1 ++ p :: l2)%list
                               match src with
                               | Folder _ => (l1 ++ p :: l2)%list
                               | Zip _ => map name (l1 ++ p :: l2)%list
                               end whole), st_world whole)).
  { intros src Hp Hl. apply (run_batch_found E fmt f src w _ Hp Hl). now destruct l1. }
  rewrite Hstep. unfold extend; simpl. rewrite !app_nil_r.
  do 9 (split; [rewrite ?Hwhole, ?Hskip; reflexivity|]).
  intros src Hp Hl. rewrite (Hrun src Hp Hl), Hwhole. unfold extend; simpl.
  eexists. split; [reflexivity|]. split; reflexivity.
Qed.

Lemma blank_text_no_data_witness :
  process_file office pdf_format echo
               (process_files office pdf_format echo [] fresh) "scans/blank.pdf"
  = {| st_results := [without_data pdf_format "scans/blank.pdf"];
       st_errors := [];
       st_world := fresh |}
  /\ st_results (process_files office pdf_format echo
                               ([] ++ "scans/blank.pdf" :: ["scans/a.pdf"])%list fresh)
     = [without_data pdf_format "scans/blank.pdf"; succeeded pdf_format "scans/a.pdf"].
Proof.
  assert (Hblank : whitespace_only (" " ++ utf8 160 ++ utf8 8195 ++ nl)).
  { exists [32; 160; 8195; 10]%N. split; [repeat constructor | reflexivity]. }
  destruct (blank_text_no_data office pdf_format echo [] "scans/blank.pdf"
              ["scans/a.pdf"] fresh (" " ++ utf8 160 ++ utf8 8195 ++ nl) eq_refl Hblank)
    as [Hstep [_ [_ [_ [Hres _]]]]].
  split; [exact Hstep|]. rewrite Hres. vm_compute. reflexivity.
Defined.

(** C10. The file written for a located path lies in the output
    directory and is named after the stem of the path: the base name
    without its extension, whatever the directory.  So when a prepared
    batch locates two paths with the same base name and both go through
    every step, both are reported with the success outcome and the same
    output name, the output file holds the result of the earlier one once
    that one is handled, and the result of the later one once the later
    one is handled. *)
Theorem same_name_overwrites :
  (forall root base ext,
      no_slash base -> base <> "" -> plain_ext ext ->
      stem (os_path_join root (base ++ "." ++ ext)) = base)
  /\ (forall root file, no_slash file -> stem (os_path_join root file) = stem file)
  /\ (forall E fmt f src w l1 p1 l2 p2 l3 v1 v2,
         prepared E fmt src ->
         located E fmt src = Some (l1 ++ p1 :: l2 ++ p2 :: l3)%list ->
         name p1 = name p2 ->
         goes_through E fmt f p1 v1 ->
         goes_through E fmt f p2 v2 ->
         let key := output_dir fmt ++ "/" ++ stem p1 ++ ".json" in
         exists r,
           fst (run_batch E fmt f src w) = Return r
           /\ results r !! length l1 = Some (succeeded fmt p1)
           /\ results r !! (length l1 + 1 + length l2) = Some (succeeded fmt p2)
           /\ status (succeeded fmt p1) = status_success
           /\ status (succeeded fmt p2) = status_success
           /\ json_file (succeeded fmt p1) = stem p1 ++ ".json"
           /\ json_file (succeeded fmt p2) = stem p1 ++ ".json"
           /\ disk (st_world (process_files E fmt f (l1 ++ [p1])%list w)) !! key
              = Some (Dumped v1)
           /\ disk (st_world (process_files E fmt f (l1 ++ p1 :: l2 ++ [p2])%list w)) !! key
              = Some (Dumped v2)).
Proof.
  split; [apply stem_base|]. split; [apply stem_join|].
  intros E fmt f src w l1 p1 l2 p2 l3 v1 v2 Hp Hl Hname H1 H2 key.
  pose proof (stem_of_name p1 p2 Hname) as Hstem.
  rewrite (run_batch_found E fmt f src w _ Hp Hl ltac:(now destruct l1)).
  eexists; split; [reflexivity|]. cbn [fst summary results].
  split; [|split; [|split; [|split; [|split; [|split; [|split]]]]]].
  - rewrite run_app, run_cons. cbn [extend st_results].
    destruct (step_goes_through E fmt f (st_world (process_files E fmt f l1 w)) p1 v1 H1)
      as [t1 ->]. cbn [st_results st_world].
    rewrite lookup_app_r; rewrite (proj1 (run_counts E fmt f l1 w)); [|lia].
    now rewrite Nat.sub_diag.
  - replace (l1 ++ p1 :: l2 ++ p2 :: l3)%list with ((l1 ++ p1 :: l2) ++ p2 :: l3)%list
      by now rewrite <- app_assoc.
    rewrite run_app, run_cons. cbn [extend st_results].
    destruct (step_goes_through E fmt f
                (st_world (process_files E fmt f (l1 ++ p1 :: l2) w)) p2 v2 H2)
      as [t2 ->]. cbn [st_results st_world].
    rewrite lookup_app_r; rewrite (proj1 (run_counts E fmt f (l1 ++ p1 :: l2)%list w));
      rewrite length_app; simpl; [|lia].
    replace (length l1 + 1 + length l2 - (length l1 + S (length l2))) with 0 by lia.
    reflexivity.
  - reflexivity.
  - reflexivity.
  - reflexivity.
  - unfold succeeded; cbn [json_file]. now rewrite Hstem.
  - rewrite run_app, run_cons. cbn [extend st_world].
    destruct (step_goes_through E fmt f (st_world (process_files E fmt f l1 w)) p1 v1 H1)
      as [t1 ->]. cbn [st_world stored disk]. apply lookup_insert_eq.
  - replace (l1 ++ p1 :: l2 ++ [p2])%list with ((l1 ++ p1 :: l2) ++ [p2])%list
      by now rewrite <- app_assoc.
    rewrite run_app, run_cons. cbn [extend st_world].
    destruct (step_goes_through E fmt f
                (st_world (process_files E fmt f (l1 ++ p1 :: l2) w)) p2 v2 H2)
      as [t2 ->]. cbn [st_world stored disk]. unfold key. rewrite Hstem.
    apply lookup_insert_eq.
Qed.

Lemma same_name_overwrites_witness :
  exists r,
    fst (run_batch office pdf_format echo (Zip (Extracted bundle)) fresh) = Return r
    /\ results r !! 0 = Some (succeeded pdf_format "/tmp/tmpk3v9/jan/inv.pdf")
    /\ results r !! 1 = Some (succeeded pdf_format "/tmp/tmpk3v9/feb/late/inv.pdf")
    /\ status (succeeded pdf_format "/tmp/tmpk3v9/jan/inv.pdf") = status_success
    /\ status (succeeded pdf_format "/tmp/tmpk3v9/feb/late/inv.pdf") = status_success
    /\ json_file (succeeded pdf_format "/tmp/tmpk3v9/jan/inv.pdf") = "inv.json"
    /\ json_file (succeeded pdf_format "/tmp/tmpk3v9/feb/late/inv.pdf") = "inv.json"
    /\ disk (st_world (process_files office pdf_format echo
                         ["/tmp/tmpk3v9/jan/inv.pdf"] fresh))
         !! "json_output_pdf/inv.json"
       = Some (Dumped (JStr "Invoice of /tmp/tmpk3v9/jan/inv.pdf"))
    /\ disk (st_world (process_files office pdf_format echo
                         ["/tmp/tmpk3v9/jan/inv.pdf"; "/tmp/tmpk3v9/feb/late/inv.pdf"] fresh))
         !! "json_output_pdf/inv.json"
       = Some (Dumped (JStr "Invoice of /tmp/tmpk3v9/feb/late/inv.pdf")).
Proof.
  apply (proj2 (proj2 same_name_overwrites) office pdf_format echo
               (Zip (Extracted bundle)) fresh
               [] "/tmp/tmpk3v9/jan/inv.pdf" [] "/tmp/tmpk3v9/feb/late/inv.pdf" []
               (JStr "Invoice of /tmp/tmpk3v9/jan/inv.pdf")
               (JStr "Invoice of /tmp/tmpk3v9/feb/late/inv.pdf")).
  - split; [reflexivity | exists "/tmp/tmpk3v9"; reflexivity].
  - vm_compute. reflexivity.
  - vm_compute. reflexivity.
  - exists "Invoice of /tmp/tmpk3v9/jan/inv.pdf". repeat split; vm_compute; reflexivity.
  - exists "Invoice of /tmp/tmpk3v9/feb/late/inv.pdf".
    repeat split; vm_compute; reflexivity.
Defined.

(** The base name without the extension, in the sample archive. *)
Example stem_of_sample :
  stem "/tmp/tmpk3v9/feb/late/inv.pdf" = "inv"
  /\ stem "report.final.xlsx" = "report.final"
  /\ stem "docs/.hidden" = ".hidden".
Proof. repeat split. Qed.

End BatchFacts.

(** ** The spreadsheet normalizer *)

Module NormalizerFacts.
Import Text Normalizer TextFacts.

(** The conditional of the source leaves a missing value empty and
    gives any other value as its [str]. *)
Lemma cell_text_rendered val : cell_text val = rendered val.
Proof. now destruct val. Qed.

Lemma add_row_line text_content index row :
  add_row text_content (index, row) = text_content ++ row_line (index + 1) row.
Proof.
  unfold add_row, row_line, delimiter. cbn [fst snd].
  now rewrite (List.map_ext _ _ cell_text_rendered).
Qed.

(** The inner loop appends the numbered lines. *)
Lemma fold_add_row rs : forall start text_content,
  fold_left add_row (combine (seq start (length rs)) rs) text_content
  = text_content ++ row_lines (start + 1) rs.
Proof.
  induction rs as [|row rs IH]; intros start text_content.
  - simpl. now rewrite append_nil_r.
  - cbn [length seq combine fold_left row_lines].
    rewrite IH, add_row_line, append_assoc.
    now replace (S start + 1) with (S (start + 1)) by lia.
Qed.

(** One pass of the outer loop appends the layout of the sheet. *)
Lemma add_sheet_layout text_content sheet :
  as_read sheet -> add_sheet text_content sheet = text_content ++ sheet_layout sheet.
Proof.
  destruct sheet as [sheet_name [cols rs]]. unfold as_read, add_sheet, sheet_layout, empty.
  cbn [fst snd rows columns]. intros Hread.
  change (text_content ++ nl ++ "=== SHEET: " ++ sheet_name ++ " ===" ++ nl)
    with (text_content ++ sheet_marker sheet_name).
  destruct rs as [|row rs].
  - cbn [length Nat.eqb orb negb]. now rewrite append_assoc.
  - destruct cols as [|col cols]; [now destruct Hread|].
    cbn [length Nat.eqb orb negb]. unfold iterrows. cbn [rows].
    rewrite (fold_add_row (row :: rs) 0).
    unfold header_line, delimiter. rewrite !append_assoc. reflexivity.
Qed.

Lemma fold_add_sheet xl_data : forall text_content,
  Forall as_read xl_data ->
  fold_left add_sheet xl_data text_content = text_content ++ workbook_layout xl_data.
Proof.
  induction xl_data as [|sheet rest IH]; intros text_content Hread.
  - simpl. now rewrite append_nil_r.
  - inversion Hread as [|? ? Hsheet Hrest]; subst.
    cbn [fold_left workbook_layout].
    now rewrite (IH _ Hrest), (add_sheet_layout _ _ Hsheet), append_assoc.
Qed.

Lemma read_returns xl_data :
  extract_text_from_excel (Return xl_data) = Return (workbook_text xl_data).
Proof. reflexivity. Qed.

(** C7. For a workbook as [pd.read_excel] gives it, both normalizers
    return the layout of the specification: per sheet, in workbook
    order, the marker with the sheet name; then for a sheet with rows the
    header line and one line per row numbered from 1, with the cells
    joined by the delimiter, a missing value rendered as the empty string
    and any other value as its [str]; for a sheet without rows the
    empty-sheet marker and nothing else.  The last part spells the text
    out for a sheet of two rows with missing values. *)
Theorem spreadsheet_layout :
  (forall xl_data,
      Forall as_read xl_data ->
      extract_text_from_excel (Return xl_data) = Return (workbook_layout xl_data))
  /\ (forall read_excel excel_path xl_data,
         Forall as_read xl_data ->
         read_excel excel_path = Return xl_data ->
         extract_text_from_excel_path read_excel excel_path
         = Return (workbook_layout xl_data))
  /\ (forall sheet_name cols,
         extract_text_from_excel (Return [(sheet_name, {| columns := cols; rows := [] |})])
         = Return (sheet_marker sheet_name ++ empty_sheet_marker))
  /\ (forall sheet_name cols row rs,
         cols <> [] ->
         extract_text_from_excel
           (Return [(sheet_name, {| columns := cols; rows := row :: rs |})])
         = Return (sheet_marker sheet_name ++ header_line cols
                     ++ row_line 1 row ++ row_lines 2 rs))
  /\ (forall sheet_name a b na,
         extract_text_from_excel
           (Return [(sheet_name,
                     {| columns := ["x"; "y"; "z"];
                        rows := [[Val a; Missing na; Val b];
                                 [Missing na; Val b; Missing na]] |})])
         = Return (nl ++ "=== SHEET: " ++ sheet_name ++ " ===" ++ nl
                      ++ "COLUMNS: x | y | z" ++ nl
                      ++ "ROW 1: " ++ a ++ " |  | " ++ b ++ nl
                      ++ "ROW 2:  | " ++ b ++ " | " ++ nl)).
Proof.
  assert (Hbook : forall xl_data, Forall as_read xl_data ->
                                  workbook_text xl_data = workbook_layout xl_data).
  { intros xl_data Hread. unfold workbook_text. now rewrite fold_add_sheet. }
  split; [|split; [|split; [|split]]].
  - intros xl_data Hread. now rewrite read_returns, (Hbook _ Hread).
  - intros read_excel excel_path xl_data Hread Hfile.
    unfold extract_text_from_excel_path. rewrite Hfile.
    change (Return (workbook_text xl_data) = Return (workbook_layout xl_data)).
    now rewrite (Hbook _ Hread).
  - intros sheet_name cols. rewrite read_returns, Hbook.
    + cbn [workbook_layout sheet_layout fst snd rows]. now rewrite append_nil_r.
    + constructor; [|constructor]. intros H; now destruct H.
  - intros sheet_name cols row rs Hcols. rewrite read_returns, Hbook.
    + cbn [workbook_layout sheet_layout fst snd rows columns row_lines].
      now rewrite append_nil_r.
    + constructor; [|constructor]. intros _. exact Hcols.
  - intros sheet_name a b na. rewrite read_returns, Hbook.
    + unfold workbook_layout, sheet_layout, sheet_marker, header_line, row_lines, row_line,
        delimiter.
      cbn [fst snd rows columns map rendered join].
      change (dec 1) with "1". change (dec 2) with "2".
      rewrite !append_assoc, !append_nil_r. reflexivity.
    + constructor; [|constructor]. intros _. discriminate.
Qed.

Lemma spreadsheet_layout_witness :
  extract_text_from_excel_path (fun _ => Return Demo.book) "sheets/q1.xlsx"
  = Return (workbook_layout Demo.book).
Proof.
  apply (proj1 (proj2 spreadsheet_layout) (fun _ => Return Demo.book) "sheets/q1.xlsx"
               Demo.book).
  - repeat constructor; discriminate.
  - reflexivity.
Defined.

(** The text of the sample workbook. *)
Example book_text :
  workbook_layout Demo.book
  = nl ++ "=== SHEET: Orders ===" ++ nl
       ++ "COLUMNS: item | qty" ++ nl
       ++ "ROW 1: bolt | 4" ++ nl
       ++ "ROW 2: nut | " ++ nl
       ++ nl ++ "=== SHEET: Notes ===" ++ nl
       ++ "EMPTY SHEET" ++ nl.
Proof. vm_compute. reflexivity. Qed.

(** A frame with rows and no column, which [pd.read_excel] does not
    build, would count as empty. *)
Remark rows_without_columns sheet_name row :
  workbook_text [(sheet_name, {| columns := []; rows := [row] |})]
  = sheet_marker sheet_name ++ empty_sheet_marker.
Proof. unfold workbook_text. simpl. now rewrite append_assoc. Qed.

End NormalizerFacts.

(** ** More on the batch runner *)

Module BatchMore.
Import Text Json Paths Locator Normalizer Extractor Batch Tally.
Import TextFacts PathFacts ExtractorFacts BatchFacts Demo Cases.

Section Loop.
Variable E : env.
Variable fmt : format.
Variable f : string -> string -> outcome value.

#[local] Abbreviation step := (process_file E fmt f).
#[local] Abbreviation run := (process_files E fmt f).

#[local] Ltac step_cases p :=
  unfold process_file, processing_failed, request; cbn [st_world start];
  destruct (read_text fmt E p) as [text|e];
  [destruct (truthy (strip text));
   [destruct (f text (document_type fmt)) as [json_data|e];
    [destruct (write_json E _ json_data)|]|]|].

Lemma step_name w p : map file_name (st_results (step (start w) p)) = [shown_name fmt p].
Proof. step_cases p; reflexivity. Qed.

Lemma step_calls w p :
  model_calls (st_world (step (start w) p)) = (model_calls w ++ request E fmt p)%list.
Proof. step_cases p; simpl; rewrite ?app_nil_r; reflexivity. Qed.

Lemma is_error_status_error e : is_error_status (status_error e) = true.
Proof. apply prefix_append. Qed.

Lemma step_tally w p :
  is_error_status (no_data fmt) = false ->
  length (st_errors (step (start w) p))
  = length (error_outcomes (st_results (step (start w) p))).
Proof.
intros Hnd. step_cases p; unfold error_outcomes; simpl;
  rewrite ?is_error_status_error, ?Hnd; reflexivity.
Qed.

Lemma run_names files : forall w,
  map file_name (st_results (run files w)) = map (shown_name fmt) files.
Proof.
induction files as [|p files IH]; intros w; [reflexivity|].
rewrite run_cons. cbn [extend st_results]. rewrite map_app, step_name, IH. reflexivity.
Qed.

Lemma run_calls files : forall w,
  model_calls (st_world (run files w)) = (model_calls w ++ requests E fmt files)%list.
Proof.
induction files as [|p files IH]; intros w.
- simpl. now rewrite app_nil_r.
- rewrite run_cons. cbn [extend st_world]. rewrite IH, step_calls.
  unfold requests; simpl. now rewrite app_assoc.
Qed.

Lemma error_outcomes_app a b :
  error_outcomes (a ++ b) = (error_outcomes a ++ error_outcomes b)%list.
Proof. apply List.filter_app. Qed.

Lemma run_tally files : forall w,
  is_error_status (no_data fmt) = false ->
  length (st_errors (run files w)) = length (error_outcomes (st_results (run files w))).
Proof.
induction files as [|p files IH]; intros w Hnd; [reflexivity|].
rewrite run_cons. cbn [extend st_results st_errors].
rewrite error_outcomes_app, !length_app, (step_tally w p Hnd), (IH _ Hnd). reflexivity.
Qed.

End Loop.

(** The world after a batch that is not prepared, or locates nothing. *)
Lemma run_batch_world E fmt f src w :
  snd (run_batch E fmt f src w)
  = match located E fmt src, mkdir E (output_dir fmt) with
    | Some files, Return _ => st_world (process_files E fmt f files w)
    | _, _ => w
    end.
Proof.
destruct src as [folder_path|uploaded_zip]; simpl.
- unfold process_folder. destruct (mkdir E (output_dir fmt)); [|reflexivity].
  now destruct (locate_folder E fmt folder_path).
- unfold process_zip. destruct (mkdir E (output_dir fmt)).
  + destruct uploaded_zip as [| |entries]; destruct (temp_dir E) as [t|]; try reflexivity.
    now destruct (walk_find (exts fmt) t entries).
  + destruct uploaded_zip as [| |entries]; try reflexivity.
    now destruct (temp_dir E).
Qed.

(** The report of a batch in terms of the file at one place of the list:
    what the files before it gave, what the file gave, what the files
    after it gave. *)
Lemma run_batch_at E fmt f src w l1 p l2 :
  prepared E fmt src ->
  located E fmt src = Some (l1 ++ p :: l2)%list ->
  let before := process_files E fmt f l1 w in
  let here := process_file E fmt f (start (st_world before)) p in
  let rest := process_files E fmt f l2 (st_world here) in
  exists r,
    run_batch E fmt f src w = (Return r, st_world rest)
    /\ results r = (st_results before ++ st_results here ++ st_results rest)%list
    /\ errors r = (st_errors before ++ st_errors here ++ st_errors rest)%list
    /\ success r = Nat.eqb (length (errors r)) 0.
Proof.
intros Hp Hl before here rest.
rewrite (run_batch_found E fmt f src w _ Hp Hl ltac:(now destruct l1)).
cbv zeta. rewrite run_app, run_cons. fold before. fold here. fold rest.
eexists. split; [reflexivity|]. repeat split.
Qed.

(** X1. The outcomes of a prepared batch follow the located files: one
    outcome per file, in the order of discovery, each under the name that
    the format shows for that file. *)
Theorem outcomes_follow_files E fmt f src w files :
  prepared E fmt src ->
  located E fmt src = Some files ->
  exists r,
    fst (run_batch E fmt f src w) = Return r
    /\ map file_name (results r) = map (shown_name fmt) files
    /\ length (results r) = length files.
Proof.
intros Hp Hl. destruct files as [|p files].
- destruct (run_batch_nothing E fmt f src w Hp (or_introl Hl)) as [e ->].
  eexists; split; [reflexivity|]. split; reflexivity.
- rewrite (run_batch_found E fmt f src w _ Hp Hl ltac:(discriminate)).
  eexists; split; [reflexivity|]. cbn [fst summary results].
  split; [apply run_names | apply run_counts].
Qed.

Lemma outcomes_follow_files_witness :
  exists r,
    fst (run_batch office pdf_format echo (Zip (Extracted bundle)) fresh) = Return r
    /\ map file_name (results r)
       = map (shown_name pdf_format)
             ["/tmp/tmpk3v9/jan/inv.pdf"; "/tmp/tmpk3v9/feb/late/inv.pdf"]
    /\ length (results r) = 2.
Proof.
apply (outcomes_follow_files office pdf_format echo (Zip (Extracted bundle)) fresh
         ["/tmp/tmpk3v9/jan/inv.pdf"; "/tmp/tmpk3v9/feb/late/inv.pdf"]).
- split; [reflexivity | exists "/tmp/tmpk3v9"; reflexivity].
- vm_compute. reflexivity.
Defined.

(** X2. In a PDF or spreadsheet batch that locates files, there are as
    many error entries as outcomes with an error status, and [success] is
    true exactly when no outcome has an error status; an outcome without
    data is not one of them. *)
Theorem errors_are_error_outcomes E fmt f src w files :
  fmt = pdf_format \/ fmt = excel_format ->
  prepared E fmt src ->
  located E fmt src = Some files ->
  files <> [] ->
  exists r,
    fst (run_batch E fmt f src w) = Return r
    /\ length (errors r) = length (error_outcomes (results r))
    /\ (success r = true <-> error_outcomes (results r) = [])
    /\ is_error_status (no_data fmt) = false.
Proof.
intros Hfmt Hp Hl Hne.
assert (Hnd : is_error_status (no_data fmt) = false).
{ destruct Hfmt as [-> | ->]; vm_compute; reflexivity. }
rewrite (run_batch_found E fmt f src w _ Hp Hl Hne).
eexists; split; [reflexivity|]. cbn [fst summary results errors success].
pose proof (run_tally E fmt f files w Hnd) as Htally.
split; [exact Htally|]. split; [|exact Hnd].
rewrite Htally.
destruct (error_outcomes _); simpl; split; congruence.
Qed.

Lemma errors_are_error_outcomes_witness :
  exists r,
    fst (run_batch office pdf_format echo (Folder "scans") fresh) = Return r
    /\ length (errors r) = length (error_outcomes (results r))
    /\ (success r = true <-> error_outcomes (results r) = [])
    /\ is_error_status (no_data pdf_format) = false.
Proof.
apply (errors_are_error_outcomes office pdf_format echo (Folder "scans") fresh
         ["scans/blank.pdf"; "scans/a.pdf"]).
- now left.
- split; [reflexivity | exact I].
- vm_compute. reflexivity.
- discriminate.
Defined.

Lemma requests_bound E fmt files :
  length (requests E fmt files) <= length files
  /\ Forall (fun c => snd c = document_type fmt) (requests E fmt files).
Proof.
induction files as [|p files [IH1 IH2]]; [split; [simpl; lia | constructor]|].
unfold requests in *. cbn [flat_map]. rewrite length_app.
unfold request at 1 3.
destruct (read_text fmt E p) as [text|e]; [destruct (truthy (strip text))|];
  simpl; split; try lia; try assumption.
constructor; [reflexivity | assumption].
Qed.

(** X4. A prepared batch calls the extraction function once for each
    located file that is read and has text that is not blank, in the order
    of discovery, with the text of the file and the document type of the
    format, and makes no other call: never for an unreadable or blank
    file, and never twice for a file. *)
Theorem one_call_per_readable_file E fmt f src w files :
  prepared E fmt src ->
  located E fmt src = Some files ->
  model_calls (snd (run_batch E fmt f src w)) = (model_calls w ++ requests E fmt files)%list
  /\ length (requests E fmt files) <= length files
  /\ Forall (fun c => snd c = document_type fmt) (requests E fmt files).
Proof.
intros [Hm _] Hl. split; [|apply requests_bound].
rewrite run_batch_world, Hl, Hm. apply run_calls.
Qed.

Lemma one_call_per_readable_file_witness :
  model_calls (snd (run_batch office pdf_format echo (Folder "scans") used))
  = (model_calls used
       ++ requests office pdf_format ["scans/blank.pdf"; "scans/a.pdf"])%list
  /\ length (requests office pdf_format ["scans/blank.pdf"; "scans/a.pdf"]) <= 2
  /\ Forall (fun c => snd c = document_type pdf_format)
            (requests office pdf_format ["scans/blank.pdf"; "scans/a.pdf"]).
Proof.
apply (one_call_per_readable_file office pdf_format echo (Folder "scans") used
         ["scans/blank.pdf"; "scans/a.pdf"]).
- split; [reflexivity | exact I].
- vm_compute. reflexivity.
Defined.

(** What the sample asks of the model: the readable file only. *)
Example requests_of_scans :
  requests office pdf_format ["scans/blank.pdf"; "scans/a.pdf"]
  = [("Invoice of scans/a.pdf", "PDF document")].
Proof. vm_compute. reflexivity. Qed.

(** X6. When the extraction function raises for a located file, the
    batch records the error outcome with the output name N/A at the place
    of the file and one error entry naming the file, writes nothing for
    it, goes on with the files after it and ends with [success] false. *)
Theorem extraction_failure_recorded E fmt f src w l1 p l2 text e :
  prepared E fmt src ->
  located E fmt src = Some (l1 ++ p :: l2)%list ->
  read_text fmt E p = Return text ->
  truthy (strip text) = true ->
  f text (document_type fmt) = Raise e ->
  let before := process_files E fmt f l1 w in
  let rest :=
    process_files E fmt f l2 (called text (document_type fmt) (st_world before)) in
  exists r,
    run_batch E fmt f src w = (Return r, st_world rest)
    /\ results r = (st_results before ++ unprocessed fmt p e :: st_results rest)%list
    /\ errors r = (st_errors before
                     ++ ("Error processing " ++ error_name fmt p ++ ": " ++ e)%string
                     :: st_errors rest)%list
    /\ success r = false.
Proof.
intros Hp Hl Hr Ht Hf before rest.
destruct (run_batch_at E fmt f src w l1 p l2 Hp Hl) as [r [Hrun [Hres [Herr Hs]]]].
assert (Hhere : process_file E fmt f (start (st_world before)) p
                = {| st_results := [unprocessed fmt p e];
                     st_errors := ["Error processing " ++ error_name fmt p ++ ": " ++ e];
                     st_world := called text (document_type fmt) (st_world before) |}).
{ unfold process_file. cbn [st_world start]. rewrite Hr, Ht, Hf. reflexivity. }
fold before in Hrun, Hres, Herr. rewrite Hhere in Hrun, Hres, Herr.
exists r. repeat split; try assumption.
rewrite Hs, Herr, length_app. simpl. apply Nat.eqb_neq. lia.
Qed.

Lemma extraction_failure_recorded_witness :
  exists r,
    run_batch office pdf_format refusing (Folder "scans") fresh
    = (Return r,
       st_world (process_files office pdf_format refusing []
                   (called "Invoice of scans/a.pdf" (document_type pdf_format)
                      (st_world (process_files office pdf_format refusing
                                               ["scans/blank.pdf"] fresh)))))
    /\ results r
       = (st_results (process_files office pdf_format refusing ["scans/blank.pdf"] fresh)
            ++ unprocessed pdf_format "scans/a.pdf" "429 quota exceeded"
            :: st_results
                 (process_files office pdf_format refusing []
                    (called "Invoice of scans/a.pdf" (document_type pdf_format)
                       (st_world (process_files office pdf_format refusing
                                                ["scans/blank.pdf"] fresh)))))%list
    /\ errors r
       = (st_errors (process_files office pdf_format refusing ["scans/blank.pdf"] fresh)
            ++ ("Error processing " ++ error_name pdf_format "scans/a.pdf" ++ ": "
                                    ++ "429 quota exceeded")%string
            :: st_errors
                 (process_files office pdf_format refusing []
                    (called "Invoice of scans/a.pdf" (document_type pdf_format)
                       (st_world (process_files office pdf_format refusing
                                                ["scans/blank.pdf"] fresh)))))%list
    /\ success r = false.
Proof.
apply (extraction_failure_recorded office pdf_format refusing (Folder "scans") fresh
         ["scans/blank.pdf"] "scans/a.pdf" [] "Invoice of scans/a.pdf"
         "429 quota exceeded").
- split; [reflexivity | exact I].
- vm_compute. reflexivity.
- vm_compute. reflexivity.
- vm_compute. reflexivity.
- reflexivity.
Defined.

(** The report on the sample folder when the model refuses. *)
Example scans_refused :
  fst (run_batch office pdf_format refusing (Folder "scans") fresh)
  = Return {| success := false;
              results := [without_data pdf_format "scans/blank.pdf";
                          unprocessed pdf_format "scans/a.pdf" "429 quota exceeded"];
              errors := ["Error processing a.pdf: 429 quota exceeded"];
              total_files := 2;
              files_found := ["scans/blank.pdf"; "scans/a.pdf"] |}.
Proof. vm_compute. reflexivity. Qed.

(** X7. When writing the result of a located file raises, the batch
    records an error outcome that keeps the name of the output file, and
    one error entry that begins with "Error saving JSON for"; if [open]
    raised, no file is changed; the batch goes on and ends with [success]
    false. *)
Theorem write_failure_recorded E fmt f src w l1 p l2 text json_data e :
  prepared E fmt src ->
  located E fmt src = Some (l1 ++ p :: l2)%list ->
  read_text fmt E p = Return text ->
  truthy (strip text) = true ->
  f text (document_type fmt) = Return json_data ->
  write_json E (target fmt p) json_data = OpenRaised e
  \/ write_json E (target fmt p) json_data = DumpRaised e ->
  let before := process_files E fmt f l1 w in
  let asked := called text (document_type fmt) (st_world before) in
  let left :=
    match write_json E (target fmt p) json_data with
    | DumpRaised _ => stored (target fmt p) Truncated asked
    | _ => asked
    end in
  let rest := process_files E fmt f l2 left in
  exists r,
    run_batch E fmt f src w = (Return r, st_world rest)
    /\ results r
       = (st_results before
            ++ {| file_name := shown_name fmt p; json_file := (stem p ++ ".json")%string;
                  status := status_error e |}
            :: st_results rest)%list
    /\ errors r = (st_errors before
                     ++ ("Error saving JSON for " ++ error_name fmt p ++ ": " ++ e)%string
                     :: st_errors rest)%list
    /\ success r = false
    /\ (write_json E (target fmt p) json_data = OpenRaised e -> disk left = disk (st_world before)).
Proof.
intros Hp Hl Hr Ht Hf Hw before asked left rest.
destruct (run_batch_at E fmt f src w l1 p l2 Hp Hl) as [r [Hrun [Hres [Herr Hs]]]].
assert (Hhere : process_file E fmt f (start (st_world before)) p
                = {| st_results := [ {| file_name := shown_name fmt p;
                                        json_file := stem p ++ ".json";
                                        status := status_error e |} ];
                     st_errors := ["Error saving JSON for " ++ error_name fmt p ++ ": " ++ e];
                     st_world := left |}).
{ unfold process_file, left, asked. cbn [st_world start]. rewrite Hr, Ht, Hf.
  fold (target fmt p). destruct Hw as [-> | ->]; reflexivity. }
fold before in Hrun, Hres, Herr. rewrite Hhere in Hrun, Hres, Herr.
exists r. split; [exact Hrun|]. split; [exact Hres|]. split; [exact Herr|]. split.
- rewrite Hs, Herr, length_app. simpl. apply Nat.eqb_neq. lia.
- intros Hopen. unfold left. rewrite Hopen. reflexivity.
Qed.

Lemma write_failure_recorded_witness :
  exists r,
    fst (run_batch read_only pdf_format echo (Folder "scans") fresh) = Return r
    /\ results r
       = [without_data pdf_format "scans/blank.pdf";
          {| file_name := "a.pdf"; json_file := "a.json";
             status := status_error "[Errno 13] Permission denied" |}]
    /\ errors r = ["Error saving JSON for a.pdf: [Errno 13] Permission denied"]
    /\ success r = false.
Proof.
destruct (write_failure_recorded read_only pdf_format echo (Folder "scans") fresh
            ["scans/blank.pdf"] "scans/a.pdf" [] "Invoice of scans/a.pdf"
            (JStr "Invoice of scans/a.pdf") "[Errno 13] Permission denied")
  as [r [Hrun [Hres [Herr [Hs _]]]]].
- split; [reflexivity | exact I].
- vm_compute. reflexivity.
- vm_compute. reflexivity.
- vm_compute. reflexivity.
- reflexivity.
- left. reflexivity.
- exists r. rewrite Hrun, Hres, Herr, Hs. repeat split; vm_compute; reflexivity.
Defined.

(** X8. With [extract_with_gemini] as the extraction function, a
    completion that does not parse is no failure of the batch: the error
    record is written to the output file, the file gets the success
    outcome, and no error entry is added for it. *)
Theorem unparsable_completion_is_success E fmt depth generate src w l1 p l2 text completion e :
  prepared E fmt src ->
  located E fmt src = Some (l1 ++ p :: l2)%list ->
  read_text fmt E p = Return text ->
  truthy (strip text) = true ->
  generate (prompt text (document_type fmt)) = Return completion ->
  json_loads depth (clean completion) = Raise e ->
  write_json E (target fmt p) (error_record e (clean completion)) = Written ->
  let f := extract_with_gemini depth generate in
  let before := process_files E fmt f l1 w in
  let left :=
    stored (target fmt p) (Dumped (error_record e (clean completion)))
           (called text (document_type fmt) (st_world before)) in
  let rest := process_files E fmt f l2 left in
  exists r,
    run_batch E fmt f src w = (Return r, st_world rest)
    /\ results r = (st_results before ++ succeeded fmt p :: st_results rest)%list
    /\ errors r = (st_errors before ++ st_errors rest)%list
    /\ disk left !! target fmt p = Some (Dumped (error_record e (clean completion))).
Proof.
intros Hp Hl Hr Ht Hg He Hw f before left rest.
destruct (run_batch_at E fmt f src w l1 p l2 Hp Hl) as [r [Hrun [Hres [Herr Hs]]]].
assert (Hf : f text (document_type fmt) = Return (error_record e (clean completion))).
{ unfold f. rewrite (extract_returns _ _ _ _ _ Hg). unfold parse. now rewrite He. }
assert (Hhere : process_file E fmt f (start (st_world before)) p
                = {| st_results := [succeeded fmt p]; st_errors := [];
                     st_world := left |}).
{ unfold process_file, left. cbn [st_world start]. rewrite Hr, Ht, Hf.
  fold (target fmt p). rewrite Hw. reflexivity. }
fold before in Hrun, Hres, Herr. rewrite Hhere in Hrun, Hres, Herr.
exists r. split; [exact Hrun|]. split; [exact Hres|]. split; [exact Herr|].
apply lookup_insert_eq.
Qed.

Lemma unparsable_completion_is_success_witness :
  exists r,
    fst (run_batch office pdf_format (extract_with_gemini allowed (answering "not json"))
                   (Folder "scans") fresh) = Return r
    /\ results r = [without_data pdf_format "scans/blank.pdf";
                    succeeded pdf_format "scans/a.pdf"]
    /\ errors r = []
    /\ success r = true.
Proof.
destruct (unparsable_completion_is_success office pdf_format allowed (answering "not json")
            (Folder "scans") fresh ["scans/blank.pdf"] "scans/a.pdf" []
            "Invoice of scans/a.pdf" "not json"
            "Expecting value: line 1 column 1 (char 0)")
  as [r [Hrun [Hres [Herr _]]]].
- split; [reflexivity | exact I].
- vm_compute. reflexivity.
- vm_compute. reflexivity.
- vm_compute. reflexivity.
- reflexivity.
- vm_compute. reflexivity.
- reflexivity.
- exists r. rewrite Hrun. split; [reflexivity|].
  pose proof (f_equal fst Hrun) as Hfst. cbn [fst] in Hfst.
  assert (Hs : success r = Nat.eqb (length (errors r)) 0).
  { revert Hfst. vm_compute. intros [= <-]. reflexivity. }
  rewrite Hs, Hres, Herr. repeat split; vm_compute; reflexivity.
Defined.

End BatchMore.

(** ** More on paths and source location *)

Module LocatorMore.
Import Text Paths Locator Batch Tally.
Import TextFacts PathFacts LocatorFacts BatchFacts BatchMore Demo Cases.
#[local] Arguments String.append !_ _ / : simpl nomatch.

Lemma rpartition_some p s : forall h t,
  rpartition p s = Some (h, t) ->
  exists c, p c = true /\ s = h ++ String c t.
Proof.
induction s as [|x s IH]; intros h t; simpl; [discriminate|].
destruct (rpartition p s) as [[h' t']|].
- intros [= <- <-]. destruct (IH h' t' eq_refl) as [c [Hc ->]]. exists c. now split.
- destruct (p x) eqn:Hx; [|discriminate].
  intros [= <- <-]. exists x. now split.
Qed.

Lemma is_dot_char c : is_dot c = true -> c = "."%char.
Proof.
unfold is_dot, char_is, code. intros H. apply N.eqb_eq in H.
rewrite <- (ascii_N_embedding c), H. reflexivity.
Qed.

(** A name is its stem followed by its suffix. *)
Lemma stem_suffix p : stem p ++ suffix p = name p.
Proof.
unfold stem, suffix.
destruct (rpartition is_dot (name p)) as [[h t]|] eqn:Hdot; [|apply append_nil_r].
destruct (rpartition_some _ _ _ _ Hdot) as [c [Hc Hname]].
apply is_dot_char in Hc. subst c.
destruct h as [|x h]; [apply append_nil_r|].
destruct t as [|y t]; [apply append_nil_r|].
now rewrite Hname.
Qed.




(** X9. In a spreadsheet batch the outcome of a file carries the base
    name of the located path, extension included as it is written; for an
    archive the names of the outcomes are the entries of [files_found],
    for a folder they are the base names of those entries. *)
Theorem spreadsheet_outcomes_named_as_found E f src w files :
  prepared E excel_format src ->
  located E excel_format src = Some files ->
  files <> [] ->
  exists r,
    fst (run_batch E excel_format f src w) = Return r
    /\ map file_name (results r) = map name files
    /\ match src with
       | Zip _ => map file_name (results r) = files_found r
       | Folder _ => map file_name (results r) = map name (files_found r)
       end.
Proof.
intros Hp Hl Hne.
rewrite (run_batch_found E excel_format f src w _ Hp Hl Hne).
eexists; split; [reflexivity|]. cbn [fst summary results files_found].
assert (Hnames : map file_name (st_results (process_files E excel_format f files w))
                 = map name files).
{ rewrite run_names. apply map_ext. intros p. apply stem_suffix. }
split; [exact Hnames | now destruct src].
Qed.

Lemma spreadsheet_outcomes_named_as_found_witness :
  exists r,
    fst (run_batch office excel_format echo (Folder "sheets") fresh) = Return r
    /\ map file_name (results r) = map name ["sheets/q1.xlsx"]
    /\ map file_name (results r) = map name (files_found r).
Proof.
apply (spreadsheet_outcomes_named_as_found office echo (Folder "sheets") fresh
         ["sheets/q1.xlsx"]).
- split; [reflexivity | exact I].
- vm_compute. reflexivity.
- discriminate.
Defined.



(** In an archive the PDF outcomes need not carry the names found: the
    extension is replaced by [.pdf]. *)
Example pdf_archive_names :
  exists r,
    fst (process_zip_file office (Extracted odd_bundle) echo fresh) = Return r
    /\ files_found r = [".draft.pdf"; "SCAN.PDF"]
    /\ map file_name (results r) = [".draft.pdf"; "SCAN.pdf"].
Proof. eexists. split; [vm_compute; reflexivity|]. split; reflexivity. Qed.

(** Induction on trees. *)
Lemma node_induction (P : node -> Prop) :
  (forall file, P (File file)) ->
  (forall d entries, Forall P entries -> P (Dir d entries)) ->
  forall n, P n.
Proof.
intros Hfile Hdir.
fix IH 1. intros [file | d entries]; [apply Hfile|].
apply Hdir. induction entries as [|n entries IHentries]; constructor; [apply IH | assumption].
Qed.

Lemma in_file_names_inv file entries : In file (file_names entries) -> In (File file) entries.
Proof.
unfold file_names. intros H. apply in_flat_map in H. destruct H as [n [Hn Hin]].
destruct n as [g | d sub]; [|destruct Hin].
destruct Hin as [<- | []]. exact Hn.
Qed.

Lemma walk_find_sound_step exts entries :
  Forall (accounted exts) entries ->
  forall top p,
    In p (walk_find exts top entries) ->
    exists dirs file,
      in_tree entries dirs file /\ has_ext exts file = true
      /\ p = path_under top dirs file.
Proof.
intros Hall top p Hin. rewrite walk_find_unfold in Hin.
apply in_app_or in Hin. destruct Hin as [Hin | Hin].
- apply in_map_iff in Hin. destruct Hin as [file [<- Hfile]].
  apply filter_In in Hfile. destruct Hfile as [Hfile Hext].
  exists [], file. repeat split; [|exact Hext].
  apply in_here. now apply in_file_names_inv.
- apply in_flat_map in Hin. destruct Hin as [t [Ht Hin]].
  apply in_flat_map in Ht. destruct Ht as [n [Hn Ht]].
  destruct n as [g | d sub]; [destruct Ht|].
  assert (Hsub : In p (walk_find exts (os_path_join top d) sub)).
  { rewrite <- walk_node_dir. apply in_flat_map. exists t. split; assumption. }
  rewrite List.Forall_forall in Hall. specialize (Hall (Dir d sub) Hn top p Hsub).
  destruct Hall as [dirs [file [Htree [Hext ->]]]].
  exists (d :: dirs), file. repeat split; [|exact Hext].
  now apply in_below with (sub := sub).
Qed.

Lemma all_accounted exts n : accounted exts n.
Proof.
induction n as [file | d sub IH] using node_induction; [exact I|].
intros top p. now apply walk_find_sound_step.
Qed.

(** X11. The search of the archive functions returns nothing but files
    of the extracted tree whose lower-cased name ends with one of the
    extensions, each under its path: no directory, no file with another
    extension, and so never the saved [uploaded.zip]. *)
Theorem archive_search_sound exts temp_dir entries p :
  In p (walk_find exts temp_dir entries) ->
  exists dirs file,
    in_tree entries dirs file
    /\ has_ext exts file = true
    /\ p = path_under temp_dir dirs file.
Proof.
apply walk_find_sound_step. apply List.Forall_forall. intros n _. apply all_accounted.
Qed.

Lemma archive_search_sound_witness :
  exists dirs file,
    in_tree bundle dirs file
    /\ has_ext [".pdf"] file = true
    /\ "/tmp/tmpk3v9/feb/late/inv.pdf" = path_under "/tmp/tmpk3v9" dirs file.
Proof.
apply (archive_search_sound [".pdf"] "/tmp/tmpk3v9" bundle "/tmp/tmpk3v9/feb/late/inv.pdf").
vm_compute. auto.
Defined.


Lemma last_char_append a s c :
  last_char s = Some c -> last_char (a ++ s) = Some c.
Proof.
intros Hs. induction a as [|x a IH]; [exact Hs|].
simpl. destruct (a ++ s) eqn:Has; [|exact IH].
destruct a; simpl in Has; [rewrite Has in Hs; discriminate Hs | discriminate Has].
Qed.

(** Two texts that end with different characters. *)
Lemma endswith_last a u e c1 c2 :
  last_char u = Some c1 -> last_char e = Some c2 -> c1 <> c2 ->
  endswith (a ++ u) e = false.
Proof.
intros Hu He Hne. destruct (endswith (a ++ u) e) eqn:Hends; [|reflexivity].
destruct (endswith_split _ _ Hends) as [b Hb].
pose proof (last_char_append a u c1 Hu) as H1.
pose proof (last_char_append b e c2 He) as H2.
rewrite Hb in H1. congruence.
Qed.



(** What only the archive search takes. *)
Example archive_only :
  walk_find [".pdf"] "/t" odd_bundle = ["/t/.draft.pdf"; "/t/SCAN.PDF"]
  /\ glob_ext (fun _ => []) (fun _ => odd_bundle) "/t" ".pdf" = ["/t/x.pdf"].
Proof. split; vm_compute; reflexivity. Qed.

(** No name ends both with [.xlsx] and with [.xls]. *)
Lemma xlsx_is_not_xls n : endswith n ".xlsx" = true -> endswith n ".xls" = false.
Proof.
intros Hx. destruct (endswith_split _ _ Hx) as [a ->].
now apply (endswith_last a ".xlsx" ".xls" "x"%char "s"%char).
Qed.

Lemma glob_in_once listing ext d :
  List.NoDup (map node_name (listing d)) ->
  (forall n, In n (listing d) -> no_slash (node_name n)) ->
  List.NoDup (glob_in listing ext d).
Proof.
intros Hdup Hplain. unfold glob_in.
apply NoDup_map_NoDup_ForallPairs.
- intros x y Hx Hy Heq.
  assert (Hin : forall z, In z (List.filter (fun n => endswith n ext)
                                  (List.filter (fun n => negb (ishidden n))
                                     (map node_name (listing d))))
                          -> no_slash z).
  { intros z Hz. apply filter_In in Hz. destruct Hz as [Hz _].
    apply filter_In in Hz. destruct Hz as [Hz _].
    apply in_map_iff in Hz. destruct Hz as [n [<- Hn]]. now apply Hplain. }
  rewrite <- (name_join d x (Hin x Hx)).
  rewrite <- (name_join d y (Hin y Hy)).
  now rewrite Heq.
- now do 2 apply List.NoDup_filter.
Qed.

Lemma glob_ext_plain expand listing folder_path ext :
  no_slash ext -> has_magic folder_path = false ->
  glob_ext expand listing folder_path ext
  = glob_in listing ext (glob_dirname folder_path ext).
Proof.
intros Hext Hplain. unfold glob_ext.
rewrite (glob_dirs_plain expand folder_path ext Hext Hplain). simpl. apply app_nil_r.
Qed.

(** X13. For a folder path without wildcard characters, the folder
    functions locate no path twice, when the entries of the folder have
    distinct names: the pattern for [.xlsx] and the pattern for [.xls]
    never match the same name. *)
Theorem folder_files_located_once E fmt folder_path :
  fmt = pdf_format \/ fmt = excel_format ->
  has_magic folder_path = false ->
  (forall ext, In ext (exts fmt) ->
     List.NoDup (map node_name (listing E (glob_dirname folder_path ext)))
     /\ forall n, In n (listing E (glob_dirname folder_path ext)) -> no_slash (node_name n)) ->
  List.NoDup (locate_folder E fmt folder_path).
Proof.
intros Hfmt Hmagic Hlist. unfold locate_folder.
destruct Hfmt as [-> | ->]; cbn [exts pdf_format excel_format flat_map].
- rewrite app_nil_r, (glob_ext_plain _ _ _ ".pdf" eq_refl Hmagic).
  destruct (Hlist ".pdf" ltac:(now left)) as [Hdup Hplain].
  now apply glob_in_once.
- rewrite app_nil_r.
  rewrite (glob_ext_plain _ _ _ ".xlsx" eq_refl Hmagic).
  rewrite (glob_ext_plain _ _ _ ".xls" eq_refl Hmagic).
  destruct (Hlist ".xlsx" ltac:(now left)) as [Hdup1 Hplain1].
  destruct (Hlist ".xls" ltac:(right; now left)) as [Hdup2 Hplain2].
  apply List.NoDup_app; try now apply glob_in_once.
  intros p H1 H2.
  apply glob_in_spec in H1. destruct H1 as [n1 [Hn1 [Hp1 [He1 _]]]].
  apply glob_in_spec in H2. destruct H2 as [n2 [Hn2 [Hp2 [He2 _]]]].
  assert (Hsame : node_name n1 = node_name n2).
  { rewrite <- (name_join (glob_dirname folder_path ".xlsx") _ (Hplain1 n1 Hn1)).
    rewrite <- (name_join (glob_dirname folder_path ".xls") _ (Hplain2 n2 Hn2)).
    now rewrite <- Hp1, <- Hp2. }
  rewrite <- Hsame in He2. rewrite (xlsx_is_not_xls _ He1) in He2. discriminate.
Qed.

Lemma folder_files_located_once_witness :
  List.NoDup (locate_folder office excel_format "ledgers").
Proof.
apply (folder_files_located_once office excel_format "ledgers").
- now right.
- reflexivity.
- intros ext Hext.
  assert (Hdir : glob_dirname "ledgers" ext = "ledgers").
  { simpl in Hext. destruct Hext as [<- | [<- | []]]; vm_compute; reflexivity. }
  rewrite Hdir. split.
  + vm_compute. repeat constructor; simpl; intuition discriminate.
  + intros n Hn. vm_compute in Hn.
    destruct Hn as [<- | [<- | [<- | [<- | []]]]]; reflexivity.
Defined.

(** The folder with workbooks of both kinds: the files that the first
    pattern finds come before those of the second, each once. *)
Example ledgers_located :
  locate_folder office excel_format "ledgers"
  = ["ledgers/q1.xlsx"; "ledgers/q1.xls"; "ledgers/old.xls"].
Proof. vm_compute. reflexivity. Qed.

End LocatorMore.

(** ** More on the normalizers *)

Module NormalizerMore.
Import Text Json Paths Locator Normalizer Batch Tally.
Import TextFacts PathFacts NormalizerFacts BatchFacts BatchMore Demo Cases.
#[local] Arguments String.append !_ _ / : simpl nomatch.

Lemma join_empty_cons p rest : join "" (p :: rest) = p ++ join "" rest.
Proof. destruct rest; simpl; [now rewrite append_nil_r | reflexivity]. Qed.

Lemma pages_text_all texts : forall text,
  pages_text text (map Return texts) = Return (text ++ join "" (map or_empty texts)).
Proof.
induction texts as [|t texts IH]; intros text.
- simpl. now rewrite append_nil_r.
- cbn [map pages_text]. change (pages_text (text ++ or_empty t) (map Return texts)
                                = Return (text ++ join "" (or_empty t :: map or_empty texts))).
  now rewrite IH, join_empty_cons, append_assoc.
Qed.

Lemma pages_text_raises texts e later : forall text,
  pages_text text (map Return texts ++ Raise e :: later) = Raise e.
Proof.
induction texts as [|t texts IH]; intros text; [reflexivity|].
cbn [map app pages_text]. apply IH.
Qed.

Lemma join_of_nothing texts :
  Forall (fun t => or_empty t = "") texts -> join "" (map or_empty texts) = "".
Proof.
induction 1 as [|t texts Ht _ IH]; [reflexivity|].
cbn [map]. now rewrite join_empty_cons, Ht, IH.
Qed.

(** X14. The text of a PDF whose pages are all read is the texts of its
    pages one after the other, without separator, a page without text
    adding nothing; both normalizers give it.  When no page has text the
    result is the empty text, however many pages there are. *)
Theorem pdf_text_is_concatenation :
  (forall texts,
      extract_text_from_pdf (Return (map Return texts))
      = Return (join "" (map or_empty texts)))
  /\ (forall open pdf_path texts,
         open pdf_path = Return (map Return texts) ->
         extract_text_from_pdf_path open pdf_path
         = Return (join "" (map or_empty texts)))
  /\ (forall texts,
         Forall (fun t => t = None \/ t = Some "") texts ->
         extract_text_from_pdf (Return (map Return texts)) = Return "").
Proof.
assert (Hall : forall texts,
           extract_text_from_pdf (Return (map Return texts))
           = Return (join "" (map or_empty texts))).
{ intros texts. unfold extract_text_from_pdf.
  change (pages_text "" (map Return texts) = Return (join "" (map or_empty texts))).
  now rewrite pages_text_all. }
split; [exact Hall|]. split.
- intros open pdf_path texts Hopen. unfold extract_text_from_pdf_path. rewrite Hopen.
  change (match pages_text "" (map Return texts) with
          | Return text => Return text
          | Raise e => Raise ("Error reading PDF " ++ pdf_path ++ ": " ++ e)
          end = Return (join "" (map or_empty texts))).
  now rewrite pages_text_all.
- intros texts Hnone. rewrite Hall. f_equal. apply join_of_nothing.
  eapply List.Forall_impl; [|exact Hnone]. intros t [-> | ->]; reflexivity.
Qed.

Lemma pdf_text_is_concatenation_witness :
  extract_text_from_pdf_path (pdf_open office) "scans/blank.pdf"
  = Return (join "" (map or_empty [None; Some (" " ++ utf8 160 ++ utf8 8195 ++ nl)])).
Proof.
apply (proj1 (proj2 pdf_text_is_concatenation) (pdf_open office) "scans/blank.pdf"
             [None; Some (" " ++ utf8 160 ++ utf8 8195 ++ nl)]).
reflexivity.
Defined.

(** X15. In a PDF batch, a file that cannot be opened, or one of whose
    pages cannot be read, gets the error outcome whose status names the
    located path and the cause, whatever the pages before gave and
    whatever pages come after; the error entry names the file by its stem
    and [.pdf]. *)
Theorem pdf_read_failure_names_path E f src w l1 p l2 e :
  prepared E pdf_format src ->
  located E pdf_format src = Some (l1 ++ p :: l2)%list ->
  pdf_open E p = Raise e
  \/ (exists texts later, pdf_open E p = Return (map Return texts ++ Raise e :: later)%list) ->
  let before := process_files E pdf_format f l1 w in
  let rest := process_files E pdf_format f l2 (st_world before) in
  let cause := "Error reading PDF " ++ p ++ ": " ++ e in
  exists r,
    run_batch E pdf_format f src w = (Return r, st_world rest)
    /\ results r
       = (st_results before
            ++ {| file_name := (stem p ++ ".pdf")%string; json_file := "N/A";
                  status := status_error cause |}
            :: st_results rest)%list
    /\ errors r
       = (st_errors before
            ++ ("Error processing " ++ stem p ++ ".pdf: " ++ cause)%string
            :: st_errors rest)%list.
Proof.
intros Hp Hl Hopen before rest cause.
assert (Hread : read_text pdf_format E p = Raise cause).
{ cbn [read_text pdf_format]. unfold extract_text_from_pdf_path.
  destruct Hopen as [-> | [texts [later ->]]]; [reflexivity|].
  change (match pages_text "" (map Return texts ++ Raise e :: later) with
          | Return text => Return text
          | Raise e0 => Raise ("Error reading PDF " ++ p ++ ": " ++ e0)
          end = Raise cause).
  now rewrite pages_text_raises. }
destruct (run_batch_at E pdf_format f src w l1 p l2 Hp Hl) as [r [Hrun [Hres [Herr _]]]].
fold before in Hrun, Hres, Herr.
rewrite (step_read_fails E pdf_format f _ p cause Hread) in Hrun, Hres, Herr.
exists r. split; [exact Hrun|]. split; [exact Hres|].
rewrite Herr. cbn [st_errors error_name pdf_format app].
now rewrite append_assoc.
Qed.

Lemma pdf_read_failure_names_path_witness :
  exists r,
    fst (run_batch office pdf_format echo (Folder "docs") fresh) = Return r
    /\ results r !! 1
       = Some {| file_name := "b.pdf"; json_file := "N/A";
                 status := status_error "Error reading PDF docs/b.pdf: No /Root object" |}.
Proof.
destruct (pdf_read_failure_names_path office echo (Folder "docs") fresh
            ["docs/a.pdf"] "docs/b.pdf" ["docs/c.pdf"] "No /Root object")
  as [r [Hrun [Hres _]]].
- split; [reflexivity | exact I].
- vm_compute. reflexivity.
- left. reflexivity.
- exists r. rewrite Hrun, Hres. split; [reflexivity|]. vm_compute. reflexivity.
Defined.








End NormalizerMore.

(** ** The front end *)

Module UiFacts.
Import Text Json Paths Locator Normalizer Extractor Batch Tally Ui.
Import TextFacts ExtractorFacts BatchFacts BatchMore Demo Cases.

(** A batch that returns a report was prepared. *)
Lemma returned_prepared E fmt f src w r :
  fst (run_batch E fmt f src w) = Return r -> prepared E fmt src.
Proof.
destruct src as [folder_path|uploaded_zip]; simpl.
- unfold process_folder, prepared.
  destruct (mkdir E (output_dir fmt)) as [[]|e]; [auto | discriminate].
- unfold process_zip, prepared.
  destruct (mkdir E (output_dir fmt)) as [[]|e]; [|discriminate].
  destruct (temp_dir E) as [t|e]; [eauto | discriminate].
Qed.

(** The two kinds of report that a batch returns. *)
Lemma returned_report E fmt f src w r :
  fst (run_batch E fmt f src w) = Return r ->
  (exists e, r = failure e)
  \/ (total_files r <> 0 /\ results r <> []
      /\ success r = Nat.eqb (length (errors r)) 0).
Proof.
intros Hr. pose proof (returned_prepared _ _ _ _ _ _ Hr) as Hp.
destruct (located_cases E fmt src) as [Hl | [Hl | [files [Hl Hne]]]].
- destruct (run_batch_nothing E fmt f src w Hp (or_intror Hl)) as [e He].
  rewrite He in Hr. injection Hr as <-. left. eauto.
- destruct (run_batch_nothing E fmt f src w Hp (or_introl Hl)) as [e He].
  rewrite He in Hr. injection Hr as <-. left. eauto.
- rewrite (run_batch_found E fmt f src w files Hp Hl Hne) in Hr.
  injection Hr as <-. right. cbn [summary total_files results success errors].
  pose proof (proj1 (run_counts E fmt f files w)) as Hlen.
  destruct files as [|p files]; [congruence|].
  split; [discriminate|]. split; [|reflexivity].
  destruct (st_results _); [discriminate Hlen | discriminate].
Qed.

(** X17. What the user is shown for the report of a batch.  The value
    returned is the [success] of the report.  A report with errors is
    shown as its error entries and nothing else: no table, also when some
    files went through.  A report without errors is shown as the banner
    with the number of files, the line on the files found, the table of
    all outcomes and the output directory.  The warnings of the last
    lines of [handle_processing_result] are never shown. *)
Theorem display_of_batch_report E fmt f src w abspath file_type r :
  fst (run_batch E fmt f src w) = Return r ->
  let shown := fst (handle_processing_result abspath r file_type) in
  snd (handle_processing_result abspath r file_type) = success r
  /\ (forall msg, ~ In (st_warning msg) shown)
  /\ (success r = false -> errors r <> [] /\ shown = map st_error (errors r))
  /\ (success r = true ->
      shown = [st_success ("✅ Processed " ++ (dec (total_files r) ++ " " ++ file_type)
                                      ++ " successfully!");
               st_info ("Found and processed " ++ dec (total_files r) ++ " " ++ file_type);
               st_subheader "Processing Results:";
               st_table (results r);
               st_info ("JSON files saved in: " ++ abspath (shown_dir file_type))]).
Proof.
intros Hr shown. unfold shown, handle_processing_result.
destruct (returned_report _ _ _ _ _ _ Hr) as [[e ->] | [Htotal [Hres Hs]]].
- cbn. split; [reflexivity|]. split; [|split].
  + intros msg [H | []]. discriminate H.
  + intros _. split; [discriminate | reflexivity].
  + discriminate.
- destruct (success r) eqn:Hsucc; cbn [negb fst snd].
  + split; [reflexivity|].
    assert (Herr : errors r = []).
    { symmetry in Hs. apply Nat.eqb_eq in Hs. now destruct (errors r). }
    rewrite Herr.
    destruct (total_files r) as [|n] eqn:Hn; [congruence|].
    destruct (results r) as [|o rs] eqn:Hrs; [congruence|].
    cbn [Nat.ltb Nat.leb app].
    split; [|split; [discriminate | reflexivity]].
    intros msg H. cbn in H.
    repeat (destruct H as [H | H]; [discriminate H|]). exact H.
  + split; [reflexivity|]. split; [|split; [|discriminate]].
    * intros msg H. apply in_map_iff in H. destruct H as [x [H _]]. discriminate H.
    * intros _. split; [|reflexivity].
      intros Herr. rewrite Herr in Hs. discriminate Hs.
Qed.

Lemma display_of_batch_report_witness :
  snd (handle_processing_result (fun d => "/srv/app/" ++ d)
         {| success := false;
            results := [succeeded pdf_format "docs/a.pdf";
                        unprocessed pdf_format "docs/b.pdf"
                                    "Error reading PDF docs/b.pdf: No /Root object";
                        succeeded pdf_format "docs/c.pdf"];
            errors := ["Error processing b.pdf: Error reading PDF docs/b.pdf: No /Root object"];
            total_files := 3;
            files_found := ["docs/a.pdf"; "docs/b.pdf"; "docs/c.pdf"] |} "PDF files")
  = false.
Proof.
apply (display_of_batch_report office pdf_format echo (Folder "docs") fresh
         (fun d => "/srv/app/" ++ d) "PDF files").
vm_compute. reflexivity.
Defined.

(** What is shown for the sample folder: the error of the second file,
    and nothing on the two files that went through. *)
Example docs_display :
  handle_processing_result (fun d => "/srv/app/" ++ d)
    match fst (run_batch office pdf_format echo (Folder "docs") fresh) with
    | Return r => r
    | Raise e => failure e
    end "PDF files"
  = ([st_error "Error processing b.pdf: Error reading PDF docs/b.pdf: No /Root object"],
     false).
Proof. vm_compute. reflexivity. Qed.

Lemma display_of_shape abspath r file_type :
  snd (handle_processing_result abspath r file_type) = success r.
Proof. unfold handle_processing_result. now destruct (success r). Qed.

(** X18. A run under [process_with_progress] returns true exactly when
    the batch returned a report without errors.  When the output directory
    cannot be made, the exception of [mkdir] is caught there: the user is
    shown "Error during processing" with its message, false is returned,
    and nothing was written or asked. *)
Theorem progress_run E fmt f src w abspath file_type :
  let out := process_with_progress abspath (fst (run_batch E fmt f src w)) file_type in
  (snd out = true <-> exists r, fst (run_batch E fmt f src w) = Return r /\ success r = true)
  /\ (forall e,
         mkdir E (output_dir fmt) = Raise e ->
         out = ([st_progress false;
                 st_text ("Starting " ++ file_type ++ " processing...");
                 st_progress true;
                 st_text "";
                 st_error ("Error during processing: " ++ e)], false)
         /\ snd (run_batch E fmt f src w) = w).
Proof.
intros out. unfold out. split.
- unfold process_with_progress.
  destruct (fst (run_batch E fmt f src w)) as [r|e] eqn:Hr.
  + pose proof (display_of_shape abspath r file_type) as Hok.
    destruct (handle_processing_result abspath r file_type) as [shown ok].
    cbn [snd] in *. subst ok. split.
    * intros Hs. exists r. now split.
    * intros [r' [[= <-] Hs]]. exact Hs.
  + cbn [snd]. split; [discriminate | intros [r [H _]]; discriminate H].
- intros e He.
  assert (Hrun : run_batch E fmt f src w = (Raise e, w)).
  { destruct src; simpl; [unfold process_folder | unfold process_zip]; now rewrite He. }
  rewrite Hrun. split; reflexivity.
Qed.

Lemma progress_run_witness :
  process_with_progress (fun d => "/srv/app/" ++ d)
    (fst (run_batch blocked pdf_format echo (Folder "docs") fresh)) "PDF files"
  = ([st_progress false;
      st_text ("Starting " ++ "PDF files" ++ " processing...");
      st_progress true;
      st_text "";
      st_error ("Error during processing: " ++ "[Errno 17] File exists")], false)
  /\ snd (run_batch blocked pdf_format echo (Folder "docs") fresh) = fresh.
Proof.
apply (proj2 (progress_run blocked pdf_format echo (Folder "docs") fresh
                           (fun d => "/srv/app/" ++ d) "PDF files")).
reflexivity.
Defined.

(** X19. In a single-file tab the extraction function is consulted only
    for a text that is not blank.  For an upload that cannot be read, or
    whose text is blank, what is shown does not depend on the extraction
    function, ends with the no-text error, and the script goes on.  The
    script is left by an exception exactly when the text is not blank and
    the extraction raises: nothing catches it. *)
Theorem single_file_asks_for_text_only t extract uploaded_file :
  ((forall text, uploaded_file = Some (Return text) -> truthy (strip text) = false) ->
   uploaded_file <> None ->
   (forall other, single_file t other uploaded_file = single_file t extract uploaded_file)
   /\ snd (single_file t extract uploaded_file) = Return tt
   /\ exists shown,
        fst (single_file t extract uploaded_file) = (shown ++ [st_error (unreadable t)])%list)
  /\ (forall e,
         snd (single_file t extract uploaded_file) = Raise e <->
         exists text,
           uploaded_file = Some (Return text)
           /\ truthy (strip text) = true
           /\ extract text (label t) = Raise e).
Proof.
split.
- intros Hblank Hsome. destruct uploaded_file as [[text|e]|]; [| |congruence].
  + pose proof (Hblank text eq_refl) as Ht. unfold single_file. rewrite Ht.
    split; [reflexivity|]. split; [reflexivity|]. eexists. reflexivity.
  + unfold single_file. cbn. split; [reflexivity|]. split; [reflexivity|].
    exists [st_spinner (reading t); st_error (read_error t ++ e)]. reflexivity.
- intros e. unfold single_file. destruct uploaded_file as [[text|e']|].
  + destruct (truthy (strip text)) eqn:Ht.
    * destruct (extract text (label t)) as [records|e''] eqn:Hx; cbn [snd].
      -- split; [discriminate|]. intros [text' [[= <-] [_ H]]]. congruence.
      -- split.
         ++ intros [= ->]. exists text. auto.
         ++ intros [text' [[= <-] [_ H]]]. congruence.
    * cbn [snd]. split; [discriminate|]. intros [text' [[= <-] [H _]]]. congruence.
  + cbn. split; [discriminate|]. intros [text' [H _]]. discriminate H.
  + cbn. split; [discriminate|]. intros [text' [H _]]. discriminate H.
Qed.

Lemma single_file_asks_for_text_only_witness :
  (forall other,
      single_file pdf_tab other (Some (Return (utf8 160 ++ utf8 8195 ++ nl)))
      = single_file pdf_tab refusing (Some (Return (utf8 160 ++ utf8 8195 ++ nl))))
  /\ snd (single_file pdf_tab refusing (Some (Return (utf8 160 ++ utf8 8195 ++ nl))))
     = Return tt
  /\ exists shown,
       fst (single_file pdf_tab refusing (Some (Return (utf8 160 ++ utf8 8195 ++ nl))))
       = (shown ++ [st_error (unreadable pdf_tab)])%list.
Proof.
apply (proj1 (single_file_asks_for_text_only pdf_tab refusing
                (Some (Return (utf8 160 ++ utf8 8195 ++ nl))))).
- intros text [= <-]. vm_compute. reflexivity.
- discriminate.
Defined.

(** A text of blank characters outside ASCII is no text: the extraction
    function, which would raise, is not called. *)
Example blank_upload :
  single_file pdf_tab refusing (Some (Return (utf8 160 ++ utf8 8195 ++ nl)))
  = ([st_spinner "Reading PDF..."; st_error "No readable text found in PDF."], Return tt).
Proof. vm_compute. reflexivity. Qed.

(** X20. What the single-file tabs show for an upload that cannot be
    read: the reading error and then the no-text error, without asking the
    model.  In the spreadsheet tab the reading error carries its prefix
    twice, once from the normalizer and once from the tab; in the PDF tab
    the normalizer for uploads adds none. *)
Theorem single_file_read_failure extract e :
  single_pdf extract (Some (Raise e))
  = ([st_spinner "Reading PDF..."; st_error ("Error reading PDF: " ++ e);
      st_error "No readable text found in PDF."], Return tt)
  /\ (forall pages later,
         single_pdf extract (Some (Return (map Return pages ++ Raise e :: later)%list))
         = ([st_spinner "Reading PDF..."; st_error ("Error reading PDF: " ++ e);
             st_error "No readable text found in PDF."], Return tt))
  /\ single_excel extract (Some (Raise e))
     = ([st_spinner "Reading Excel file...";
         st_error ("Error reading Excel file: " ++ "Error reading Excel file: " ++ e);
         st_error "No readable data found in Excel file."], Return tt).
Proof.
split; [reflexivity|]. split; [|reflexivity].
intros pages later. unfold single_pdf, option_map, extract_text_from_pdf.
change (single_file pdf_tab extract
          (Some (pages_text "" (map Return pages ++ Raise e :: later)))
        = ([st_spinner "Reading PDF..."; st_error ("Error reading PDF: " ++ e);
            st_error "No readable text found in PDF."], Return tt)).
now rewrite NormalizerMore.pages_text_raises.
Qed.

(** X21. In a single-file tab with [extract_with_gemini], a completion
    that does not parse is shown under the success banner: the error
    record is displayed as the extracted JSON. *)
Theorem single_file_shows_error_record t depth generate text completion e :
  truthy (strip text) = true ->
  generate (prompt text (label t)) = Return completion ->
  json_loads depth (clean completion) = Raise e ->
  single_file t (extract_with_gemini depth generate) (Some (Return text))
  = ([st_spinner (reading t); st_spinner (extracting t);
      st_success "✅ Extracted JSON";
      st_json (JDict [("error", JStr ("Failed to parse JSON: " ++ e));
                      ("raw", JStr (clean completion))])],
     Return tt).
Proof.
intros Ht Hg He. unfold single_file. rewrite Ht, (extract_returns _ _ _ _ _ Hg).
unfold parse. rewrite He. reflexivity.
Qed.

Lemma single_file_shows_error_record_witness :
  single_file pdf_tab (extract_with_gemini allowed (answering "not json"))
              (Some (Return "Invoice 7"))
  = ([st_spinner (reading pdf_tab); st_spinner (extracting pdf_tab);
      st_success "✅ Extracted JSON";
      st_json (JDict [("error", JStr ("Failed to parse JSON: "
                                        ++ "Expecting value: line 1 column 1 (char 0)"));
                      ("raw", JStr (clean "not json"))])],
     Return tt).
Proof.
apply (single_file_shows_error_record pdf_tab allowed (answering "not json") "Invoice 7"
         "not json"
         "Expecting value: line 1 column 1 (char 0)").
- reflexivity.
- reflexivity.
- vm_compute. reflexivity.
Defined.

End UiFacts.
